(** * InsightShield vulnerability-analysis pipeline: a shallow embedding

    The Python sources under [va_tool/] are embedded as Rocq functions:
    - [va_tool/processing/scoring.py]        (score banding, exploitability)
    - [va_tool/processing/categorization.py] (severity and bucket heuristics)
    - [va_tool/processing/analysis.py]       (enrichment and aggregation views)
    - [va_tool/data/api.py]                  (NVD lookup client)
    - [va_tool/data/cache.py]                (CSV cache of CVE details)
    - [va_tool/processing/core.py]           (pipeline orchestration)
    - [va_tool/data/loaders.py]              (input files)

    Python values keep their dynamic typing: a DataFrame cell is a [cell],
    a Python [float] is a binary64 [float], a [dict] with string keys is a
    [gmap string _], and a call that may raise returns a [pyresult]. *)

From Stdlib Require Import ZArith Lia Floats Ascii String Sorting.Sorted.
From stdpp Require Import base option list gmap strings sorting.

Set Warnings "-inexact-float,-register-all".
Open Scope Z_scope.

(** ** Python exceptions as an error monad *)

Inductive exn :=
  | ValueError | TypeError | KeyError | AttributeError | IndexError | OSError
  | OverflowError
  | RequestException
  | Unsupported (* a pandas behaviour this embedding does not cover *).

Inductive pyresult (A : Type) :=
  | Ok (a : A)
  | Raise (e : exn).
Arguments Ok {A} a.
Arguments Raise {A} e.

Definition pbind {A B} (m : pyresult A) (k : A -> pyresult B) : pyresult B :=
  match m with Ok a => k a | Raise e => Raise e end.

#[global] Instance pyresult_bind : MBind pyresult := fun A B k m => pbind m k.
#[global] Instance pyresult_ret : MRet pyresult := @Ok.

(** [try: body except (e1, e2, ...): handler] *)
Definition try_except {A} (body : pyresult A) (caught : exn -> bool)
    (handler : pyresult A) : pyresult A :=
  match body with
  | Ok a => Ok a
  | Raise e => if caught e then handler else Raise e
  end.

Fixpoint pmapM {A B} (f : A -> pyresult B) (l : list A) : pyresult (list B) :=
  match l with
  | [] => Ok []
  | a :: l' => b ← f a; bs ← pmapM f l'; Ok (b :: bs)
  end.

(** ** DataFrame cells *)

(** What a cell of a DataFrame read from a spreadsheet can hold: a missing
    value ([None]; a float [NaN] is [Num nan]), a text, a float64 or an
    integer: an int64 in a numeric column, a Python [int] of any size in a
    column of objects. *)
Inductive cell :=
  | Null
  | Str (s : string)
  | Num (f : float)
  | Int (z : Z).

(** [pd.isna] on a scalar. *)
Definition pd_isna (c : cell) : bool :=
  match c with
  | Null => true
  | Num f => PrimFloat.is_nan f
  | _ => false
  end.

(** The binary64 nearest to an integer, ties to even: the value of
    Python's [float(int)] when it returns. *)
Definition float_of_Z (z : Z) : float :=
  SF2Prim (binary_normalize prec emax z 0 false).

(** The integers [float(int)] refuses with [OverflowError]: those that
    round beyond the largest binary64, which is [2^1024 - 2^971]; the
    first of them is half a unit in the last place above it. *)
Definition float_overflows (z : Z) : bool := (2 ^ 1024 - 2 ^ 970 <=? Z.abs z).

(** Python truthiness of a cell ([if x:]). *)
Definition truthy (c : cell) : bool :=
  match c with
  | Null => false
  | Str s => negb (String.eqb s "")
  | Num f => negb (f =? 0)%float
  | Int z => negb (z =? 0)
  end.

(** ** Strings *)

Definition lower_ascii (a : ascii) : ascii :=
  let n := N_of_ascii a in
  if ((65 <=? n) && (n <=? 90))%N then ascii_of_N (n + 32) else a.

(** [str.lower] on ASCII text: the letters A to Z are folded. A text is
    kept as its bytes, and Python folds the letters beyond ASCII as well,
    which this function leaves as they are; what is stated below about
    letter case is stated for ASCII text. *)
Fixpoint lower (s : string) : string :=
  match s with
  | EmptyString => EmptyString
  | String a s' => String (lower_ascii a) (lower s')
  end.

(** [str.isascii] *)
Fixpoint is_ascii (s : string) : bool :=
  match s with
  | EmptyString => true
  | String a s' => (N_of_ascii a <? 128)%N && is_ascii s'
  end.

(** [p in s] for two strings. *)
Fixpoint contains (p s : string) : bool :=
  String.prefix p s ||
  match s with
  | EmptyString => false
  | String _ s' => contains p s'
  end.

(** [sep.join(l)] *)
Definition join (sep : string) (l : list string) : string := String.concat sep l.

(** [s.split(c)[0]]: the text before the first occurrence of [c]. *)
Fixpoint split_head (c : ascii) (s : string) : string :=
  match s with
  | EmptyString => EmptyString
  | String a s' => if Ascii.eqb a c then EmptyString else String a (split_head c s')
  end.

(** ** DataFrames *)

(** A row is a mapping from column label to cell; a frame keeps its column
    labels in order next to its rows. *)
Abbreviation row := (gmap string cell).

Record DataFrame := { columns : list string; rows : list row }.

(** [c in df.columns] *)
Definition has_column (df : DataFrame) (c : string) : bool :=
  bool_decide (c ∈ columns df).

(** The cell of a row under a label; a cell that was never set reads as
    a missing value. *)
Definition cell_of (r : row) (c : string) : cell := default Null (r !! c).

(** [row[k]] on a row Series. *)
Definition getitem (r : row) (k : string) : pyresult cell :=
  match r !! k with Some c => Ok c | None => Raise KeyError end.

(** [row.get(k, d)] on a row Series. *)
Definition row_get (r : row) (k : string) (d : cell) : cell := default d (r !! k).

Definition add_label (cols : list string) (c : string) : list string :=
  if bool_decide (c ∈ cols) then cols else cols ++ [c].

(** [df[c] = <one value per row>], the values computed from each row by
    [f]; the first exception raised by [f] aborts the assignment. *)
Definition set_column (df : DataFrame) (c : string) (f : row -> pyresult cell)
    : pyresult DataFrame :=
  rs ← pmapM (fun r => v ← f r; Ok (<[c := v]> r)) (rows df);
  Ok {| columns := add_label (columns df) c; rows := rs |}.

(** [df[mask]] for a row-wise boolean mask. *)
Definition filter_rows (p : row -> bool) (df : DataFrame) : DataFrame :=
  {| columns := columns df; rows := List.filter p (rows df) |}.

(** [series.isin(values)] on one cell, for a list of texts. *)
Definition isin (c : cell) (values : list string) : bool :=
  match c with Str s => bool_decide (s ∈ values) | _ => false end.

(** [series == text] on one cell. *)
Definition cell_is (c : cell) (s : string) : bool :=
  match c with Str s' => String.eqb s' s | _ => false end.

(** [d.get(k, dflt)] for a dict with text keys looked up at a cell. *)
Definition dict_get {V} (d : gmap string V) (k : cell) (dflt : V) : V :=
  match k with Str s => default dflt (d !! s) | _ => dflt end.

(** [df.to_dict(orient="records")]: one mapping per row, holding every
    column of the frame. *)
Definition to_records (df : DataFrame) : list row :=
  (fun r => list_to_map ((fun c => (c, cell_of r c)) <$> columns df)) <$> rows df.

(** utils/helpers.py, [clean_for_json]: NaN and the infinities become
    [None], then the frame is turned into records. *)
Definition clean_cell (c : cell) : cell :=
  match c with
  | Num f =>
      if PrimFloat.is_nan f || (f =? infinity)%float || (f =? neg_infinity)%float
      then Null else Num f
  | _ => c
  end.

Definition clean_for_json (df : DataFrame) : list row :=
  to_records {| columns := columns df; rows := (fun r : row => clean_cell <$> r) <$> rows df |}.

Module Scoring.

Section Scoring.

(** Python's builtin [float] on a [str]; [None] stands for [ValueError].
    The parser belongs to the interpreter, not to the repository. *)
Variable float_of_str : string -> option float.

(** [float(score)] for a cell. *)
Definition py_float (c : cell) : pyresult float :=
  match c with
  | Null => Raise TypeError
  | Str s => match float_of_str s with Some f => Ok f | None => Raise ValueError end
  | Num f => Ok f
  | Int z => if float_overflows z then Raise OverflowError else Ok (float_of_Z z)
  end.

Definition value_or_type_error (e : exn) : bool :=
  match e with ValueError | TypeError => true | _ => false end.

(** scoring.py, lines 9-33 *)
Definition categorize_cvss_score (score : cell) : pyresult string :=
  if pd_isna score then Ok "Not Assigned"
  else
    try_except
      (score ← py_float score;
       if (9.0 <=? score)%float then Ok "Critical"
       else if (7.0 <=? score)%float then Ok "High"
       else if (4.0 <=? score)%float then Ok "Medium"
       else if (0.1 <=? score)%float then Ok "Low"
       else Ok "Not Assigned")
      value_or_type_error
      (Ok "Not Assigned").

(** scoring.py, lines 36-60 *)
Definition categorize_epss_score (score : cell) : pyresult string :=
  if pd_isna score then Ok "Not Assigned"
  else
    try_except
      (score ← py_float score;
       if (0.9 <=? score)%float then Ok "Critical"
       else if (0.7 <=? score)%float then Ok "High"
       else if (0.4 <=? score)%float then Ok "Medium"
       else if (0.1 <=? score)%float then Ok "Low"
       else Ok "Not Assigned")
      value_or_type_error
      (Ok "Not Assigned").

(** scoring.py, lines 63-87 *)
Definition categorize_vpr_score (score : cell) : pyresult string :=
  if pd_isna score then Ok "Not Assigned"
  else
    try_except
      (score ← py_float score;
       if (9.0 <=? score)%float then Ok "Critical"
       else if (7.0 <=? score)%float then Ok "High"
       else if (4.0 <=? score)%float then Ok "Medium"
       else if (0.1 <=? score)%float then Ok "Low"
       else Ok "Not Assigned")
      value_or_type_error
      (Ok "Not Assigned").

(** scoring.py, lines 90-117 *)
Definition priority_scores : gmap string Z :=
  list_to_map
    [("Critical", 4); ("High", 3); ("Medium", 2); ("Low", 1);
     ("Not Assigned", 0); ("Yes", 4); ("No", 0)].

Definition calculate_exploitability_score (r : row) : Z :=
  let epss_score := dict_get priority_scores (row_get r "EPSS Category" (Str "Not Assigned")) 0 in
  let vpr_score := dict_get priority_scores (row_get r "VPR Category" (Str "Not Assigned")) 0 in
  let kev_score := dict_get priority_scores (row_get r "KEV Listed" (Str "No")) 0 in
  epss_score + vpr_score + kev_score.

(** [df[dst] = df[src].apply(f)] *)
Definition apply_to_column (df : DataFrame) (src dst : string)
    (f : cell -> pyresult string) : pyresult DataFrame :=
  set_column df dst (fun r => s ← f (cell_of r src); Ok (Str s)).

(** scoring.py, lines 120-153 *)
Definition add_scoring_data (df : DataFrame) : pyresult DataFrame :=
  let result_df := df in
  result_df ←
    (if has_column result_df "CVSS v3.0 Base Score"
     then apply_to_column result_df "CVSS v3.0 Base Score" "CVSS Category" categorize_cvss_score
     else Ok result_df);
  result_df ←
    (if has_column result_df "EPSS Score"
     then apply_to_column result_df "EPSS Score" "EPSS Category" categorize_epss_score
     else Ok result_df);
  result_df ←
    (if has_column result_df "VPR Score"
     then apply_to_column result_df "VPR Score" "VPR Category" categorize_vpr_score
     else Ok result_df);
  let required_cols := ["EPSS Category"; "VPR Category"; "KEV Listed"] in
  if forallb (has_column result_df) required_cols
  then set_column result_df "Exploitability Score"
         (fun r => Ok (Int (calculate_exploitability_score r)))
  else Ok result_df.

End Scoring.

End Scoring.


(** ** Categorization (va_tool/processing/categorization.py) *)

Module Categorization.

Section Categorization.

(** The two tables defined in [va_tool/data/mappings.py], kept as
    parameters: ordered mappings from a label to its patterns. *)
Variable NAME_MAPPINGS : list (string * list string).
Variable BUCKET_MAPPINGS : list (string * list string).

(** The order in which a Python [set] holding the given elements is
    iterated; the language leaves it unspecified. *)
Variable set_order : list string -> list string.

(** [name.lower()]: only a [str] has the method. *)
Definition py_lower (name : cell) : pyresult string :=
  match name with
  | Str s => Ok (lower s)
  | _ => Raise AttributeError
  end.

(** [x in ["None", None]] *)
Definition is_none_label (c : cell) : bool :=
  match c with
  | Null => true
  | Str s => String.eqb s "None"
  | _ => false
  end.

Definition any_pattern_in (patterns : list string) (name_lower : string) : bool :=
  existsb (fun pattern => contains (lower pattern) name_lower) patterns.

(** The two nested loops of [assign_severity]: the first label, in the
    order of the mapping, one of whose patterns occurs in the name. *)
Fixpoint first_match (mappings : list (string * list string)) (name_lower : string)
    : option string :=
  match mappings with
  | [] => None
  | (severity, name_patterns) :: rest =>
      if any_pattern_in name_patterns name_lower then Some severity
      else first_match rest name_lower
  end.

(** categorization.py, lines 11-39 *)
Definition assign_severity (name existing_risk : cell) : pyresult cell :=
  if truthy existing_risk && negb (is_none_label existing_risk)
     && negb (pd_isna existing_risk)
  then Ok existing_risk
  else if pd_isna name then Ok (Str "Informational")
  else
    name_lower ← py_lower name;
    match first_match NAME_MAPPINGS name_lower with
    | Some severity => Ok (Str severity)
    | None => Ok (Str "Check Needed")
    end.

(** The loop of [categorize_name]: every bucket one of whose keywords
    occurs in the name, each once. *)
Fixpoint matching_buckets (mappings : list (string * list string)) (name_lower : string)
    : list string :=
  match mappings with
  | [] => []
  | (bucket, keywords) :: rest =>
      let others := matching_buckets rest name_lower in
      if any_pattern_in keywords name_lower
      then bucket :: List.filter (fun b => negb (String.eqb b bucket)) others
      else others
  end.

(** categorization.py, lines 42-65 *)
Definition categorize_name (name : cell) : pyresult string :=
  if pd_isna name then Ok ""
  else
    name_lower ← py_lower name;
    let assigned_buckets := matching_buckets BUCKET_MAPPINGS name_lower in
    match assigned_buckets with
    | [] => Ok "Miscellaneous"
    | _ => Ok (join ", " (set_order assigned_buckets))
    end.

(** categorization.py, lines 68-93 *)
Definition categorize_vulnerabilities (df : DataFrame) : pyresult DataFrame :=
  result_df ←
    set_column df "Risk"
      (fun r => name ← getitem r "Name"; assign_severity name (row_get r "Risk" Null));
  if has_column result_df "Name"
  then set_column result_df "Bucket"
         (fun r => b ← categorize_name (cell_of r "Name"); Ok (Str b))
  else Raise KeyError.

End Categorization.

End Categorization.

(** ** CVE cache entries *)

(** JSON values, as [json.loads] builds them and [json.dumps] prints them. *)
Inductive json :=
  | JNull
  | JBool (b : bool)
  | JInt (z : Z)
  | JFloat (f : float)
  | JStr (s : string)
  | JArr (items : list json)
  | JObj (members : list (string * json)).

(** The value kept per CVE id:
    [{"date_obj": ..., "patch_info": {"status": ..., "references": ...}}]. *)
Record PatchInfo := { status : cell; references : json }.
Record CacheEntry := { date_obj : cell; patch_info : PatchInfo }.

Abbreviation cve_cache := (gmap string CacheEntry).

(** ** NVD lookup client (va_tool/data/api.py) *)

Module Api.

(** utils/config.py *)
Definition API_KEYS : list string :=
  ["1ded7e2c-e9ab-4f52-9912-28e6813f4ecc";
   "7d9a6100-9e86-4a0f-88fe-fa1a58537cb4";
   "e8eac3c1-6308-43c9-8d04-ddb739fb0aa5";
   "8d7f67cf-9146-4423-b128-876a2093906b"].
Definition NVD_BASE_URL : string := "https://services.nvd.nist.gov/rest/json/cves/2.0".
Definition NVD_RETRY_ATTEMPTS : nat := 5.
Definition NVD_RETRY_DELAY : Z := 5.

(** One reference of a CVE record of the NVD reply; a field the reply does
    not carry is [None]. *)
Record nvd_reference := {
  ref_url : option string;
  ref_source : option string;
  ref_tags : option (list string)
}.

(** [vulnerabilities[i].get("cve", {})] *)
Record nvd_cve := {
  published : option string;
  cve_references : option (list nvd_reference);
  workarounds : bool (* the truth value of [cve_data.get("workarounds", [])] *)
}.

(** What one [requests.get] produces: a transport failure, or a response
    with its status code and what [response.json()] followed by
    [data.get("vulnerabilities", [])] evaluates to. *)
Inductive http_reply :=
  | Failed
  | Response (status_code : Z) (vulnerabilities : pyresult (list nvd_cve)).

(** The module globals, the clock reads done so far and the log of the
    network requests and sleeps performed. *)
Record world := {
  api_key_index : nat;
  request_count : nat;
  clock_reads : nat;
  requests : list (string * string);
  sleeps : list Z
}.

Definition initial_world : world :=
  {| api_key_index := 0; request_count := 0; clock_reads := 0;
     requests := []; sleeps := [] |}.

Section Api.

(** The environment: the value of the k-th call of [time.time()] and the
    reply to the k-th call of [requests.get]. *)
Variable clock : nat -> float.
Variable network : nat -> http_reply.

(** [datetime.strptime(s, "%Y-%m-%d").date().isoformat()]; [None] stands
    for the [ValueError] of a text that is not such a date. *)
Variable parse_date_iso : string -> option string.

(** api.py, lines 25-34 *)
Definition get_api_key (w : world) : pyresult string * world :=
  let '(index, count) :=
    if (1000 <=? request_count w)%nat
    then ((api_key_index w + 1) mod length API_KEYS, 0)%nat
    else (api_key_index w, request_count w) in
  let w' := {| api_key_index := index; request_count := S count;
               clock_reads := clock_reads w; requests := requests w;
               sleeps := sleeps w |} in
  (match API_KEYS !! index with Some key => Ok key | None => Raise IndexError end, w').

Definition time_time (w : world) : float * world :=
  (clock (clock_reads w),
   {| api_key_index := api_key_index w; request_count := request_count w;
      clock_reads := S (clock_reads w); requests := requests w;
      sleeps := sleeps w |}).

Definition time_sleep (seconds : Z) (w : world) : world :=
  {| api_key_index := api_key_index w; request_count := request_count w;
     clock_reads := clock_reads w; requests := requests w;
     sleeps := sleeps w ++ [seconds] |}.

Definition requests_get (url key : string) (w : world) : http_reply * world :=
  (network (length (requests w)),
   {| api_key_index := api_key_index w; request_count := request_count w;
      clock_reads := clock_reads w; requests := requests w ++ [(url, key)];
      sleeps := sleeps w |}).

Definition not_found_entry : CacheEntry :=
  {| date_obj := Null;
     patch_info := {| status := Str "CVE Not Found"; references := JArr [] |} |}.

Definition is_patch_tag (tag : string) : bool :=
  bool_decide (lower tag ∈ ["patch"; "vendor advisory"; "third party advisory"]).

Definition has_patch_tag (ref : nvd_reference) : bool :=
  existsb is_patch_tag (default [] (ref_tags ref)).

Definition patch_link (ref : nvd_reference) : json :=
  JObj [("url", JStr (default "" (ref_url ref)));
        ("source", JStr (default "Unknown" (ref_source ref)));
        ("tags", JArr (JStr <$> default [] (ref_tags ref)))].

(** api.py, lines 84-122: the cache entry made from the first record of a
    non-empty reply. *)
Definition entry_of_cve (cve_data : nvd_cve) : pyresult CacheEntry :=
  let published_raw := default "" (published cve_data) in
  published_date ←
    (if String.eqb published_raw "" then Ok Null
     else match parse_date_iso (split_head "T" published_raw) with
          | Some iso => Ok (Str iso)
          | None => Raise ValueError
          end);
  let patch_links :=
    List.filter has_patch_tag (default [] (cve_references cve_data)) in
  let status :=
    match patch_links with
    | _ :: _ => "Available"
    | [] => if workarounds cve_data then "Workaround Available" else "Not Found"
    end in
  Ok {| date_obj := published_date;
        patch_info := {| status := Str status;
                         references := JArr (patch_link <$> patch_links) |} |}.

(** [response.raise_for_status()] raises for the 4xx and 5xx codes. *)
Definition is_error_status (code : Z) : bool := (400 <=? code) && (code <? 600).

Definition is_request_exception (e : exn) : bool :=
  match e with RequestException => true | _ => false end.

(** api.py, lines 57-139: the retry loop over the remaining attempt
    numbers, then the fall-back entry. *)
Fixpoint attempts (todo : list nat) (cve_id url key : string)
    (start_time timeout_threshold : float) (job_cve_cache : cve_cache) (w : world)
    : pyresult CacheEntry * cve_cache * world :=
  match todo with
  | [] =>
      (Ok not_found_entry, <[cve_id := not_found_entry]> job_cve_cache, w)
  | attempt :: rest =>
      let '(now, w) := time_time w in
      if (timeout_threshold <? now - start_time)%float
      then (Ok not_found_entry, <[cve_id := not_found_entry]> job_cve_cache, w)
      else
        let '(reply, w) := requests_get url key w in
        let backoff := time_sleep (NVD_RETRY_DELAY * (Z.of_nat attempt + 1)) in
        let retry w := attempts rest cve_id url key start_time timeout_threshold
                         job_cve_cache w in
        match reply with
        | Failed => retry (backoff w)
        | Response code body =>
            if bool_decide (code ∈ [403; 429]) then retry (backoff w)
            else if is_error_status code then retry (backoff w)
            else
              match body with
              | Raise e =>
                  if is_request_exception e then retry (backoff w)
                  else (Raise e, job_cve_cache, w)
              | Ok [] => retry w
              | Ok (cve_data :: _) =>
                  match entry_of_cve cve_data with
                  | Ok new_entry =>
                      (Ok new_entry, <[cve_id := new_entry]> job_cve_cache, w)
                  | Raise e =>
                      if is_request_exception e then retry (backoff w)
                      else (Raise e, job_cve_cache, w)
                  end
              end
        end
  end.

(** api.py, lines 37-139 *)
Definition fetch_cve_details (cve_id : string) (job_cve_cache : cve_cache)
    (timeout_threshold : float) (w : world)
    : pyresult CacheEntry * cve_cache * world :=
  match job_cve_cache !! cve_id with
  | Some cached => (Ok cached, job_cve_cache, w)
  | None =>
      let url := (NVD_BASE_URL ++ "?cveId=" ++ cve_id)%string in
      let '(key, w) := get_api_key w in
      match key with
      | Raise e => (Raise e, job_cve_cache, w)
      | Ok key =>
          let '(start_time, w) := time_time w in
          attempts (seq 0 NVD_RETRY_ATTEMPTS) cve_id url key start_time
            timeout_threshold job_cve_cache w
      end
  end.

End Api.

End Api.

(** ** CSV cache of CVE details (va_tool/data/cache.py) *)

Module Cache.

(** utils/config.py *)
Definition DEFAULT_CACHE_DIR : string := "cache".
Definition DEFAULT_CACHE_FILE : string := "cve_cache.csv".

(** The files by path, and the paths at which nothing can be created,
    written or removed: a missing permission, a file where a directory is
    needed, a directory where the file should go. The directories
    themselves are not kept. *)
Record filesystem := { files : gmap string string; locked : gset string }.

(** Opening the file for writing and writing the text. *)
Definition fs_write (fs : filesystem) (path text : string) : pyresult filesystem :=
  if bool_decide (path ∈ locked fs) then Raise OSError
  else Ok {| files := <[path := text]> (files fs); locked := locked fs |}.

(** [os.remove] *)
Definition fs_remove (fs : filesystem) (path : string) : pyresult filesystem :=
  if bool_decide (path ∈ locked fs) then Raise OSError
  else Ok {| files := delete path (files fs); locked := locked fs |}.

(** [x or d] for an optional text. *)
Definition or_default (x : option string) (d : string) : string :=
  match x with
  | Some s => if String.eqb s "" then d else s
  | None => d
  end.

Definition ends_with_slash (s : string) : bool :=
  match String.length s with
  | O => false
  | S n => match String.get n s with Some c => Ascii.eqb c "/" | None => false end
  end.

(** [os.path.join(a, b)] for a relative [b]. *)
Definition path_join (a b : string) : string :=
  if String.eqb a "" || ends_with_slash a then (a ++ b)%string
  else (a ++ "/" ++ b)%string.

Fixpoint has_slash (s : string) : bool :=
  match s with
  | EmptyString => false
  | String a s' => Ascii.eqb a "/" || has_slash s'
  end.

Fixpoint all_slashes (s : string) : bool :=
  match s with
  | EmptyString => true
  | String a s' => Ascii.eqb a "/" && all_slashes s'
  end.

(** [p[:p.rfind("/") + 1]] *)
Fixpoint up_to_last_slash (p : string) : string :=
  match p with
  | EmptyString => EmptyString
  | String a p' =>
      if Ascii.eqb a "/" || has_slash p' then String a (up_to_last_slash p')
      else EmptyString
  end.

(** [head.rstrip("/")] *)
Fixpoint rstrip_slashes (head : string) : string :=
  match head with
  | EmptyString => EmptyString
  | String a head' =>
      if all_slashes head then EmptyString else String a (rstrip_slashes head')
  end.

(** [os.path.dirname(p)] of [posixpath]: what stands before the last
    slash, without the slashes that end it unless it holds nothing else. *)
Definition dirname (p : string) : string :=
  let head := up_to_last_slash p in
  if negb (String.eqb head "") && negb (all_slashes head)
  then rstrip_slashes head
  else head.

(** utils/helpers.py, [ensure_dir_exists]:
    [os.makedirs(directory, exist_ok=True)], which finds no directory of
    the empty name to create. *)
Definition ensure_dir_exists (fs : filesystem) (directory : string) : pyresult string :=
  if String.eqb directory "" then Raise OSError
  else if bool_decide (directory ∈ locked fs) then Raise OSError
  else Ok directory.

(** cache.py, lines 13-26 *)
Definition get_cache_path (output_dir cache_filename : option string) : string :=
  let cache_dir := path_join (or_default output_dir ".") DEFAULT_CACHE_DIR in
  let cache_file := or_default cache_filename DEFAULT_CACHE_FILE in
  path_join cache_dir cache_file.

Section Cache.

(** pandas and the [json] module: [DataFrame.to_csv(index=False)] as the
    text it writes, [pd.read_csv] on a text, [json.dumps], [json.loads]. *)
Variable to_csv : DataFrame -> string.
Variable read_csv : string -> pyresult DataFrame.
Variable json_dumps : json -> pyresult string.
Variable json_loads : string -> pyresult json.

(** [datetime.datetime.now().strftime("%Y-%m-%d")] *)
Variable today : string.

Definition anything (_ : exn) : bool := true.

(** [json.loads(x)] for a cell: only a text can be parsed. *)
Definition json_loads_cell (c : cell) : pyresult json :=
  match c with
  | Str s => json_loads s
  | _ => Raise TypeError
  end.

(** cache.py, lines 46-60: the body of the loop over the rows. Only a
    text can be a key of the mapping kept here. *)
Definition load_row (cache : cve_cache) (r : row) : pyresult cve_cache :=
  cve_id ← getitem r "cve_id";
  date ← getitem r "date_obj";
  patch_status ← getitem r "patch_status";
  refs ←
    try_except
      (c ← getitem r "references";
       if negb (pd_isna c) then json_loads_cell c else Ok (JArr []))
      anything
      (Ok (JArr []));
  match cve_id with
  | Str id =>
      Ok (<[id := {| date_obj := if negb (pd_isna date) then date else Null;
                     patch_info := {| status := patch_status; references := refs |} |}]>
            cache)
  | _ => Raise Unsupported
  end.

Fixpoint load_rows (cache : cve_cache) (rs : list row) : pyresult cve_cache :=
  match rs with
  | [] => Ok cache
  | r :: rs' => cache' ← load_row cache r; load_rows cache' rs'
  end.

(** cache.py, lines 29-66 *)
Definition load_cve_cache (cache_file_path : string) (fs : filesystem)
    : pyresult cve_cache :=
  match files fs !! cache_file_path with
  | None => Ok ∅
  | Some text =>
      match (cache_df ← read_csv text; load_rows ∅ (rows cache_df)) with
      | Ok cache => Ok cache
      | Raise Unsupported => Raise Unsupported
      | Raise _ => Ok ∅
      end
  end.

Definition cache_columns : list string :=
  ["cve_id"; "date_obj"; "patch_status"; "references"; "cached_date"].

(** cache.py, lines 83-95: the record of one entry of the mapping. *)
Definition cache_record (item : string * CacheEntry) : pyresult row :=
  let '(cve_id, details) := item in
  references ← json_dumps (references (patch_info details));
  Ok (list_to_map
        [("cve_id", Str cve_id);
         ("date_obj", date_obj details);
         ("patch_status", status (patch_info details));
         ("references", Str references);
         ("cached_date", Str today)]).

(** cache.py, lines 82-98: [pd.DataFrame(cache_data)]; the columns are
    the keys of the records, and there is none when there is no record. *)
Definition cache_frame (cache : cve_cache) : pyresult DataFrame :=
  cache_data ← pmapM cache_record (map_to_list cache);
  Ok {| columns := match cache_data with [] => [] | _ => cache_columns end;
        rows := cache_data |}.

(** cache.py, lines 69-109 *)
Definition save_cve_cache (cache : cve_cache) (cache_file_path : string)
    (fs : filesystem) : bool * filesystem :=
  match
    cache_df ← cache_frame cache;
    _ ← ensure_dir_exists fs (dirname cache_file_path);
    fs_write fs cache_file_path (to_csv cache_df)
  with
  | Ok fs' => (true, fs')
  | Raise _ => (false, fs)
  end.

(** cache.py, lines 112-122 *)
Definition clear_cache (cache_file_path : string) (fs : filesystem)
    : bool * filesystem :=
  match files fs !! cache_file_path with
  | Some _ =>
      match fs_remove fs cache_file_path with
      | Ok fs' => (true, fs')
      | Raise _ => (false, fs)
      end
  | None => (true, fs)
  end.

End Cache.

End Cache.

(** ** Enrichment and aggregation (va_tool/processing/analysis.py) *)

Module Analysis.

(** A stable sort: [x] is put in front of the first element it may
    precede, so that equal keys keep their order. *)
Fixpoint insert_sorted {A} (le : A -> A -> bool) (x : A) (l : list A) : list A :=
  match l with
  | [] => [x]
  | y :: l' => if le x y then x :: y :: l' else y :: insert_sorted le x l'
  end.

Definition stable_sort {A} (le : A -> A -> bool) (l : list A) : list A :=
  foldr (insert_sorted le) [] l.

(** Descending order with the missing values last, as [sort_values] with
    [ascending=False] and the default [na_position="last"] orders a key:
    [a] may stand before [b]. *)
Definition int_desc (a b : option Z) : bool :=
  match b with
  | None => true
  | Some y => match a with None => false | Some x => y <=? x end
  end.

Definition float_desc (a b : float) : bool :=
  if PrimFloat.is_nan b then true
  else if PrimFloat.is_nan a then false
  else (b <=? a)%float.

(** The two sort keys of a row: the first one decides, the second one
    orders the rows the first one ties. *)
Definition keys_desc (a b : option Z * float) : bool :=
  if negb (int_desc b.1 a.1) then true
  else if negb (int_desc a.1 b.1) then false
  else float_desc a.2 b.2.

(** The key of an integer column. *)
Definition int_key (c : cell) : pyresult (option Z) :=
  match c with
  | Int z => Ok (Some z)
  | Null => Ok None
  | _ => Raise Unsupported
  end.

(** The key of a numeric column: float64, or int64 with values a float
    holds exactly. A column of Python objects is not covered. *)
Definition float_key (c : cell) : pyresult float :=
  match c with
  | Num f => Ok f
  | Null => Ok nan
  | Int z => if Z.abs z <=? 2 ^ 53 then Ok (float_of_Z z) else Raise Unsupported
  | Str _ => Raise Unsupported
  end.

(** [df.sort_values(by=keys, ascending=ascending)] for the call made here:
    an integer key then a numeric key, both descending. The lengths of
    [keys] and [ascending] must agree. *)
Definition sort_values (df : DataFrame) (keys : list string) (ascending : list bool)
    : pyresult DataFrame :=
  if negb (length keys =? length ascending)%nat then Raise ValueError
  else
    match keys, ascending with
    | [k1; k2], [false; false] =>
        keyed ← pmapM (fun r => a ← int_key (cell_of r k1);
                                b ← float_key (cell_of r k2);
                                Ok ((a, b), r)) (rows df);
        Ok {| columns := columns df;
              rows := snd <$> stable_sort (fun x y => keys_desc x.1 y.1) keyed |}
    | _, _ => Raise Unsupported
    end.

Definition band_values : gmap string Z :=
  list_to_map
    [("Critical", 4); ("High", 3); ("Medium", 2); ("Low", 1); ("Not Assigned", 0)].

(** [series.map(d)] on one cell: a value that is no key gives NaN. *)
Definition series_map (d : gmap string Z) (c : cell) : cell :=
  match c with
  | Str s => match d !! s with Some v => Int v | None => Null end
  | _ => Null
  end.

(** Arithmetic on the cells of integer columns; NaN propagates. *)
Definition cell_times (c : cell) (k : Z) : cell :=
  match c with Int z => Int (z * k) | _ => Null end.

Definition cell_plus (a b : cell) : cell :=
  match a, b with Int x, Int y => Int (x + y) | _, _ => Null end.

(** [df[c] = f(row)] for a computation that cannot fail. *)
Definition with_column (df : DataFrame) (c : string) (f : row -> cell) : DataFrame :=
  {| columns := add_label (columns df) c;
     rows := (fun r => <[c := f r]> r) <$> rows df |}.

Definition is_common_critical (r : row) : bool :=
  isin (cell_of r "CVSS Category") ["Critical"; "High"]
  && isin (cell_of r "EPSS Category") ["Critical"; "High"]
  && isin (cell_of r "VPR Category") ["Critical"; "High"]
  && cell_is (cell_of r "KEV Listed") "Yes".

(** analysis.py, lines 237-296 *)
Definition generate_common_critical (df : DataFrame) : pyresult (list row) :=
  let required_cols := ["CVSS Category"; "EPSS Category"; "VPR Category"; "KEV Listed"] in
  if negb (forallb (has_column df) required_cols) then Ok []
  else
    let common_critical := filter_rows is_common_critical df in
    match rows common_critical with
    | [] => Ok []
    | _ =>
        let common_critical :=
          with_column common_critical "CVSS Value"
            (fun r => series_map band_values (cell_of r "CVSS Category")) in
        let common_critical :=
          with_column common_critical "EPSS Value"
            (fun r => series_map band_values (cell_of r "EPSS Category")) in
        let common_critical :=
          with_column common_critical "VPR Value"
            (fun r => series_map band_values (cell_of r "VPR Category")) in
        let common_critical :=
          with_column common_critical "Combined Priority"
            (fun r => cell_plus
                        (cell_plus (cell_times (cell_of r "CVSS Value") 2)
                                   (cell_of r "EPSS Value"))
                        (cell_of r "VPR Value")) in
        let required_columns :=
          ["Plugin ID"; "CVE"; "Host"; "Name"; "Description"; "Plugin Output"; "Risk";
           "CVSS v3.0 Base Score"; "CVSS Category";
           "EPSS Score"; "EPSS Category";
           "VPR Score"; "VPR Category";
           "KEV Listed"; "Combined Priority"] in
        let available_columns :=
          List.filter (has_column common_critical) required_columns in
        let common_critical :=
          {| columns := available_columns; rows := rows common_critical |} in
        let sort_columns :=
          "Combined Priority" ::
          (if has_column common_critical "CVSS v3.0 Base Score"
           then ["CVSS v3.0 Base Score"] else []) in
        common_critical ← sort_values common_critical sort_columns [false; false];
        Ok (clean_for_json common_critical)
    end.

(** The nine views handed to the reporting layer. *)
Record results := {
  risk_counts : list row;
  top_cves : list row;
  ip_vuln_counts : list row;
  patch_summary : list row;
  bucket_summary : list row;
  seol_summary : list row;
  scoring_summary : list row;
  vulnerability_insights : list row;
  common_critical : list row
}.

Section Analysis.

(** [str(x)] on the numbers a cell can hold. *)
Variable str_of_float : float -> string.
Variable str_of_int : Z -> string.

(** [(today - datetime.date.fromisoformat(s)).days] *)
Variable days_since : string -> pyresult Z.

(** The eight other views, pandas group-by pipelines each computed from
    the analyzed frame alone. *)
Variable generate_risk_counts : DataFrame -> pyresult (list row).
Variable generate_top_cves : DataFrame -> pyresult (list row).
Variable generate_ip_vuln_counts : DataFrame -> pyresult (list row).
Variable generate_patch_summary : DataFrame -> pyresult (list row).
Variable generate_bucket_summary : DataFrame -> pyresult (list row).
Variable generate_seol_summary : DataFrame -> pyresult (list row).
Variable generate_scoring_summary : DataFrame -> pyresult (list row).
Variable generate_vulnerability_insights : DataFrame -> pyresult (list row).

Definition py_str (c : cell) : string :=
  match c with
  | Null => "None"
  | Str s => s
  | Num f => str_of_float f
  | Int z => str_of_int z
  end.

(** [cve_cache.get(x, {})]: a value that is no text is no key. *)
Definition cache_get (cve_cache : cve_cache) (x : cell) : option CacheEntry :=
  match x with Str s => cve_cache !! s | _ => None end.

Definition published_date (cve_cache : cve_cache) (x : cell) : cell :=
  if negb (pd_isna x)
  then match cache_get cve_cache x with Some e => date_obj e | None => Null end
  else Null.

Definition days_after_discovery (x : cell) : pyresult cell :=
  if negb (pd_isna x) && truthy x
  then match x with
       | Str s => d ← days_since s; Ok (Int d)
       | _ => Raise TypeError
       end
  else Ok Null.

Definition kev_listed (kev_set : gset string) (x : cell) : cell :=
  if negb (pd_isna x) && bool_decide (py_str x ∈ kev_set) then Str "Yes" else Str "No".

Definition patch_status (cve_cache : cve_cache) (x : cell) : cell :=
  if negb (pd_isna x)
  then match cache_get cve_cache x with
       | Some e => status (patch_info e)
       | None => Str "Unknown"
       end
  else Str "Unknown".

(** [df[c]] as a check that the column exists. *)
Definition require_column (df : DataFrame) (c : string) : pyresult unit :=
  if has_column df c then Ok tt else Raise KeyError.

(** analysis.py, lines 10-68 *)
Definition analyze_vulnerability_data (df : DataFrame) (kev_set : gset string)
    (cve_cache : cve_cache)
    : pyresult (DataFrame * DataFrame * DataFrame * results) :=
  let result_df := df in
  _ ← require_column result_df "CVE";
  let result_df :=
    with_column result_df "CVE Published Date"
      (fun r => published_date cve_cache (cell_of r "CVE")) in
  result_df ←
    set_column result_df "Days After Discovery"
      (fun r => days_after_discovery (cell_of r "CVE Published Date"));
  let result_df :=
    with_column result_df "KEV Listed" (fun r => kev_listed kev_set (cell_of r "CVE")) in
  let result_df :=
    with_column result_df "Patch Status"
      (fun r => patch_status cve_cache (cell_of r "CVE")) in
  _ ← require_column result_df "Risk";
  let filtered_df :=
    filter_rows (fun r => negb (isin (cell_of r "Risk") ["None"; "Informational"]))
      result_df in
  let check_needed_df :=
    filter_rows (fun r => cell_is (cell_of r "Risk") "Check Needed") filtered_df in
  let analyzed_df :=
    filter_rows (fun r => negb (cell_is (cell_of r "Risk") "Check Needed")) filtered_df in
  v1 ← generate_risk_counts analyzed_df;
  v2 ← generate_top_cves analyzed_df;
  v3 ← generate_ip_vuln_counts analyzed_df;
  v4 ← generate_patch_summary analyzed_df;
  v5 ← generate_bucket_summary analyzed_df;
  v6 ← generate_seol_summary analyzed_df;
  v7 ← generate_scoring_summary analyzed_df;
  v8 ← generate_vulnerability_insights analyzed_df;
  v9 ← generate_common_critical analyzed_df;
  Ok (result_df, check_needed_df, analyzed_df,
      {| risk_counts := v1; top_cves := v2; ip_vuln_counts := v3;
         patch_summary := v4; bucket_summary := v5; seol_summary := v6;
         scoring_summary := v7; vulnerability_insights := v8;
         common_critical := v9 |}).

End Analysis.

End Analysis.

(** ** Pipeline orchestration (va_tool/processing/core.py) *)

Module Core.

(** [df[c]]: the cells of a column. *)
Definition column (df : DataFrame) (c : string) : pyresult (list cell) :=
  if has_column df c then Ok ((fun r => cell_of r c) <$> rows df) else Raise KeyError.

(** [series.dropna().unique()] for a column of CVE ids: the distinct
    texts, in the order of their first occurrence. A cell holding a number
    could not become a key of the cache mapping kept here. *)
Definition add_unique (seen : list string) (x : string) : list string :=
  if bool_decide (x ∈ seen) then seen else seen ++ [x].

Fixpoint dropna_unique (cells : list cell) (seen : list string)
    : pyresult (list string) :=
  match cells with
  | [] => Ok seen
  | c :: rest =>
      if pd_isna c then dropna_unique rest seen
      else match c with
           | Str s => dropna_unique rest (add_unique seen s)
           | _ => Raise Unsupported
           end
  end.

Section Core.

Variable float_of_str : string -> option float.
Variable NAME_MAPPINGS : list (string * list string).
Variable BUCKET_MAPPINGS : list (string * list string).
Variable set_order : list string -> list string.
Variable clock : nat -> float.
Variable network : nat -> Api.http_reply.
Variable parse_date_iso : string -> option string.
Variable to_csv : DataFrame -> string.
Variable read_csv : string -> pyresult DataFrame.
Variable json_dumps : json -> pyresult string.
Variable json_loads : string -> pyresult json.
Variable today : string.
Variable str_of_float : float -> string.
Variable str_of_int : Z -> string.
Variable days_since : string -> pyresult Z.
Variable generate_risk_counts : DataFrame -> pyresult (list row).
Variable generate_top_cves : DataFrame -> pyresult (list row).
Variable generate_ip_vuln_counts : DataFrame -> pyresult (list row).
Variable generate_patch_summary : DataFrame -> pyresult (list row).
Variable generate_bucket_summary : DataFrame -> pyresult (list row).
Variable generate_seol_summary : DataFrame -> pyresult (list row).
Variable generate_scoring_summary : DataFrame -> pyresult (list row).
Variable generate_vulnerability_insights : DataFrame -> pyresult (list row).

(** The default [timeout_threshold=30] of [fetch_cve_details]. *)
Definition default_timeout : float := 30%float.

(** core.py, lines 66-70: one lookup per id to fetch; an exception of a
    lookup ends the loop. *)
Fixpoint fetch_all (cves_to_fetch : list string) (job_cve_cache : cve_cache)
    (w : Api.world) : pyresult unit * cve_cache * Api.world :=
  match cves_to_fetch with
  | [] => (Ok tt, job_cve_cache, w)
  | cve :: rest =>
      match Api.fetch_cve_details clock network parse_date_iso cve job_cve_cache
              default_timeout w with
      | (Ok _, job_cve_cache, w) => fetch_all rest job_cve_cache w
      | (Raise e, job_cve_cache, w) => (Raise e, job_cve_cache, w)
      end
  end.

(** core.py, lines 46-59: categorization, the filter on the risk label
    and the distinct CVE ids of the rows kept. *)
Definition categorize_and_filter (vuln_df : DataFrame)
    : pyresult (DataFrame * list string) :=
  df ← Categorization.categorize_vulnerabilities NAME_MAPPINGS BUCKET_MAPPINGS set_order
         vuln_df;
  _ ← Analysis.require_column df "Risk";
  let working_df :=
    filter_rows (fun r => negb (isin (cell_of r "Risk") ["None"; "Informational"])) df in
  cves ← column working_df "CVE";
  unique_cves ← dropna_unique cves [];
  Ok (working_df, unique_cves).

(** core.py, lines 83-91: scoring, then enrichment and aggregation. *)
Definition score_and_analyze (vuln_df working_df : DataFrame) (kev_set : gset string)
    (job_cve_cache : cve_cache)
    : pyresult (DataFrame * DataFrame * DataFrame * DataFrame * Analysis.results) :=
  scored_df ← Scoring.add_scoring_data float_of_str working_df;
  '(processed_df, check_needed_df, analyzed_df, results_data) ←
    Analysis.analyze_vulnerability_data str_of_float str_of_int days_since
      generate_risk_counts generate_top_cves generate_ip_vuln_counts
      generate_patch_summary generate_bucket_summary generate_seol_summary
      generate_scoring_summary generate_vulnerability_insights
      scored_df kev_set job_cve_cache;
  Ok (vuln_df, processed_df, check_needed_df, analyzed_df, results_data).

(** core.py, lines 18-94 *)
Definition process_vulnerability_data (vuln_df : DataFrame) (kev_set : gset string)
    (output_dir : option string) (clear_cache_flag : bool)
    (fs : Cache.filesystem) (w : Api.world)
    : pyresult (DataFrame * DataFrame * DataFrame * DataFrame * Analysis.results)
      * Cache.filesystem * Api.world :=
  let cache_file_path := Cache.get_cache_path output_dir None in
  let fs := if clear_cache_flag then (Cache.clear_cache cache_file_path fs).2 else fs in
  match Cache.load_cve_cache read_csv json_loads cache_file_path fs with
  | Raise e => (Raise e, fs, w)
  | Ok job_cve_cache =>
      match categorize_and_filter vuln_df with
      | Raise e => (Raise e, fs, w)
      | Ok (working_df, unique_cves) =>
          let cves_to_fetch :=
            List.filter (fun cve => negb (bool_decide (is_Some (job_cve_cache !! cve))))
              unique_cves in
          match fetch_all cves_to_fetch job_cve_cache w with
          | (Raise e, _, w) => (Raise e, fs, w)
          | (Ok _, job_cve_cache, w) =>
              let fs := (Cache.save_cve_cache to_csv json_dumps today job_cve_cache
                           cache_file_path fs).2 in
              (score_and_analyze vuln_df working_df kev_set job_cve_cache, fs, w)
          end
      end
  end.

End Core.

End Core.

(** ** The scoring summary view (va_tool/processing/analysis.py) *)

Module Views.

(** [len(df[df[c] == value])] *)
Definition count_equal (df : DataFrame) (c value : string) : Z :=
  Z.of_nat (length (rows (filter_rows (fun r => cell_is (cell_of r c) value) df))).

(** [df[c] = values] for a list: one value per row, in order; a list of
    another length is refused. *)
Definition assign_list (df : DataFrame) (c : string) (values : list cell)
    : pyresult DataFrame :=
  if negb (length values =? length (rows df))%nat then Raise ValueError
  else Ok {| columns := add_label (columns df) c;
             rows := zip_with (fun r v => <[c := v]> r) (rows df) values |}.

(** analysis.py, lines 180-201: the body of the loop over the severity
    levels, the four counts of one level. *)
Definition severity_counts (df : DataFrame) (severity : string) : list cell :=
  let cvss_count := count_equal df "CVSS Category" severity in
  let epss_count := count_equal df "EPSS Category" severity in
  let vpr_count := count_equal df "VPR Category" severity in
  let kev_count :=
    if String.eqb severity "Critical" then count_equal df "KEV Listed" "Yes" else 0 in
  [Int cvss_count; Int epss_count; Int vpr_count; Int kev_count].

Fixpoint add_count_columns (df : DataFrame) (severities : list string)
    (summary_df : DataFrame) : pyresult DataFrame :=
  match severities with
  | [] => Ok summary_df
  | severity :: rest =>
      summary_df ←
        assign_list summary_df (severity ++ " Count")%string (severity_counts df severity);
      add_count_columns df rest summary_df
  end.

(** analysis.py, lines 167-204 *)
Definition generate_scoring_summary (df : DataFrame) : pyresult (list row) :=
  let required_cols := ["CVSS Category"; "EPSS Category"; "VPR Category"; "KEV Listed"] in
  if negb (forallb (has_column df) required_cols) then Ok []
  else
    let summary_df :=
      {| columns := ["Metric"];
         rows := (fun metric => {[ "Metric" := Str metric ]})
                 <$> ["CVSS"; "EPSS"; "VPR"; "CISA KEV"] |} in
    summary_df ← add_count_columns df ["Critical"; "High"; "Medium"; "Low"] summary_df;
    Ok (clean_for_json summary_df).

End Views.

(** ** Input files (va_tool/data/loaders.py) *)

Module Loaders.

Section Loaders.

(** [pd.read_excel] and [pd.read_csv] on the content of a file, and
    [str] on the numbers a cell can hold. *)
Variable read_excel : string -> pyresult DataFrame.
Variable read_csv : string -> pyresult DataFrame.
Variable str_of_float : float -> string.
Variable str_of_int : Z -> string.

(** loaders.py, lines 10-40: the frame read, or [None]; columns that are
    missing are reported in the log and change nothing. *)
Definition load_vulnerability_file (file_path : string) (fs : Cache.filesystem)
    : option DataFrame :=
  match Cache.files fs !! file_path with
  | None => None
  | Some content =>
      match read_excel content with
      | Ok df => Some df
      | Raise _ => None
      end
  end.

(** [series.dropna().astype(str)] on the cells of a column. *)
Definition dropna_astype_str (cells : list cell) : list string :=
  Analysis.py_str str_of_float str_of_int
    <$> List.filter (fun c => negb (pd_isna c)) cells.

(** loaders.py, lines 43-73 *)
Definition load_kev_file (file_path : string) (fs : Cache.filesystem) : gset string :=
  match Cache.files fs !! file_path with
  | None => ∅
  | Some content =>
      match read_csv content with
      | Ok df =>
          if has_column df "cveID"
          then list_to_set (dropna_astype_str ((fun r => cell_of r "cveID") <$> rows df))
          else ∅
      | Raise _ => ∅
      end
  end.

End Loaders.

End Loaders.

(** * Properties *)

(** ** The error monad *)

Lemma pbind_Ok {A B} (m : pyresult A) (k : A -> pyresult B) (b : B) :
  m ≫= k = Ok b -> exists a, m = Ok a /\ k a = Ok b.
Proof. destruct m as [a|e]; simpl; [eauto | discriminate]. Qed.

Tactic Notation "bind_inv" hyp(H) :=
  let a := fresh "x" in
  let Ha := fresh "Hx" in
  apply pbind_Ok in H; destruct H as (a & Ha & H).

Tactic Notation "bind_inv" hyp(H) "as" ident(a) ident(Ha) :=
  apply pbind_Ok in H; destruct H as (a & Ha & H).

Lemma pmapM_Ok {A B} (f : A -> pyresult B) (l : list A) (l' : list B) :
  pmapM f l = Ok l' -> Forall2 (fun a b => f a = Ok b) l l'.
Proof.
  revert l'. induction l as [|a l IH]; simpl; intros l' H.
  - injection H as <-. constructor.
  - bind_inv H. bind_inv H. injection H as <-. constructor; auto.
Qed.

Lemma Forall2_elem_r {A B} (P : A -> B -> Prop) (l : list A) (k : list B) (y : B) :
  Forall2 P l k -> y ∈ k -> exists x, x ∈ l /\ P x y.
Proof.
  induction 1 as [|x y' l k Hxy _ IH]; intros Hy.
  - by apply elem_of_nil in Hy.
  - apply elem_of_cons in Hy as [-> | Hy].
    + exists x. split; [apply elem_of_cons; by left | exact Hxy].
    + destruct (IH Hy) as (x' & Hx' & HP). exists x'.
      split; [apply elem_of_cons; by right | exact HP].
Qed.

Lemma pmapM_total {A B} (f : A -> pyresult B) (l : list A) :
  Forall (fun a => exists b, f a = Ok b) l -> exists l', pmapM f l = Ok l'.
Proof.
  induction 1 as [|a l [b Hb] _ [l' IH]]; simpl; [eauto|].
  rewrite Hb; simpl. rewrite IH; simpl. eauto.
Qed.

(** What [filter] makes of a list, for a test that decides [P]: the
    elements with [P], in their order, each as often as in the list. *)
Lemma filter_selects {A} (p : A -> bool) (P : A -> Prop) (l : list A) :
  (forall x, p x = true <-> P x) ->
  exists rest,
    l ≡ₚ List.filter p l ++ rest
    /\ sublist (List.filter p l) l
    /\ Forall P (List.filter p l)
    /\ Forall (fun x => ~ P x) rest.
Proof.
  intros Hp. induction l as [|x l (rest & Hperm & Hsub & Hsel & Hrest)]; simpl.
  - exists []. repeat split; constructor.
  - destruct (p x) eqn:Hx.
    + exists rest. split; [simpl; by constructor|].
      split; [by constructor|]. split; [|exact Hrest].
      constructor; [by apply Hp|exact Hsel].
    + exists (x :: rest). split; [by rewrite <- Permutation_middle, <- Hperm|].
      split; [by constructor|]. split; [exact Hsel|].
      constructor; [|exact Hrest]. intros HP. apply Hp in HP. congruence.
Qed.

(** ** Scoring *)

Module ScoringFacts.

(** The banding of the specification: four thresholds, highest first. *)
Definition spec_band (critical high medium low : float) (s : float) : string :=
  if (critical <=? s)%float then "Critical"
  else if (high <=? s)%float then "High"
  else if (medium <=? s)%float then "Medium"
  else if (low <=? s)%float then "Low"
  else "Not Assigned".

(** The weight table of the specification. *)
Definition spec_weight (label : option cell) : Z :=
  match label with
  | Some (Str s) =>
      if String.eqb s "Critical" then 4
      else if String.eqb s "High" then 3
      else if String.eqb s "Medium" then 2
      else if String.eqb s "Low" then 1
      else if String.eqb s "Not Assigned" then 0
      else if String.eqb s "Yes" then 4
      else if String.eqb s "No" then 0
      else 0
  | _ => 0
  end.

Section ScoringFacts.

Variable float_of_str : string -> option float.

Abbreviation py_float := (Scoring.py_float float_of_str).
Abbreviation categorize_cvss_score := (Scoring.categorize_cvss_score float_of_str).
Abbreviation categorize_epss_score := (Scoring.categorize_epss_score float_of_str).
Abbreviation categorize_vpr_score := (Scoring.categorize_vpr_score float_of_str).

Lemma py_float_raises (s : cell) (e : exn) :
  py_float s = Raise e ->
  (Scoring.value_or_type_error e = true
   /\ forall z, s = Int z -> float_overflows z = false)
  \/ (e = OverflowError /\ exists z, s = Int z /\ float_overflows z = true).
Proof.
  destruct s as [|t|f|z]; simpl; try discriminate.
  - intros [= <-]. left. split; [reflexivity|discriminate].
  - destruct (float_of_str t); [discriminate|]. intros [= <-].
    left. split; [reflexivity|discriminate].
  - destruct (float_overflows z) eqn:Hz; [|discriminate].
    intros [= <-]. right. eauto.
Qed.

Lemma py_float_caught (s : cell) (e : exn) :
  (forall z, s = Int z -> float_overflows z = false) ->
  py_float s = Raise e -> Scoring.value_or_type_error e = true.
Proof.
  intros Hs He. apply py_float_raises in He as [[He _] | (_ & z & -> & Hz)]; [exact He|].
  rewrite (Hs z eq_refl) in Hz. discriminate.
Qed.

Lemma py_float_overflow (z : Z) :
  float_overflows z = true -> py_float (Int z) = Raise OverflowError.
Proof. intros Hz. simpl. by rewrite Hz. Qed.

Lemma categorize_cases (s : cell) :
  pd_isna s = true
  \/ (pd_isna s = false /\ exists e, py_float s = Raise e)
  \/ (pd_isna s = false /\ exists f, py_float s = Ok f).
Proof.
  destruct (pd_isna s) eqn:Hna; [by left | right].
  destruct (py_float s) as [f|e] eqn:Hf; [right | left]; eauto.
Qed.

(** The largest binary64 is the value of the last integer [float]
    accepts; the next integer rounds to infinity. *)
Lemma float_of_Z_largest :
  float_overflows (2 ^ 1024 - 2 ^ 970 - 1) = false
  /\ float_of_Z (2 ^ 1024 - 2 ^ 970 - 1) = 0x1.fffffffffffffp+1023%float
  /\ float_overflows (2 ^ 1024 - 2 ^ 970) = true
  /\ float_of_Z (2 ^ 1024 - 2 ^ 970) = infinity.
Proof. repeat split; vm_compute; reflexivity. Qed.

(** C2: on an integer score too large for a float, [10 ^ 400] for one,
    the three score mappers raise [OverflowError]: [float] raises it and
    the handler catches [ValueError] and [TypeError] only. On every other
    score they return: "Not Assigned" on a missing or non-numeric score,
    and the band of a numeric score by the fixed thresholds (9.0, 7.0, 4.0,
    0.1 for CVSS and VPR; 0.9, 0.7, 0.4, 0.1 for EPSS); a CVSS score of 9.0
    is Critical, 8.999 is High and 0.0 is Not Assigned. *)
Theorem categorize_scores_banded (s : cell) :
  (forall z, s = Int z -> float_overflows z = true ->
     categorize_cvss_score s = Raise OverflowError /\
     categorize_vpr_score s = Raise OverflowError /\
     categorize_epss_score s = Raise OverflowError)
  /\ ((forall z, s = Int z -> float_overflows z = false) ->
      (exists c1 c2 c3,
         categorize_cvss_score s = Ok c1 /\
         categorize_vpr_score s = Ok c2 /\
         categorize_epss_score s = Ok c3)
      /\ ((pd_isna s = true \/ exists e, py_float s = Raise e) ->
          categorize_cvss_score s = Ok "Not Assigned" /\
          categorize_vpr_score s = Ok "Not Assigned" /\
          categorize_epss_score s = Ok "Not Assigned")
      /\ (forall f, pd_isna s = false -> py_float s = Ok f ->
          categorize_cvss_score s = Ok (spec_band 9.0 7.0 4.0 0.1 f) /\
          categorize_vpr_score s = Ok (spec_band 9.0 7.0 4.0 0.1 f) /\
          categorize_epss_score s = Ok (spec_band 0.9 0.7 0.4 0.1 f)))
  /\ categorize_cvss_score (Num 9.0) = Ok "Critical"
  /\ categorize_cvss_score (Num 8.999) = Ok "High"
  /\ categorize_cvss_score (Num 0.0) = Ok "Not Assigned"
  /\ categorize_cvss_score Null = Ok "Not Assigned"
  /\ categorize_cvss_score (Int (10 ^ 400)) = Raise OverflowError
  /\ categorize_vpr_score (Int (10 ^ 400)) = Raise OverflowError
  /\ categorize_epss_score (Int (10 ^ 400)) = Raise OverflowError.
Proof.
  split; [|split; [|repeat split; vm_compute; reflexivity]].
  { intros z -> Hz.
    unfold Scoring.categorize_cvss_score, Scoring.categorize_vpr_score,
      Scoring.categorize_epss_score.
    cbn [pd_isna]. rewrite (py_float_overflow z Hz). repeat split; reflexivity. }
  intros Hrange.
  assert (Hnull : (pd_isna s = true \/ exists e, py_float s = Raise e) ->
      categorize_cvss_score s = Ok "Not Assigned" /\
      categorize_vpr_score s = Ok "Not Assigned" /\
      categorize_epss_score s = Ok "Not Assigned").
  { unfold Scoring.categorize_cvss_score, Scoring.categorize_vpr_score,
      Scoring.categorize_epss_score.
    intros [Hna | [e He]].
    - rewrite Hna. auto.
    - destruct (pd_isna s); [auto|].
      rewrite He; simpl. rewrite (py_float_caught _ _ Hrange He). auto. }
  assert (Hnum : forall f, pd_isna s = false -> py_float s = Ok f ->
      categorize_cvss_score s = Ok (spec_band 9.0 7.0 4.0 0.1 f) /\
      categorize_vpr_score s = Ok (spec_band 9.0 7.0 4.0 0.1 f) /\
      categorize_epss_score s = Ok (spec_band 0.9 0.7 0.4 0.1 f)).
  { intros f Hna Hf.
    unfold Scoring.categorize_cvss_score, Scoring.categorize_vpr_score,
      Scoring.categorize_epss_score, spec_band.
    rewrite Hna, Hf; simpl.
    repeat split.
    - destruct (9.0 <=? f)%float, (7.0 <=? f)%float, (4.0 <=? f)%float,
        (0.1 <=? f)%float; reflexivity.
    - destruct (9.0 <=? f)%float, (7.0 <=? f)%float, (4.0 <=? f)%float,
        (0.1 <=? f)%float; reflexivity.
    - destruct (0.9 <=? f)%float, (0.7 <=? f)%float, (0.4 <=? f)%float,
        (0.1 <=? f)%float; reflexivity. }
  split; [|split; [exact Hnull|exact Hnum]].
  destruct (categorize_cases s) as [Hna | [[Hna He] | [Hna [f Hf]]]].
  - destruct (Hnull (or_introl Hna)) as (-> & -> & ->). eauto 10.
  - destruct (Hnull (or_intror He)) as (-> & -> & ->). eauto 10.
  - destruct (Hnum f Hna Hf) as (-> & -> & ->). eauto 10.
Qed.

End ScoringFacts.

Lemma priority_scores_lookup (s : string) :
  default 0 (Scoring.priority_scores !! s) = spec_weight (Some (Str s)).
Proof.
  unfold Scoring.priority_scores, spec_weight; simpl.
  repeat (rewrite lookup_insert; case_decide;
          [subst s; reflexivity
          |rewrite (proj2 (String.eqb_neq _ _)) by congruence]).
  rewrite lookup_empty. reflexivity.
Qed.

Lemma dict_get_priority (label : option cell) (dflt : string) :
  spec_weight (Some (Str dflt)) = 0 ->
  dict_get Scoring.priority_scores (default (Str dflt) label) 0 = spec_weight label.
Proof.
  intros Hd. destruct label as [[|s|f|z]|]; simpl; try reflexivity.
  - apply priority_scores_lookup.
  - rewrite priority_scores_lookup. exact Hd.
Qed.

(** C3: the exploitability score of a row is the sum of the table values
    of its EPSS Category, VPR Category and KEV Listed cells, a missing or
    unknown value counting 0; the CVSS Category cell plays no part. *)
Theorem exploitability_score_is_sum (r : row) :
  Scoring.calculate_exploitability_score r
    = spec_weight (r !! "EPSS Category") + spec_weight (r !! "VPR Category")
      + spec_weight (r !! "KEV Listed")
  /\ (forall v, Scoring.calculate_exploitability_score (<["CVSS Category" := v]> r)
                = Scoring.calculate_exploitability_score r)
  /\ Scoring.calculate_exploitability_score (delete "CVSS Category" r)
     = Scoring.calculate_exploitability_score r.
Proof.
  unfold Scoring.calculate_exploitability_score, row_get.
  split; [|split].
  - rewrite !dict_get_priority by reflexivity. reflexivity.
  - intros v. rewrite !lookup_insert_ne by discriminate. reflexivity.
  - rewrite !lookup_delete_ne by discriminate. reflexivity.
Qed.

End ScoringFacts.

(** ** NVD lookup client *)

Module ApiFacts.

Import Api.

(** An attempt that brings no CVE record: a transport failure, a
    rate-limit or error status, a body that cannot be read, or a readable
    body with an empty result set. *)
Definition attempt_failed (reply : http_reply) : bool :=
  match reply with
  | Failed => true
  | Response code body =>
      bool_decide (code ∈ [403; 429]) || is_error_status code ||
      match body with
      | Ok [] => true
      | Ok (_ :: _) => false
      | Raise e => is_request_exception e
      end
  end.

Section ApiFacts.

Variable clock : nat -> float.
Variable network : nat -> http_reply.
Variable parse_date_iso : string -> option string.

Abbreviation fetch_cve_details := (Api.fetch_cve_details clock network parse_date_iso).
Abbreviation attempts := (Api.attempts clock network parse_date_iso).

(** C4: a CVE id that is a key of the cache is answered with the stored
    entry; the cache and the world, with its log of network requests, are
    left as they were. *)
Theorem fetch_cached_is_lookup (cve_id : string) (job_cve_cache : cve_cache)
    (timeout_threshold : float) (w : world) (cached : CacheEntry) :
  job_cve_cache !! cve_id = Some cached ->
  fetch_cve_details cve_id job_cve_cache timeout_threshold w
    = (Ok cached, job_cve_cache, w).
Proof. intros H. unfold Api.fetch_cve_details. rewrite H. reflexivity. Qed.

Lemma requests_time_sleep (s : Z) (w : world) :
  requests (time_sleep s w) = requests w.
Proof. reflexivity. Qed.

Lemma attempts_requests_grow (todo : list nat) cve_id url key start timeout cache w
    res cache' w' :
  attempts todo cve_id url key start timeout cache w = (res, cache', w') ->
  (length (requests w) <= length (requests w'))%nat.
Proof.
  revert w. induction todo as [|attempt rest IH]; simpl; intros w H.
  - injection H as _ _ <-. lia.
  - destruct (timeout <? clock (clock_reads w) - start)%float.
    { injection H as _ _ <-. simpl. lia. }
    assert (Hretry : forall w1,
      attempts rest cve_id url key start timeout cache w1 = (res, cache', w') ->
      (length (requests w1) = S (length (requests w)))%nat ->
      (length (requests w) <= length (requests w'))%nat).
    { intros w1 H1 Hlen. apply IH in H1. lia. }
    assert (Hlen1 : forall l : list (string * string),
      (length (l ++ [(url, key)]) = S (length l))%nat).
    { intros l. rewrite length_app. simpl. lia. }
    destruct (network (length (requests w))) as [|code body].
    { eapply Hretry; [exact H|]. simpl. apply Hlen1. }
    destruct (bool_decide (code ∈ [403; 429])).
    { eapply Hretry; [exact H|]. simpl. apply Hlen1. }
    destruct (is_error_status code).
    { eapply Hretry; [exact H|]. simpl. apply Hlen1. }
    destruct body as [[|cve_data vs]|e].
    + eapply Hretry; [exact H|]. simpl. apply Hlen1.
    + destruct (entry_of_cve parse_date_iso cve_data) as [new_entry|e].
      * injection H as _ _ <-. simpl. rewrite Hlen1. lia.
      * destruct (is_request_exception e).
        -- eapply Hretry; [exact H|]. simpl. apply Hlen1.
        -- injection H as _ _ <-. simpl. rewrite Hlen1. lia.
    + destruct (is_request_exception e).
      * eapply Hretry; [exact H|]. simpl. apply Hlen1.
      * injection H as _ _ <-. simpl. rewrite Hlen1. lia.
Qed.

Lemma entry_of_cve_no_request_exception (cve_data : nvd_cve) (e : exn) :
  entry_of_cve parse_date_iso cve_data = Raise e -> is_request_exception e = false.
Proof.
  unfold entry_of_cve.
  destruct (String.eqb (default "" (published cve_data)) ""); simpl; [discriminate|].
  destruct (parse_date_iso _); simpl; [discriminate|].
  intros [= <-]. reflexivity.
Qed.

Lemma attempts_all_failed (todo : list nat) cve_id url key start timeout cache w
    res cache' w' :
  attempts todo cve_id url key start timeout cache w = (res, cache', w') ->
  (forall k, (length (requests w) <= k < length (requests w'))%nat ->
             attempt_failed (network k) = true) ->
  res = Ok not_found_entry /\ cache' = <[cve_id := not_found_entry]> cache.
Proof.
  revert w. induction todo as [|attempt rest IH]; simpl; intros w H Hfail.
  - injection H as <- <- _. auto.
  - destruct (timeout <? clock (clock_reads w) - start)%float.
    { injection H as <- <- _. auto. }
    assert (Hlen1 : forall l : list (string * string),
      (length (l ++ [(url, key)]) = S (length l))%nat).
    { intros l. rewrite length_app. simpl. lia. }
    assert (Hretry : forall w1,
      attempts rest cve_id url key start timeout cache w1 = (res, cache', w') ->
      (length (requests w1) = S (length (requests w)))%nat ->
      res = Ok not_found_entry /\ cache' = <[cve_id := not_found_entry]> cache).
    { intros w1 H1 Hlen. apply (IH w1 H1). intros k Hk. apply Hfail. lia. }
    assert (Hthis : forall w1,
      attempts rest cve_id url key start timeout cache w1 = (res, cache', w') ->
      (length (requests w1) = S (length (requests w)))%nat ->
      attempt_failed (network (length (requests w))) = true).
    { intros w1 H1 Hlen. apply Hfail. apply attempts_requests_grow in H1. lia. }
    destruct (network (length (requests w))) as [|code body] eqn:Hreply.
    { eapply Hretry; [exact H|]. simpl. apply Hlen1. }
    destruct (bool_decide (code ∈ [403; 429])) eqn:Hrate.
    { eapply Hretry; [exact H|]. simpl. apply Hlen1. }
    destruct (is_error_status code) eqn:Herr.
    { eapply Hretry; [exact H|]. simpl. apply Hlen1. }
    destruct body as [[|cve_data vs]|e].
    + eapply Hretry; [exact H|]. simpl. apply Hlen1.
    + exfalso.
      assert (Hnow : attempt_failed (Response code (Ok (cve_data :: vs))) = true).
      { rewrite <- Hreply.
        destruct (entry_of_cve parse_date_iso cve_data) as [new_entry|e] eqn:He.
        - injection H as _ _ <-. apply Hfail. simpl. rewrite Hlen1. lia.
        - rewrite (entry_of_cve_no_request_exception _ _ He) in H.
          injection H as _ _ <-. apply Hfail. simpl. rewrite Hlen1. lia. }
      simpl in Hnow. rewrite Hrate, Herr in Hnow. discriminate.
    + destruct (is_request_exception e) eqn:Hexn.
      * eapply Hretry; [exact H|]. simpl. apply Hlen1.
      * exfalso.
        assert (Hnow : attempt_failed (Response code (Raise e)) = true).
        { rewrite <- Hreply.
          injection H as _ _ <-. apply Hfail. simpl. rewrite Hlen1. lia. }
        simpl in Hnow. rewrite Hrate, Herr, Hexn in Hnow. discriminate.
Qed.

Lemma get_api_key_in_range (w : world) :
  (api_key_index w < length API_KEYS)%nat ->
  exists key w1, get_api_key w = (Ok key, w1) /\ requests w1 = requests w.
Proof.
  intros Hkey. unfold get_api_key.
  set (rot := if (1000 <=? request_count w)%nat
              then ((api_key_index w + 1) mod length API_KEYS, 0)%nat
              else (api_key_index w, request_count w)).
  assert (Hidx : (rot.1 < length API_KEYS)%nat).
  { unfold rot. destruct (1000 <=? request_count w)%nat; [|exact Hkey].
    apply (Nat.mod_upper_bound (api_key_index w + 1) (length API_KEYS)).
    discriminate. }
  destruct rot as [index count]. cbn [fst] in Hidx.
  destruct (lookup_lt_is_Some_2 API_KEYS index Hidx) as [key Hlook].
  rewrite Hlook. eauto.
Qed.

Lemma fetch_miss_unfold (cve_id : string) (job_cve_cache : cve_cache)
    (timeout_threshold : float) (w w1 : world) (key : string) :
  job_cve_cache !! cve_id = None ->
  get_api_key w = (Ok key, w1) ->
  fetch_cve_details cve_id job_cve_cache timeout_threshold w =
  attempts (seq 0 NVD_RETRY_ATTEMPTS) cve_id
    (NVD_BASE_URL ++ "?cveId=" ++ cve_id)%string key
    (clock (clock_reads w1)) timeout_threshold job_cve_cache (time_time clock w1).2.
Proof.
  intros Hmiss Hget. unfold Api.fetch_cve_details. rewrite Hmiss, Hget. reflexivity.
Qed.

(** A lookup writes at most the entry of its own id. *)
Lemma attempts_cache (todo : list nat) cve_id url key start timeout cache w
    res cache' w' :
  attempts todo cve_id url key start timeout cache w = (res, cache', w') ->
  cache' = cache \/ exists e, cache' = <[cve_id := e]> cache.
Proof.
  revert w. induction todo as [|attempt rest IH]; simpl; intros w H.
  - injection H as _ <- _. eauto.
  - destruct (timeout <? clock (clock_reads w) - start)%float.
    { injection H as _ <- _. eauto. }
    destruct (network (length (requests w))) as [|code body]; [by eapply IH|].
    destruct (bool_decide (code ∈ [403; 429])); [by eapply IH|].
    destruct (is_error_status code); [by eapply IH|].
    destruct body as [[|cve_data vs]|e]; [by eapply IH| |].
    + destruct (entry_of_cve parse_date_iso cve_data) as [new_entry|e].
      * injection H as _ <- _. eauto.
      * destruct (is_request_exception e); [by eapply IH|].
        injection H as _ <- _. eauto.
    + destruct (is_request_exception e); [by eapply IH|].
      injection H as _ <- _. eauto.
Qed.

(** Within a run the cache only grows: a lookup keeps every entry that is
    there. *)
Lemma fetch_extends_cache (cve_id : string) (job_cve_cache : cve_cache)
    (timeout_threshold : float) (w : world)
    (res : pyresult CacheEntry) (cache' : cve_cache) (w' : world) :
  fetch_cve_details cve_id job_cve_cache timeout_threshold w = (res, cache', w') ->
  job_cve_cache ⊆ cache'.
Proof.
  unfold Api.fetch_cve_details.
  destruct (job_cve_cache !! cve_id) as [cached|] eqn:Hlook.
  { intros [= _ <- _]. reflexivity. }
  destruct (get_api_key w) as [[key|e] w1]; [|by intros [= _ <- _]].
  unfold time_time. intros H.
  apply attempts_cache in H as [-> | [e ->]]; [reflexivity|].
  by apply insert_subseteq.
Qed.

(** C5: for a CVE id that is no key of the cache, when every reply
    received during the call is a failed attempt (whether the retry count
    runs out or the timeout budget cuts the loop short), the call stores and
    returns the entry with patch status "CVE Not Found", no reference and
    no date; any later call for the same id, on a cache that has grown from
    the one left by this call, returns that entry and leaves the cache and
    the world, with its log of network requests, untouched. *)
Theorem fetch_failure_is_cached (cve_id : string) (job_cve_cache : cve_cache)
    (timeout_threshold : float) (w : world)
    (res : pyresult CacheEntry) (cache' : cve_cache) (w' : world) :
  job_cve_cache !! cve_id = None ->
  (api_key_index w < length API_KEYS)%nat ->
  fetch_cve_details cve_id job_cve_cache timeout_threshold w = (res, cache', w') ->
  (forall k, (length (requests w) <= k < length (requests w'))%nat ->
             attempt_failed (network k) = true) ->
  res = Ok not_found_entry
  /\ cache' = <[cve_id := not_found_entry]> job_cve_cache
  /\ date_obj not_found_entry = Null
  /\ status (patch_info not_found_entry) = Str "CVE Not Found"
  /\ references (patch_info not_found_entry) = JArr []
  /\ forall (later_cache : cve_cache) (later_world : world) (timeout_threshold' : float),
       cache' ⊆ later_cache ->
       fetch_cve_details cve_id later_cache timeout_threshold' later_world
         = (Ok not_found_entry, later_cache, later_world).
Proof.
  intros Hmiss Hkey Hrun Hfail.
  destruct (get_api_key_in_range w Hkey) as (key & w1 & Hget & Hreq).
  rewrite (fetch_miss_unfold _ _ _ _ _ _ Hmiss Hget) in Hrun.
  assert (Hall : res = Ok not_found_entry
                 /\ cache' = <[cve_id := not_found_entry]> job_cve_cache).
  { apply (attempts_all_failed _ _ _ _ _ _ _ _ _ _ _ Hrun).
    intros k Hk. apply Hfail. rewrite <- Hreq. exact Hk. }
  destruct Hall as [Hres Hcache].
  split; [exact Hres|]. split; [exact Hcache|].
  split; [reflexivity|]. split; [reflexivity|]. split; [reflexivity|].
  intros later_cache later_world t' Hgrown. unfold Api.fetch_cve_details.
  assert (Hlook : later_cache !! cve_id = Some not_found_entry).
  { eapply lookup_weaken; [|exact Hgrown]. rewrite Hcache. apply lookup_insert_eq. }
  rewrite Hlook. reflexivity.
Qed.

End ApiFacts.

End ApiFacts.

(** ** CSV cache *)

Module CacheFacts.

Import Cache.

(** What a reload makes of an entry: a date that is a missing value comes
    back as [None]; nothing else changes. *)
Definition reloaded (e : CacheEntry) : CacheEntry :=
  {| date_obj := if negb (pd_isna (date_obj e)) then date_obj e else Null;
     patch_info := {| status := status (patch_info e);
                      references := references (patch_info e) |} |}.

(** A cell of the file as the reader returns it: a missing value is read
    as a missing value, [None] as the NaN pandas makes of an empty field
    for one, and every other cell is read as it was written. *)
Definition read_as (written read : cell) : Prop :=
  if pd_isna written then pd_isna read = true else read = written.

(** The columns [load_cve_cache] looks at. *)
Definition loaded_columns : list string :=
  ["cve_id"; "date_obj"; "patch_status"; "references"].

Definition row_read_as (written read : row) : Prop :=
  Forall (fun c => exists v, read !! c = Some v /\ read_as (cell_of written c) v)
    loaded_columns.

(** An entry and what is loaded for it. *)
Definition entry_read_as (e e' : CacheEntry) : Prop :=
  references (patch_info e') = references (patch_info e)
  /\ read_as (status (patch_info e)) (status (patch_info e'))
  /\ date_obj e' = (if pd_isna (date_obj e) then Null else date_obj e).

Lemma entry_read_as_reloaded (e e' : CacheEntry) :
  pd_isna (status (patch_info e)) = false ->
  entry_read_as e e' -> e' = reloaded e.
Proof.
  intros Hst (Hrefs & Hstatus & Hdate). unfold read_as in Hstatus.
  rewrite Hst in Hstatus. destruct e' as [d' [st' refs']], e as [d [st refs]].
  unfold reloaded. cbn in *. subst. by destruct (pd_isna d).
Qed.

Lemma foldl_insert_union {V} (l : list (string * V)) (acc : gmap string V) :
  NoDup l.*1 ->
  foldl (fun acc item => <[item.1 := item.2]> acc) acc l = list_to_map l ∪ acc.
Proof.
  revert acc. induction l as [|[k e] l IH]; intros acc Hnd.
  - symmetry. apply map_empty_union.
  - rewrite fmap_cons in Hnd. apply NoDup_cons in Hnd as [Hk Hnd].
    cbn [foldl]. rewrite IH by exact Hnd.
    rewrite list_to_map_cons. cbn [fst snd].
    rewrite <- insert_union_l. symmetry. apply insert_union_r.
    by apply not_elem_of_list_to_map_1.
Qed.

Lemma Forall2_keys {V W} (R : V -> W -> Prop) (l : list (string * V))
    (l' : list (string * W)) :
  Forall2 (fun item item' => item'.1 = item.1 /\ R item.2 item'.2) l l' ->
  l'.*1 = l.*1.
Proof. induction 1 as [|? ? ? ? [H _] _ IH]; [reflexivity|]. by rewrite !fmap_cons, H, IH. Qed.

Lemma Forall2_elem_l {A B} (P : A -> B -> Prop) (l : list A) (k : list B) (x : A) :
  Forall2 P l k -> x ∈ l -> exists y, y ∈ k /\ P x y.
Proof.
  induction 1 as [|x' y l k Hxy _ IH]; intros Hx.
  - by apply elem_of_nil in Hx.
  - apply elem_of_cons in Hx as [-> | Hx].
    + exists y. split; [apply elem_of_cons; by left | exact Hxy].
    + destruct (IH Hx) as (y' & Hy' & HP). exists y'.
      split; [apply elem_of_cons; by right | exact HP].
Qed.

Section CacheFacts.

Variable to_csv : DataFrame -> string.
Variable read_csv : string -> pyresult DataFrame.
Variable json_dumps : json -> pyresult string.
Variable json_loads : string -> pyresult json.
Variable today : string.

Abbreviation load_row := (Cache.load_row json_loads).
Abbreviation load_rows := (Cache.load_rows json_loads).
Abbreviation load_cve_cache := (Cache.load_cve_cache read_csv json_loads).
Abbreviation cache_record := (Cache.cache_record json_dumps today).
Abbreviation cache_frame := (Cache.cache_frame json_dumps today).
Abbreviation save_cve_cache := (Cache.save_cve_cache to_csv json_dumps today).

(** The references of the entry have a JSON text, and [json.loads] makes
    the references of it again. *)
Definition json_faithful (e : CacheEntry) : Prop :=
  exists text, json_dumps (references (patch_info e)) = Ok text
               /\ json_loads text = Ok (references (patch_info e)).

Lemma load_row_record (acc : cve_cache) (cve_id : string) (e : CacheEntry)
    (written read : row) :
  cache_record (cve_id, e) = Ok written ->
  json_faithful e ->
  row_read_as written read ->
  exists e', load_row acc read = Ok (<[cve_id := e']> acc) /\ entry_read_as e e'.
Proof.
  intros Hrec (text & Hdumps & Hloads) Hread.
  unfold Cache.cache_record in Hrec. rewrite Hdumps in Hrec.
  change (Ok text ≫= ?k) with (k text) in Hrec. cbv beta in Hrec.
  injection Hrec as <-.
  unfold row_read_as, loaded_columns in Hread.
  apply Forall_cons in Hread as [(vid & Hid & Rid) Hread].
  apply Forall_cons in Hread as [(vd & Hd & Rd) Hread].
  apply Forall_cons in Hread as [(vst & Hst & Rst) Hread].
  apply Forall_cons in Hread as [(vrefs & Hrefs & Rrefs) _].
  unfold cell_of in Rid, Rd, Rst, Rrefs.
  cbn [list_to_map foldr uncurry fst snd] in Rid, Rd, Rst, Rrefs.
  repeat (first [rewrite lookup_insert_eq in Rid
                |rewrite lookup_insert_ne in Rid by discriminate]).
  repeat (first [rewrite lookup_insert_eq in Rd
                |rewrite lookup_insert_ne in Rd by discriminate]).
  repeat (first [rewrite lookup_insert_eq in Rst
                |rewrite lookup_insert_ne in Rst by discriminate]).
  repeat (first [rewrite lookup_insert_eq in Rrefs
                |rewrite lookup_insert_ne in Rrefs by discriminate]).
  cbn [default id] in Rid, Rd, Rst, Rrefs.
  unfold read_as in Rid, Rrefs. cbn [pd_isna] in Rid, Rrefs. subst vid vrefs.
  eexists. split.
  - unfold Cache.load_row, getitem. rewrite Hid, Hd, Hst, Hrefs.
    cbn [mbind pyresult_bind pbind pd_isna negb json_loads_cell try_except].
    rewrite Hloads. cbn [try_except mbind pyresult_bind pbind]. reflexivity.
  - split; [reflexivity|]. split; [exact Rst|]. cbn [date_obj].
    unfold read_as in Rd. destruct (pd_isna (date_obj e)) eqn:Hna.
    + by rewrite Rd.
    + subst vd. by rewrite Hna.
Qed.

Lemma load_rows_records (l : list (string * CacheEntry)) (written rs : list row)
    (acc : cve_cache) :
  pmapM cache_record l = Ok written ->
  Forall (fun item => json_faithful item.2) l ->
  Forall2 row_read_as written rs ->
  exists l',
    load_rows acc rs = Ok (foldl (fun acc item => <[item.1 := item.2]> acc) acc l')
    /\ Forall2 (fun item item' => item'.1 = item.1 /\ entry_read_as item.2 item'.2) l l'.
Proof.
  revert written rs acc. induction l as [|[cve_id e] l IH]; intros written rs acc Hw Hl Hrs.
  - injection Hw as <-. apply Forall2_nil_inv_l in Hrs as ->.
    exists []. split; [reflexivity|constructor].
  - cbn [pmapM] in Hw. bind_inv Hw as w Hrec. bind_inv Hw as ws Hws. injection Hw as <-.
    apply Forall_cons in Hl as [He Hl].
    apply Forall2_cons_inv_l in Hrs as (r & rs' & Hr & Hrs & ->).
    destruct (load_row_record acc cve_id e w r Hrec He Hr) as (e' & Hrow & He').
    destruct (IH ws rs' (<[cve_id := e']> acc) Hws Hl Hrs) as (l' & Hrows & Hl').
    exists ((cve_id, e') :: l'). split.
    + cbn [Cache.load_rows]. rewrite Hrow. exact Hrows.
    + constructor; [split; [reflexivity|exact He']|exact Hl'].
Qed.

(** The text written for a frame is read back row by row, every cell of
    the columns [load_cve_cache] looks at read as it was written; a frame
    without rows may also be refused by the reader, as an empty file is. *)
Definition reads_back (frame : DataFrame) : Prop :=
  match read_csv (to_csv frame) with
  | Ok df => Forall2 row_read_as (rows frame) (rows df)
  | Raise e => rows frame = [] /\ e <> Unsupported
  end.

Lemma load_one_row (path text : string) (fs0 : filesystem) (df : DataFrame) (r : row)
    (loaded : cve_cache) :
  files fs0 !! path = Some text ->
  read_csv text = Ok df ->
  rows df = [r] ->
  load_row ∅ r = Ok loaded ->
  load_cve_cache path fs0 = Ok loaded.
Proof.
  intros Hfile Hread Hrows Hrow. unfold Cache.load_cve_cache.
  rewrite Hfile, Hread. cbn [mbind pyresult_bind pbind]. rewrite Hrows.
  cbn [Cache.load_rows]. rewrite Hrow. reflexivity.
Qed.

Lemma save_true (cache : cve_cache) (path : string) (fs fs' : filesystem) :
  save_cve_cache cache path fs = (true, fs') ->
  exists frame,
    cache_frame cache = Ok frame
    /\ dirname path <> ""
    /\ (dirname path ∉ locked fs)
    /\ (path ∉ locked fs)
    /\ fs' = {| files := <[path := to_csv frame]> (files fs); locked := locked fs |}.
Proof.
  unfold Cache.save_cve_cache. intros H.
  destruct (cache_frame cache) as [frame|e]; [|discriminate].
  change (Ok frame ≫= ?k) with (k frame) in H. cbv beta in H.
  unfold ensure_dir_exists, fs_write in H.
  destruct (String.eqb_spec (dirname path) "") as [|Hdir]; [discriminate|].
  destruct (decide (dirname path ∈ locked fs)) as [Hlocked|Hlocked].
  { rewrite (bool_decide_eq_true_2 _ Hlocked) in H. discriminate. }
  rewrite (bool_decide_eq_false_2 _ Hlocked) in H.
  change (Ok ?d ≫= ?k) with (k d) in H. cbv beta in H.
  destruct (decide (path ∈ locked fs)) as [Hpath|Hpath].
  { rewrite (bool_decide_eq_true_2 _ Hpath) in H. discriminate. }
  rewrite (bool_decide_eq_false_2 _ Hpath) in H.
  injection H as <-. exists frame. auto.
Qed.

(** C6: saving a mapping and loading the same path gives the mapping back:
    the same CVE ids, every entry with its reference list, its patch
    status and its date, a missing value staying a missing value (a
    missing date comes back as [None]); this provided the CSV text written
    is read back row by row, a missing value as a missing value and every
    other cell as written, and the references survive their JSON text. A
    row whose references text cannot be parsed loads with an empty
    reference list, alone in a file as well; loading a path with no file
    gives the empty mapping. *)
Theorem save_then_load (cache : cve_cache) (cache_file_path : string)
    (fs fs' : filesystem) :
  save_cve_cache cache cache_file_path fs = (true, fs') ->
  (forall frame, cache_frame cache = Ok frame -> reads_back frame) ->
  map_Forall (fun _ e => json_faithful e) cache ->
  (exists loaded,
     load_cve_cache cache_file_path fs' = Ok loaded
     /\ (forall cve_id, is_Some (loaded !! cve_id) <-> is_Some (cache !! cve_id))
     /\ (forall cve_id e, cache !! cve_id = Some e ->
           exists e', loaded !! cve_id = Some e' /\
             references (patch_info e') = references (patch_info e) /\
             (pd_isna (status (patch_info e)) = false ->
              status (patch_info e') = status (patch_info e)) /\
             (pd_isna (status (patch_info e)) = true ->
              pd_isna (status (patch_info e')) = true) /\
             (pd_isna (date_obj e) = false -> date_obj e' = date_obj e) /\
             (pd_isna (date_obj e) = true -> date_obj e' = Null))
     /\ (map_Forall (fun _ e => pd_isna (status (patch_info e)) = false) cache ->
         loaded = reloaded <$> cache))
  /\ (forall (acc : cve_cache) (r : row) (cve_id : string) (d st c : cell) (err : exn),
        r !! "cve_id" = Some (Str cve_id) ->
        r !! "date_obj" = Some d ->
        r !! "patch_status" = Some st ->
        r !! "references" = Some c ->
        json_loads_cell json_loads c = Raise err ->
        let loaded_entry :=
          {| date_obj := if negb (pd_isna d) then d else Null;
             patch_info := {| status := st; references := JArr [] |} |} in
        load_row acc r = Ok (<[cve_id := loaded_entry]> acc)
        /\ forall path text fs0 df,
             files fs0 !! path = Some text -> read_csv text = Ok df -> rows df = [r] ->
             load_cve_cache path fs0 = Ok {[ cve_id := loaded_entry ]})
  /\ (forall (path : string) (fs0 : filesystem),
        files fs0 !! path = None -> load_cve_cache path fs0 = Ok ∅).
Proof.
  intros Hsave Hstore Hjson.
  split; [|split].
  - apply save_true in Hsave as (frame & Hframe & _ & _ & _ & ->).
    specialize (Hstore frame Hframe).
    unfold Cache.cache_frame in Hframe. bind_inv Hframe as written Hwritten.
    injection Hframe as <-.
    assert (Hentries : exists l',
      load_cve_cache cache_file_path
        {| files := <[cache_file_path :=
                        to_csv {| columns := match written with
                                             | [] => []
                                             | _ => cache_columns
                                             end;
                                  rows := written |}]> (files fs);
           locked := locked fs |} = Ok (list_to_map l')
      /\ Forall2 (fun item item' => item'.1 = item.1 /\ entry_read_as item.2 item'.2)
           (map_to_list cache) l').
    { unfold Cache.load_cve_cache. cbn [files]. rewrite lookup_insert_eq.
      unfold reads_back in Hstore. cbn [rows] in Hstore.
      destruct (read_csv _) as [df|e]; cbn [mbind pyresult_bind pbind].
      - destruct (load_rows_records (map_to_list cache) written (rows df) ∅ Hwritten)
          as (l' & Hrows & Hl'); [|exact Hstore|].
        { apply Forall_forall. intros [k e] Hin. apply elem_of_map_to_list in Hin.
          exact (Hjson k e Hin). }
        exists l'. split; [|exact Hl'].
        rewrite Hrows. f_equal. rewrite foldl_insert_union.
        + apply map_union_empty.
        + rewrite (Forall2_keys _ _ _ Hl'). apply NoDup_fst_map_to_list.
      - destruct Hstore as [-> He].
        destruct (map_to_list cache) as [|item l] eqn:Hl.
        + exists []. split; [by destruct e|constructor].
        + cbn [pmapM] in Hwritten. bind_inv Hwritten. bind_inv Hwritten.
          discriminate. }
    destruct Hentries as (l' & Hload & Hl').
    assert (Hnd : NoDup l'.*1).
    { rewrite (Forall2_keys _ _ _ Hl'). apply NoDup_fst_map_to_list. }
    assert (Hfound : forall cve_id e, cache !! cve_id = Some e ->
              exists e', (list_to_map l' : cve_cache) !! cve_id = Some e'
                         /\ entry_read_as e e').
    { intros cve_id e He. apply elem_of_map_to_list in He.
      destruct (Forall2_elem_l _ _ _ _ Hl' He) as ([k e'] & Hin & Hk & He').
      cbn [fst snd] in Hk, He'. subst k. exists e'. split; [|exact He'].
      by apply elem_of_list_to_map_1. }
    assert (Hdom : forall cve_id,
              is_Some ((list_to_map l' : cve_cache) !! cve_id) <-> is_Some (cache !! cve_id)).
    { intros cve_id. split.
      - intros [e' He']. apply elem_of_list_to_map_2 in He'.
        destruct (Forall2_elem_r _ _ _ _ Hl' He') as ([k e] & Hin & Hk & _).
        cbn [fst snd] in Hk. subst k. apply elem_of_map_to_list in Hin. by exists e.
      - intros [e He]. destruct (Hfound cve_id e He) as (e' & He' & _). by exists e'. }
    exists (list_to_map l'). split; [exact Hload|]. split; [exact Hdom|]. split.
    + intros cve_id e He. destruct (Hfound cve_id e He) as (e' & He' & Hrefs & Hst & Hd).
      exists e'. split; [exact He'|]. split; [exact Hrefs|].
      unfold read_as in Hst. rewrite Hd.
      repeat split.
      * intros Hna. by rewrite Hna in Hst.
      * intros Hna. by rewrite Hna in Hst.
      * by intros ->.
      * by intros ->.
    + intros Hstatus. apply map_eq. intros cve_id. rewrite lookup_fmap.
      destruct (cache !! cve_id) as [e|] eqn:He.
      * destruct (Hfound cve_id e He) as (e' & -> & He'). cbn [fmap option_fmap option_map].
        f_equal. apply entry_read_as_reloaded; [exact (Hstatus cve_id e He)|exact He'].
      * cbn [fmap option_fmap option_map]. apply eq_None_not_Some.
        rewrite Hdom, He. by intros [? ?].
  - intros acc r cve_id d st c err Hid Hd Hst Hc Hbad loaded_entry.
    assert (Hrow : forall acc0, load_row acc0 r = Ok (<[cve_id := loaded_entry]> acc0)).
    { intros acc0. unfold Cache.load_row, getitem. rewrite Hid, Hd, Hst, Hc.
      cbn [mbind pyresult_bind pbind].
      destruct (pd_isna c); cbn [negb]; [reflexivity|].
      rewrite Hbad. reflexivity. }
    split; [apply Hrow|].
    intros path text fs0 df Hfile Hread Hrows.
    eapply load_one_row; [exact Hfile|exact Hread|exact Hrows|].
    rewrite Hrow. reflexivity.
  - intros path fs0 Hnone. unfold Cache.load_cve_cache. rewrite Hnone. reflexivity.
Qed.

End CacheFacts.

End CacheFacts.

(** ** The order of binary64 values *)

Module FloatOrder.

Lemma SFcompare_antisym (x y : spec_float) (c : comparison) :
  SFcompare x y = Some c -> SFcompare y x = Some (CompOpp c).
Proof.
  destruct x as [s1|s1| |s1 m1 e1], y as [s2|s2| |s2 m2 e2]; simpl;
    try discriminate;
    try (destruct s1; intros [= <-]; reflexivity);
    try (destruct s2; intros [= <-]; reflexivity);
    try (intros [= <-]; reflexivity);
    try (destruct s1, s2; intros [= <-]; reflexivity).
  rewrite !Pos.compare_cont_spec; simpl.
  rewrite (Z.compare_antisym e1 e2), (Pos.compare_antisym m1 m2).
  destruct s1, s2, (e1 ?= e2), (m1 ?= m2)%positive;
    simpl; intros [= <-]; reflexivity.
Qed.

Lemma SFcompare_defined (x y : spec_float) :
  x <> S754_nan -> y <> S754_nan -> exists c, SFcompare x y = Some c.
Proof. destruct x, y; simpl; intros; try congruence; eauto. Qed.

Lemma SFleb_total (x y : spec_float) :
  x <> S754_nan -> y <> S754_nan -> SFleb x y = false -> SFleb y x = true.
Proof.
  intros Hx Hy. unfold SFleb.
  destruct (SFcompare_defined x y Hx Hy) as [c Hc].
  rewrite Hc, (SFcompare_antisym _ _ _ Hc). destruct c; simpl; congruence.
Qed.

Ltac lex_cases e1 e2 e3 m1 m2 m3 :=
  rewrite !Pos.compare_cont_spec; simpl;
  destruct (Z.compare_spec e1 e2), (Z.compare_spec e2 e3), (Z.compare_spec e1 e3);
  try lia; try discriminate; try reflexivity; subst;
  destruct (Pos.compare_spec m1 m2), (Pos.compare_spec m2 m3),
    (Pos.compare_spec m1 m3);
  simpl; try lia; try discriminate; try reflexivity.

Lemma SFleb_trans (x y z : spec_float) :
  SFleb x y = true -> SFleb y z = true -> SFleb x z = true.
Proof.
  unfold SFleb.
  destruct x as [s1|s1| |s1 m1 e1], y as [s2|s2| |s2 m2 e2],
    z as [s3|s3| |s3 m3 e3]; simpl; try discriminate;
    try (destruct s1; simpl; try discriminate);
    try (destruct s2; simpl; try discriminate);
    try (destruct s3; simpl; try discriminate);
    try reflexivity.
  - lex_cases e1 e2 e3 m1 m2 m3.
  - lex_cases e1 e2 e3 m1 m2 m3.
Qed.

Lemma is_nan_Prim2SF (f : float) :
  PrimFloat.is_nan f = false -> Prim2SF f <> S754_nan.
Proof.
  unfold PrimFloat.is_nan. rewrite FloatAxioms.eqb_spec.
  intros H E. rewrite E in H. discriminate.
Qed.

Lemma leb_total (a b : float) :
  PrimFloat.is_nan a = false -> PrimFloat.is_nan b = false ->
  (a <=? b)%float = false -> (b <=? a)%float = true.
Proof.
  intros Ha Hb. rewrite !FloatAxioms.leb_spec.
  apply SFleb_total; by apply is_nan_Prim2SF.
Qed.

Lemma leb_trans (a b c : float) :
  (a <=? b)%float = true -> (b <=? c)%float = true -> (a <=? c)%float = true.
Proof. rewrite !FloatAxioms.leb_spec. apply SFleb_trans. Qed.

End FloatOrder.

(** ** Sorting *)

Module SortFacts.

Import Analysis.

Section StableSort.

Context {A : Type} (le : A -> A -> bool).
Hypothesis le_total : forall x y, le x y = false -> le y x = true.
Hypothesis le_trans : forall x y z, le x y = true -> le y z = true -> le x z = true.

Lemma insert_sorted_perm (x : A) (l : list A) : insert_sorted le x l ≡ₚ x :: l.
Proof.
  induction l as [|y l IH]; simpl; [reflexivity|].
  destruct (le x y); [reflexivity|].
  rewrite IH. apply Permutation_swap.
Qed.

Lemma stable_sort_perm (l : list A) : stable_sort le l ≡ₚ l.
Proof.
  induction l as [|x l IH]; simpl; [reflexivity|].
  unfold stable_sort in *. simpl. rewrite insert_sorted_perm, IH. reflexivity.
Qed.

Lemma insert_sorted_sorted (x : A) (l : list A) :
  StronglySorted (fun a b => le a b = true) l ->
  StronglySorted (fun a b => le a b = true) (insert_sorted le x l).
Proof.
  induction 1 as [|y l Hl IH Hy]; simpl.
  - repeat constructor.
  - destruct (le x y) eqn:Hxy.
    + constructor; [by constructor|].
      constructor; [exact Hxy|].
      eapply Forall_impl; [exact Hy|]. intros z Hz. by eapply le_trans.
    + constructor; [exact IH|].
      rewrite insert_sorted_perm. constructor; [by apply le_total | exact Hy].
Qed.

Lemma stable_sort_sorted (l : list A) :
  StronglySorted (fun a b => le a b = true) (stable_sort le l).
Proof.
  induction l as [|x l IH]; [constructor|].
  unfold stable_sort in *. simpl. by apply insert_sorted_sorted.
Qed.

End StableSort.

Lemma StronglySorted_Forall_impl {A} (P : A -> Prop) (R R' : A -> A -> Prop)
    (l : list A) :
  (forall x y, P x -> P y -> R x y -> R' x y) ->
  Forall P l -> StronglySorted R l -> StronglySorted R' l.
Proof.
  intros Himpl HP HS. induction HS as [|x l HS IH Hx]; [constructor|].
  apply Forall_cons in HP as [Px HP]. constructor; [by apply IH|].
  rewrite Forall_forall in *. intros y Hy. apply Himpl; auto.
Qed.

Lemma StronglySorted_fmap_2 {A B} (f : A -> B) (R : B -> B -> Prop) (l : list A) :
  StronglySorted (fun x y => R (f x) (f y)) l -> StronglySorted R (f <$> l).
Proof.
  induction 1 as [|x l HS IH Hx]; simpl; [constructor|].
  constructor; [exact IH|]. by apply Forall_fmap.
Qed.

Lemma float_desc_total (a b : float) :
  float_desc a b = false -> float_desc b a = true.
Proof.
  unfold float_desc.
  destruct (PrimFloat.is_nan b) eqn:Hb; [discriminate|].
  destruct (PrimFloat.is_nan a) eqn:Ha; [reflexivity|].
  by apply FloatOrder.leb_total.
Qed.

Lemma float_desc_trans (a b c : float) :
  float_desc a b = true -> float_desc b c = true -> float_desc a c = true.
Proof.
  unfold float_desc.
  destruct (PrimFloat.is_nan c) eqn:Hc; [reflexivity|].
  destruct (PrimFloat.is_nan b) eqn:Hb; [discriminate|].
  destruct (PrimFloat.is_nan a) eqn:Ha; [discriminate|].
  intros Hba Hcb. by eapply FloatOrder.leb_trans.
Qed.

Lemma keys_desc_total (a b : option Z * float) :
  keys_desc a b = false -> keys_desc b a = true.
Proof.
  destruct a as [[x|] f], b as [[y|] g]; unfold keys_desc, int_desc; simpl;
    try discriminate; try reflexivity.
  - destruct (Z.leb_spec x y), (Z.leb_spec y x); simpl;
      try discriminate; try reflexivity; try lia.
    apply float_desc_total.
  - apply float_desc_total.
Qed.

Lemma keys_desc_trans (a b c : option Z * float) :
  keys_desc a b = true -> keys_desc b c = true -> keys_desc a c = true.
Proof.
  destruct a as [[x|] f], b as [[y|] g], c as [[z|] h];
    unfold keys_desc, int_desc; simpl; try discriminate; try reflexivity.
  - destruct (Z.leb_spec x y), (Z.leb_spec y x), (Z.leb_spec y z), (Z.leb_spec z y),
      (Z.leb_spec x z), (Z.leb_spec z x); simpl;
      try discriminate; try reflexivity; try lia.
    apply float_desc_trans.
  - apply float_desc_trans.
Qed.

End SortFacts.

(** ** The common_critical view *)

Module AnalysisFacts.

Import Analysis.

(** The band values of the specification. *)
Definition spec_band_value (label : string) : Z :=
  if String.eqb label "Critical" then 4
  else if String.eqb label "High" then 3
  else if String.eqb label "Medium" then 2
  else if String.eqb label "Low" then 1
  else 0.

Definition critical_or_high (label : string) : Prop :=
  label = "Critical" \/ label = "High".

(** What the specification asks of a row of the view. *)
Definition row_spec (r : row) : Prop :=
  exists cvss epss vpr,
    r !! "CVSS Category" = Some (Str cvss) /\ critical_or_high cvss /\
    r !! "EPSS Category" = Some (Str epss) /\ critical_or_high epss /\
    r !! "VPR Category" = Some (Str vpr) /\ critical_or_high vpr /\
    r !! "KEV Listed" = Some (Str "Yes") /\
    r !! "Combined Priority"
      = Some (Int (2 * spec_band_value cvss + spec_band_value epss + spec_band_value vpr)).

(** The raw CVSS score of a row, when it holds a number. *)
Definition numeric_score (r : row) (x : float) : Prop :=
  float_key (cell_of r "CVSS v3.0 Base Score") = Ok x /\ PrimFloat.is_nan x = false.

(** [r1] may stand before [r2]: its Combined Priority is not smaller, and
    on a tie its raw CVSS score is not smaller. *)
Definition ordered (r1 r2 : row) : Prop :=
  exists p1 p2,
    r1 !! "Combined Priority" = Some (Int p1) /\
    r2 !! "Combined Priority" = Some (Int p2) /\
    p2 <= p1 /\
    (p1 = p2 -> forall x y, numeric_score r1 x -> numeric_score r2 y ->
                (y <=? x)%float = true).

(** The four columns added to a selected row. *)
Definition enrich (r : row) : row :=
  let r := <["CVSS Value" := series_map band_values (cell_of r "CVSS Category")]> r in
  let r := <["EPSS Value" := series_map band_values (cell_of r "EPSS Category")]> r in
  let r := <["VPR Value" := series_map band_values (cell_of r "VPR Category")]> r in
  <["Combined Priority" :=
      cell_plus (cell_plus (cell_times (cell_of r "CVSS Value") 2)
                           (cell_of r "EPSS Value"))
                (cell_of r "VPR Value")]> r.

(** One record of [to_records] after [clean_for_json]. *)
Definition cleaned_record (cols : list string) (r : row) : row :=
  list_to_map ((fun c => (c, cell_of (clean_cell <$> r) c)) <$> cols).

Lemma elem_of_add_label (cols : list string) (c x : string) :
  x ∈ add_label cols c <-> x ∈ cols \/ x = c.
Proof.
  unfold add_label. case_bool_decide as Hc.
  - split; [auto|]. intros [H | ->]; assumption.
  - rewrite elem_of_app, list_elem_of_singleton. reflexivity.
Qed.

Lemma has_column_true (df : DataFrame) (c : string) :
  has_column df c = true <-> c ∈ columns df.
Proof. unfold has_column. apply bool_decide_eq_true. Qed.

Lemma isin_Str (c : cell) (values : list string) :
  isin c values = true -> exists s, c = Str s /\ s ∈ values.
Proof.
  destruct c as [|s|f|z]; simpl; try discriminate.
  intros H. apply bool_decide_eq_true in H. eauto.
Qed.

Lemma cell_of_Str (r : row) (c s : string) :
  cell_of r c = Str s -> r !! c = Some (Str s).
Proof. unfold cell_of. destruct (r !! c); simpl; congruence. Qed.

Lemma critical_or_high_elem (s : string) :
  s ∈ ["Critical"; "High"] -> critical_or_high s.
Proof.
  intros H. apply elem_of_cons in H as [-> | H]; [by left|].
  apply list_elem_of_singleton in H as ->. by right.
Qed.

Lemma band_values_lookup (s : string) :
  critical_or_high s -> band_values !! s = Some (spec_band_value s).
Proof. intros [-> | ->]; reflexivity. Qed.

Lemma enrich_spec (r : row) :
  is_common_critical r = true -> row_spec (enrich r).
Proof.
  unfold is_common_critical. rewrite !andb_true_iff.
  intros [[[Hc He] Hv] Hk].
  apply isin_Str in Hc as (cvss & Hc & Hc'). apply critical_or_high_elem in Hc'.
  apply isin_Str in He as (epss & He & He'). apply critical_or_high_elem in He'.
  apply isin_Str in Hv as (vpr & Hv & Hv'). apply critical_or_high_elem in Hv'.
  assert (Hkev : r !! "KEV Listed" = Some (Str "Yes")).
  { unfold cell_is, cell_of in Hk. destruct (r !! "KEV Listed") as [[|s|f|z]|];
      simpl in Hk; try discriminate.
    apply String.eqb_eq in Hk as ->. reflexivity. }
  exists cvss, epss, vpr. unfold enrich, cell_of in *.
  repeat (first [rewrite lookup_insert_eq | rewrite lookup_insert_ne by discriminate]).
  apply cell_of_Str in Hc, He, Hv. unfold cell_of in *.
  rewrite Hc, He, Hv, Hkev. simpl.
  rewrite !band_values_lookup by assumption. simpl.
  repeat split; try assumption. do 2 f_equal. lia.
Qed.

Lemma lookup_cleaned_record (cols : list string) (r : row) (c : string) :
  cleaned_record cols r !! c
    = if bool_decide (c ∈ cols) then Some (clean_cell (cell_of r c)) else None.
Proof.
  unfold cleaned_record.
  assert (Hclean : cell_of (clean_cell <$> r) c = clean_cell (cell_of r c)).
  { unfold cell_of. rewrite lookup_fmap. destruct (r !! c); reflexivity. }
  rewrite <- Hclean. clear Hclean.
  induction cols as [|c' cols IH].
  - rewrite fmap_nil, list_to_map_nil, lookup_empty.
    rewrite bool_decide_eq_false_2 by apply not_elem_of_nil. reflexivity.
  - rewrite fmap_cons, list_to_map_cons. cbn [fst snd].
    rewrite lookup_insert. destruct (decide (c' = c)) as [Hd|Hd].
    + rewrite <- Hd.
      rewrite bool_decide_eq_true_2 by (apply elem_of_cons; by left). reflexivity.
    + rewrite IH. apply option_eq. intros x.
      case_bool_decide as H1; case_bool_decide as H2; try reflexivity; exfalso.
      * apply H2. apply elem_of_cons. by right.
      * apply elem_of_cons in H2 as [H2 | H2]; [by apply Hd | by apply H1].
Qed.

Lemma clean_cell_Str (c : cell) (s : string) :
  c = Str s -> clean_cell c = Str s.
Proof. intros ->. reflexivity. Qed.

Lemma cleaned_record_spec (cols : list string) (r : row) :
  Forall (fun c => c ∈ cols)
    ["CVSS Category"; "EPSS Category"; "VPR Category"; "KEV Listed"; "Combined Priority"] ->
  row_spec r -> row_spec (cleaned_record cols r).
Proof.
  intros Hcols (cvss & epss & vpr & Hc & Hc' & He & He' & Hv & Hv' & Hk & Hp).
  repeat (apply Forall_cons in Hcols as [? Hcols]).
  exists cvss, epss, vpr. rewrite !lookup_cleaned_record.
  rewrite !bool_decide_eq_true_2 by assumption.
  unfold cell_of. rewrite Hc, He, Hv, Hk, Hp. simpl. auto 10.
Qed.

Lemma float_key_cleaned (c : cell) (x : float) :
  float_key (clean_cell c) = Ok x -> PrimFloat.is_nan x = false -> float_key c = Ok x.
Proof.
  destruct c as [|s|f|z]; simpl; try done.
  destruct (PrimFloat.is_nan f || (f =? infinity)%float || (f =? neg_infinity)%float);
    simpl; [|done].
  intros [= <-]. discriminate.
Qed.

Lemma numeric_score_cleaned (cols : list string) (r : row) (x : float) :
  numeric_score (cleaned_record cols r) x ->
  float_key (cell_of r "CVSS v3.0 Base Score") = Ok x /\ PrimFloat.is_nan x = false.
Proof.
  unfold numeric_score. intros [Hkey Hnan]. split; [|exact Hnan].
  unfold cell_of at 1 in Hkey. rewrite lookup_cleaned_record in Hkey.
  case_bool_decide; simpl in Hkey.
  - by apply float_key_cleaned.
  - injection Hkey as <-. discriminate.
Qed.

(** What [sort_values] returns on two keys, both descending. *)
Lemma sort_values_two_keys (df df' : DataFrame) (k1 k2 : string) :
  sort_values df [k1; k2] [false; false] = Ok df' ->
  exists keyed : list (option Z * float * row),
    Forall (fun kr => kr.2 ∈ rows df /\
                      int_key (cell_of kr.2 k1) = Ok kr.1.1 /\
                      float_key (cell_of kr.2 k2) = Ok kr.1.2) keyed
    /\ StronglySorted (fun x y => keys_desc x.1 y.1 = true) keyed
    /\ rows df' = snd <$> keyed
    /\ columns df' = columns df.
Proof.
  unfold sort_values. cbn [length Nat.eqb negb].
  intros H. bind_inv H. injection H as <-.
  exists (stable_sort (fun x y => keys_desc x.1 y.1) x).
  split; [|split; [|split; reflexivity]].
  - apply pmapM_Ok in Hx. apply Forall_forall. intros kr Hkr.
    rewrite SortFacts.stable_sort_perm in Hkr.
    destruct (Forall2_elem_r _ _ _ _ Hx Hkr) as (r & Hr & Hkey).
    bind_inv Hkey. bind_inv Hkey. injection Hkey as <-. auto.
  - apply SortFacts.stable_sort_sorted.
    + intros a b. apply SortFacts.keys_desc_total.
    + intros a b c. apply SortFacts.keys_desc_trans.
Qed.


Lemma row_spec_priority (r : row) :
  row_spec r -> exists p, r !! "Combined Priority" = Some (Int p).
Proof. intros (? & ? & ? & _ & _ & _ & _ & _ & _ & _ & Hp). eauto. Qed.

Lemma keys_desc_Some (p1 p2 : Z) (f1 f2 : float) :
  keys_desc (Some p1, f1) (Some p2, f2) = true ->
  p2 <= p1 /\ (p1 = p2 -> float_desc f1 f2 = true).
Proof.
  unfold keys_desc, int_desc; simpl.
  destruct (Z.leb_spec p1 p2), (Z.leb_spec p2 p1); simpl;
    try discriminate; try lia; intros Hf; split; try lia; auto; lia.
Qed.

(** C1: every row of the common_critical view has a Critical or High
    CVSS, EPSS and VPR category and is KEV listed; its Combined Priority is
    twice the CVSS band value plus the EPSS and the VPR band values; the
    rows come with Combined Priority non-increasing and, where it ties,
    with the raw CVSS score non-increasing. *)
Theorem common_critical_rows (df : DataFrame) (out : list row) :
  generate_common_critical df = Ok out ->
  Forall row_spec out /\ StronglySorted ordered out.
Proof.
  unfold generate_common_critical.
  destruct (forallb (has_column df) _) eqn:Hreq; cbn [negb];
    [|intros [= <-]; split; constructor].
  destruct (rows (filter_rows is_common_critical df)) as [|r0 sel] eqn:Hsel;
    [intros [= <-]; split; constructor|].
  cbv zeta.
  match goal with |- context [List.filter (has_column ?d) ?l] =>
    set (cc4 := d); set (required_columns := l) end.
  set (avail := List.filter (has_column cc4) required_columns).
  intros H. bind_inv H. injection H as <-.
  destruct (has_column {| columns := avail; rows := rows cc4 |} "CVSS v3.0 Base Score")
    eqn:Hraw; [|discriminate].
  apply sort_values_two_keys in Hx as (keyed & Hkeyed & Hsorted & Hrows & Hcols).
  cbn [rows columns] in Hkeyed, Hcols.
  assert (Hout : clean_for_json x = (fun kr => cleaned_record avail kr.2) <$> keyed).
  { unfold clean_for_json, to_records. cbn [rows columns]. rewrite Hrows, Hcols.
    rewrite <- !list_fmap_compose. reflexivity. }
  assert (Hrows4 : rows cc4 = enrich <$> List.filter is_common_critical (rows df)).
  { unfold cc4, with_column. cbn [rows filter_rows].
    rewrite <- !list_fmap_compose. reflexivity. }
  assert (Havail : Forall (fun c => c ∈ avail)
    ["CVSS Category"; "EPSS Category"; "VPR Category"; "KEV Listed"; "Combined Priority"]).
  { cbn [forallb] in Hreq. rewrite !andb_true_iff, !has_column_true in Hreq.
    destruct Hreq as (H1 & H2 & H3 & H4 & _).
    assert (Hin : forall c, c ∈ required_columns -> c ∈ columns df \/ c = "Combined Priority" ->
                            c ∈ avail).
    { intros c Hc Hdf. unfold avail. apply list_elem_of_In, filter_In.
      split; [by apply list_elem_of_In|]. apply has_column_true.
      unfold cc4, with_column. cbn [columns filter_rows].
      rewrite !elem_of_add_label. tauto. }
    repeat constructor; apply Hin; auto; by apply (bool_decide_unpack _). }
  assert (Hrow : forall kr, kr ∈ keyed -> row_spec kr.2).
  { intros kr Hkr. rewrite Forall_forall in Hkeyed.
    destruct (Hkeyed kr Hkr) as (Hin & _). rewrite Hrows4 in Hin.
    apply list_elem_of_fmap in Hin as (r & -> & Hr).
    apply list_elem_of_In, filter_In in Hr as [_ Hr]. by apply enrich_spec. }
  rewrite Hout. split.
  - apply Forall_fmap, Forall_forall. intros kr Hkr.
    apply cleaned_record_spec; [exact Havail | by apply Hrow].
  - apply (SortFacts.StronglySorted_fmap_2 (fun kr => cleaned_record avail kr.2)).
    eapply (SortFacts.StronglySorted_Forall_impl
              (fun kr => kr ∈ keyed)); [|by apply Forall_forall|exact Hsorted].
    intros [[ia fa] ra] [[ib fb] rb] Ha Hb Hab.
    rewrite Forall_forall in Hkeyed.
    destruct (Hkeyed _ Ha) as (_ & Hia & Hfa), (Hkeyed _ Hb) as (_ & Hib & Hfb).
    destruct (row_spec_priority _ (Hrow _ Ha)) as [p1 Hp1].
    destruct (row_spec_priority _ (Hrow _ Hb)) as [p2 Hp2].
    cbn [fst snd] in *.
    unfold cell_of in Hia, Hib. rewrite Hp1 in Hia. rewrite Hp2 in Hib.
    injection Hia as <-. injection Hib as <-.
    apply Forall_forall with (x := "Combined Priority") in Havail;
      [|by apply (bool_decide_unpack _)].
    destruct (keys_desc_Some _ _ _ _ Hab) as [Hle Htie].
    exists p1, p2. rewrite !lookup_cleaned_record.
    rewrite !bool_decide_eq_true_2 by exact Havail.
    unfold cell_of. rewrite Hp1, Hp2. repeat split; [exact Hle|].
    intros Heq sa sb Hsa Hsb.
    apply numeric_score_cleaned in Hsa as [Hsa Hnx], Hsb as [Hsb Hny].
    rewrite Hfa in Hsa. rewrite Hfb in Hsb.
    injection Hsa as ->. injection Hsb as ->.
    specialize (Htie Heq). unfold float_desc in Htie.
    rewrite Hnx, Hny in Htie. exact Htie.
Qed.


Lemma cell_of_enrich (r : row) (c : string) :
  c ∉ ["CVSS Value"; "EPSS Value"; "VPR Value"; "Combined Priority"] ->
  cell_of (enrich r) c = cell_of r c.
Proof.
  rewrite !elem_of_cons, elem_of_nil. intros Hc.
  unfold enrich, cell_of.
  rewrite !lookup_insert_ne by (intros <-; apply Hc; auto 10). reflexivity.
Qed.

(** X26: the common-critical view is produced, without an exception,
    whenever the raw score column "CVSS v3.0 Base Score" is there and holds
    numbers or missing values. *)
Lemma common_critical_returns (df : DataFrame) :
  has_column df "CVSS v3.0 Base Score" = true ->
  Forall (fun r => exists x, float_key (cell_of r "CVSS v3.0 Base Score") = Ok x)
    (rows df) ->
  exists out, generate_common_critical df = Ok out.
Proof.
  intros Hraw Hnum. unfold generate_common_critical.
  destruct (forallb (has_column df) _); cbn [negb]; [|by eexists].
  destruct (rows (filter_rows is_common_critical df)) as [|r0 sel] eqn:Hsel;
    [by eexists|].
  cbv zeta.
  match goal with |- context [List.filter (has_column ?d) ?l] =>
    set (cc4 := d); set (required_columns := l) end.
  set (avail := List.filter (has_column cc4) required_columns).
  assert (Hrows4 : rows cc4 = enrich <$> List.filter is_common_critical (rows df)).
  { unfold cc4, with_column. cbn [rows filter_rows].
    rewrite <- !list_fmap_compose. reflexivity. }
  assert (Hin : has_column {| columns := avail; rows := rows cc4 |}
                  "CVSS v3.0 Base Score" = true).
  { apply has_column_true. cbn [columns]. unfold avail.
    apply list_elem_of_In, filter_In. split.
    - apply list_elem_of_In. by apply (bool_decide_unpack _).
    - apply has_column_true. unfold cc4, with_column. cbn [columns filter_rows].
      rewrite !elem_of_add_label. apply has_column_true in Hraw. tauto. }
  rewrite Hin. unfold sort_values. cbn [length Nat.eqb negb rows].
  match goal with |- context [pmapM ?f ?l] => destruct (pmapM_total f l) as [keyed ->] end.
  - rewrite Hrows4. apply Forall_fmap, Forall_forall. intros r Hr.
    apply list_elem_of_In, filter_In in Hr as [Hr Hsel'].
    destruct (row_spec_priority _ (enrich_spec r Hsel')) as [p Hp].
    rewrite Forall_forall in Hnum.
    destruct (Hnum r (proj2 (list_elem_of_In _ _) Hr)) as [x Hx].
    assert (Hcp : cell_of (enrich r) "Combined Priority" = Int p).
    { unfold cell_of. rewrite Hp. reflexivity. }
    unfold compose. cbv beta. rewrite Hcp, cell_of_enrich, Hx;
      [eexists; reflexivity|].
    rewrite !elem_of_cons, elem_of_nil. intros [|[|[|[|[]]]]]; discriminate.
  - eexists. reflexivity.
Qed.

(** X27: without the raw score column "CVSS v3.0 Base Score" a frame
    with a qualifying row makes [generate_common_critical] raise: the
    selection is sorted by one key with two sort directions, which
    [sort_values] refuses with a [ValueError]. *)
Lemma common_critical_without_score (df : DataFrame) :
  forallb (has_column df) ["CVSS Category"; "EPSS Category"; "VPR Category"; "KEV Listed"]
    = true ->
  has_column df "CVSS v3.0 Base Score" = false ->
  List.filter is_common_critical (rows df) <> [] ->
  generate_common_critical df = Raise ValueError.
Proof.
  intros Hreq Hraw Hsel. unfold generate_common_critical. rewrite Hreq. cbn [negb].
  cbn [rows filter_rows].
  destruct (List.filter is_common_critical (rows df)) as [|r0 sel] eqn:Hf; [done|].
  cbv zeta.
  match goal with |- context [List.filter (has_column ?d) ?l] =>
    set (cc4 := d); set (required_columns := l) end.
  set (avail := List.filter (has_column cc4) required_columns).
  assert (Hin : has_column {| columns := avail; rows := rows cc4 |}
                  "CVSS v3.0 Base Score" = false).
  { apply bool_decide_eq_false. cbn [columns]. unfold avail.
    rewrite list_elem_of_In, filter_In. intros [_ Hc].
    apply has_column_true in Hc. unfold cc4, with_column in Hc.
    cbn [columns filter_rows] in Hc. rewrite !elem_of_add_label in Hc.
    apply bool_decide_eq_false in Hraw.
    destruct Hc as [[[[Hc|Hc]|Hc]|Hc]|Hc]; try discriminate. by apply Hraw. }
  rewrite Hin. reflexivity.
Qed.

End AnalysisFacts.

(** ** Frames *)

Module FrameFacts.

Lemma set_column_Ok (df df' : DataFrame) (c : string) (f : row -> pyresult cell) :
  set_column df c f = Ok df' ->
  columns df' = add_label (columns df) c
  /\ Forall2 (fun r r' => exists v, f r = Ok v /\ r' = <[c := v]> r) (rows df) (rows df').
Proof.
  unfold set_column. intros H. bind_inv H. injection H as <-. split; [reflexivity|].
  apply pmapM_Ok in Hx. cbn [rows].
  eapply Forall2_impl; [exact Hx|]. intros r r' Hr. cbv beta in Hr.
  bind_inv Hr. injection Hr as <-. eauto.
Qed.

Lemma cell_of_insert_ne (r : row) (c k : string) (v : cell) :
  c <> k -> cell_of (<[c := v]> r) k = cell_of r k.
Proof. intros Hck. unfold cell_of. by rewrite lookup_insert_ne. Qed.

Lemma cell_of_insert_eq (r : row) (c : string) (v : cell) :
  cell_of (<[c := v]> r) c = v.
Proof. unfold cell_of. by rewrite lookup_insert_eq. Qed.

Lemma set_column_keeps (df df' : DataFrame) (c k : string) (f : row -> pyresult cell)
    (P : cell -> Prop) :
  set_column df c f = Ok df' -> c <> k ->
  Forall (fun r => P (cell_of r k)) (rows df) ->
  Forall (fun r => P (cell_of r k)) (rows df').
Proof.
  intros H Hck HP. apply set_column_Ok in H as [_ H].
  induction H as [|r r' l l' (v & _ & ->) _ IH]; [constructor|].
  apply Forall_cons in HP as [Hr HP]. constructor; [|by apply IH].
  by rewrite cell_of_insert_ne.
Qed.

Lemma with_column_keeps (df : DataFrame) (c k : string) (f : row -> cell)
    (P : cell -> Prop) :
  c <> k ->
  Forall (fun r => P (cell_of r k)) (rows df) ->
  Forall (fun r => P (cell_of r k)) (rows (Analysis.with_column df c f)).
Proof.
  intros Hck HP. unfold Analysis.with_column. cbn [rows].
  apply Forall_fmap. eapply Forall_impl; [exact HP|].
  intros r Hr. cbv beta. unfold compose. by rewrite cell_of_insert_ne.
Qed.

Lemma filter_rows_keeps (df : DataFrame) (p : row -> bool) (P : row -> Prop) :
  Forall P (rows df) -> Forall P (rows (filter_rows p df)).
Proof.
  rewrite !Forall_forall. intros HP r Hr. apply HP.
  unfold filter_rows in Hr. cbn [rows] in Hr.
  apply list_elem_of_In, filter_In in Hr as [Hr _]. by apply list_elem_of_In.
Qed.

Lemma filter_rows_holds (df : DataFrame) (p : row -> bool) :
  Forall (fun r => p r = true) (rows (filter_rows p df)).
Proof.
  apply Forall_forall. intros r Hr. unfold filter_rows in Hr. cbn [rows] in Hr.
  by apply list_elem_of_In, filter_In in Hr as [_ Hr].
Qed.

Lemma Forall2_compose {A B C} (P : A -> B -> Prop) (Q : B -> C -> Prop)
    (l : list A) (k : list B) (m : list C) :
  Forall2 P l k -> Forall2 Q k m -> Forall2 (fun x z => exists y, P x y /\ Q y z) l m.
Proof.
  intros H. revert m. induction H as [|x y l k Hxy _ IH]; intros m Hm.
  - inversion Hm. constructor.
  - inversion Hm as [|y' z k' m' Hyz Hkm]; subst. constructor; eauto.
Qed.

End FrameFacts.

(** ** Categorization *)

Module CategorizationFacts.

Import Categorization.

(** The seven risk labels of the data model. *)
Definition canonical_risks : list string :=
  ["Critical"; "High"; "Medium"; "Low"; "None"; "Informational"; "Check Needed"].

Definition is_canonical (c : cell) : bool := isin c canonical_risks.

(** The guard of [assign_severity]: the declared risk is passed through. *)
Definition declared_wins (existing_risk : cell) : bool :=
  truthy existing_risk && negb (is_none_label existing_risk)
  && negb (pd_isna existing_risk).

Section CategorizationFacts.

Variable NAME_MAPPINGS : list (string * list string).
Variable BUCKET_MAPPINGS : list (string * list string).
Variable set_order : list string -> list string.

Abbreviation assign_severity := (Categorization.assign_severity NAME_MAPPINGS).
Abbreviation categorize_name := (Categorization.categorize_name BUCKET_MAPPINGS set_order).
Abbreviation categorize_vulnerabilities :=
  (Categorization.categorize_vulnerabilities NAME_MAPPINGS BUCKET_MAPPINGS set_order).

Lemma first_match_label (mappings : list (string * list string)) (name_lower s : string) :
  first_match mappings name_lower = Some s -> s ∈ mappings.*1.
Proof.
  induction mappings as [|[severity patterns] rest IH]; simpl; [discriminate|].
  destruct (any_pattern_in patterns name_lower).
  - intros [= ->]. apply elem_of_cons. by left.
  - intros H. apply elem_of_cons. right. by apply IH.
Qed.

Lemma assign_severity_spec (name existing_risk out : cell) :
  assign_severity name existing_risk = Ok out ->
  pd_isna out = false
  /\ (declared_wins existing_risk = true -> out = existing_risk)
  /\ (declared_wins existing_risk = false ->
      Forall (fun m => m.1 ∈ canonical_risks) NAME_MAPPINGS ->
      is_canonical out = true).
Proof.
  unfold Categorization.assign_severity. fold (declared_wins existing_risk).
  destruct (declared_wins existing_risk) eqn:Hwins.
  - intros [= <-]. split; [|split; [reflexivity|discriminate]].
    unfold declared_wins in Hwins. rewrite !andb_true_iff in Hwins.
    destruct Hwins as [_ Hna]. by apply negb_true_iff.
  - destruct (pd_isna name).
    { intros [= <-]. split; [reflexivity|split; [discriminate|reflexivity]]. }
    intros H. bind_inv H.
    destruct (first_match NAME_MAPPINGS x) as [severity|] eqn:Hm;
      injection H as <-; (split; [reflexivity|split; [discriminate|]]);
      [|reflexivity].
    intros _ Hkeys. apply first_match_label in Hm.
    apply list_elem_of_fmap in Hm as (m & -> & Hm).
    rewrite Forall_forall in Hkeys. apply bool_decide_eq_true. by apply Hkeys.
Qed.

(** C7, as the code has it: after categorization no row has a null Risk;
    a declared risk that is non-empty and not "None" is kept as it is, and
    every other row gets one of the seven canonical labels, the severity
    keys of NAME_MAPPINGS being canonical. *)
Theorem categorized_risk_labels (df df' : DataFrame) :
  Forall (fun m => m.1 ∈ canonical_risks) NAME_MAPPINGS ->
  categorize_vulnerabilities df = Ok df' ->
  Forall2 (fun r r' =>
             let declared := row_get r "Risk" Null in
             let risk := cell_of r' "Risk" in
             pd_isna risk = false
             /\ (declared_wins declared = true -> risk = declared)
             /\ (declared_wins declared = false -> is_canonical risk = true))
    (rows df) (rows df').
Proof.
  intros Hkeys H. unfold Categorization.categorize_vulnerabilities in H.
  bind_inv H. destruct (has_column x "Name"); [|discriminate].
  apply FrameFacts.set_column_Ok in Hx as [_ Hrisk].
  apply FrameFacts.set_column_Ok in H as [_ Hbucket].
  eapply Forall2_impl; [exact (FrameFacts.Forall2_compose _ _ _ _ _ Hrisk Hbucket)|].
  intros r r' (r1 & (v & Hv & ->) & (b & _ & ->)). cbv zeta.
  rewrite FrameFacts.cell_of_insert_ne by discriminate.
  rewrite FrameFacts.cell_of_insert_eq.
  bind_inv Hv. apply assign_severity_spec in Hv as (Hna & Hkeep & Hcanon).
  auto.
Qed.



End CategorizationFacts.

End CategorizationFacts.

(** ** The pipeline *)

Module CoreFacts.

Import Core.

(** A risk label the pipeline keeps: neither "None" nor "Informational". *)
Definition kept (c : cell) : Prop := isin c ["None"; "Informational"] = false.


Section Scoring.

Variable float_of_str : string -> option float.

Lemma optional_column_keeps (b : bool) (df df' : DataFrame) (src dst k : string)
    (f : cell -> pyresult string) (P : cell -> Prop) :
  (if b then Scoring.apply_to_column df src dst f else Ok df) = Ok df' ->
  dst <> k ->
  Forall (fun r => P (cell_of r k)) (rows df) ->
  Forall (fun r => P (cell_of r k)) (rows df').
Proof.
  destruct b; [|by intros [= <-]].
  unfold Scoring.apply_to_column. intros H. by eapply FrameFacts.set_column_keeps.
Qed.

Lemma optional_column_labels (b : bool) (df df' : DataFrame) (src dst x : string)
    (f : cell -> pyresult string) :
  (if b then Scoring.apply_to_column df src dst f else Ok df) = Ok df' ->
  x ∈ columns df' -> x ∈ columns df \/ x = dst.
Proof.
  destruct b; [|intros [= <-]; by left].
  unfold Scoring.apply_to_column. intros H.
  apply FrameFacts.set_column_Ok in H as [-> _].
  by rewrite AnalysisFacts.elem_of_add_label.
Qed.

Lemma add_scoring_data_keeps (df df' : DataFrame) (P : cell -> Prop) :
  Scoring.add_scoring_data float_of_str df = Ok df' ->
  Forall (fun r => P (cell_of r "Risk")) (rows df) ->
  Forall (fun r => P (cell_of r "Risk")) (rows df').
Proof.
  unfold Scoring.add_scoring_data. intros H HP.
  bind_inv H as df1 H1. bind_inv H as df2 H2. bind_inv H as df3 H3.
  pose proof (optional_column_keeps _ _ _ _ _ "Risk" _ P H1 ltac:(discriminate) HP)
    as HP1.
  pose proof (optional_column_keeps _ _ _ _ _ "Risk" _ P H2 ltac:(discriminate) HP1)
    as HP2.
  pose proof (optional_column_keeps _ _ _ _ _ "Risk" _ P H3 ltac:(discriminate) HP2)
    as HP3.
  destruct (forallb (has_column df3) _); [|by injection H as <-].
  eapply FrameFacts.set_column_keeps; [exact H|discriminate|exact HP3].
Qed.

(** scoring.py, lines 146-151: without a "KEV Listed" column the only
    columns added are the three categories. *)
Lemma add_scoring_data_labels (df df' : DataFrame) (label : string) :
  Scoring.add_scoring_data float_of_str df = Ok df' ->
  "KEV Listed" ∉ columns df ->
  label ∈ columns df' ->
  label ∈ columns df \/ label ∈ ["CVSS Category"; "EPSS Category"; "VPR Category"].
Proof.
  unfold Scoring.add_scoring_data. intros H Hkev Hlabel.
  bind_inv H as df1 H1. bind_inv H as df2 H2. bind_inv H as df3 H3.
  assert (Hlab : forall y, y ∈ columns df3 ->
            y ∈ columns df \/ y ∈ ["CVSS Category"; "EPSS Category"; "VPR Category"]).
  { intros y Hy. rewrite !elem_of_cons.
    apply (optional_column_labels _ _ _ _ _ _ _ H3) in Hy as [Hy | ->]; [|tauto].
    apply (optional_column_labels _ _ _ _ _ _ _ H2) in Hy as [Hy | ->]; [|tauto].
    apply (optional_column_labels _ _ _ _ _ _ _ H1) in Hy as [Hy | ->]; tauto. }
  assert (Hno : has_column df3 "KEV Listed" = false).
  { apply bool_decide_eq_false. intros Hin. apply Hlab in Hin as [Hin | Hin]; [done|].
    rewrite !elem_of_cons, elem_of_nil in Hin.
    destruct Hin as [Hin|[Hin|[Hin|[]]]]; discriminate Hin. }
  cbn [forallb] in H. rewrite Hno, !andb_false_r in H.
  injection H as <-. by apply Hlab.
Qed.

End Scoring.

Section CoreFacts.

Variable float_of_str : string -> option float.
Variable NAME_MAPPINGS : list (string * list string).
Variable BUCKET_MAPPINGS : list (string * list string).
Variable set_order : list string -> list string.
Variable clock : nat -> float.
Variable network : nat -> Api.http_reply.
Variable parse_date_iso : string -> option string.
Variable to_csv : DataFrame -> string.
Variable read_csv : string -> pyresult DataFrame.
Variable json_dumps : json -> pyresult string.
Variable json_loads : string -> pyresult json.
Variable today : string.
Variable str_of_float : float -> string.
Variable str_of_int : Z -> string.
Variable days_since : string -> pyresult Z.
Variable generate_risk_counts : DataFrame -> pyresult (list row).
Variable generate_top_cves : DataFrame -> pyresult (list row).
Variable generate_ip_vuln_counts : DataFrame -> pyresult (list row).
Variable generate_patch_summary : DataFrame -> pyresult (list row).
Variable generate_bucket_summary : DataFrame -> pyresult (list row).
Variable generate_seol_summary : DataFrame -> pyresult (list row).
Variable generate_scoring_summary : DataFrame -> pyresult (list row).
Variable generate_vulnerability_insights : DataFrame -> pyresult (list row).

Abbreviation categorize_and_filter :=
  (Core.categorize_and_filter NAME_MAPPINGS BUCKET_MAPPINGS set_order).
Abbreviation analyze_vulnerability_data :=
  (Analysis.analyze_vulnerability_data str_of_float str_of_int days_since
     generate_risk_counts generate_top_cves generate_ip_vuln_counts
     generate_patch_summary generate_bucket_summary generate_seol_summary
     generate_scoring_summary generate_vulnerability_insights).
Abbreviation score_and_analyze :=
  (Core.score_and_analyze float_of_str str_of_float str_of_int days_since
     generate_risk_counts generate_top_cves generate_ip_vuln_counts
     generate_patch_summary generate_bucket_summary generate_seol_summary
     generate_scoring_summary generate_vulnerability_insights).
Abbreviation process_vulnerability_data :=
  (Core.process_vulnerability_data float_of_str NAME_MAPPINGS BUCKET_MAPPINGS set_order
     clock network parse_date_iso to_csv read_csv json_dumps json_loads today
     str_of_float str_of_int days_since
     generate_risk_counts generate_top_cves generate_ip_vuln_counts
     generate_patch_summary generate_bucket_summary generate_seol_summary
     generate_scoring_summary generate_vulnerability_insights).

(** A run that returns went through the two pure stages. *)
Lemma process_Ok (vuln_df : DataFrame) (kev_set : gset string)
    (output_dir : option string) (clear_cache_flag : bool)
    (fs : Cache.filesystem) (w : Api.world)
    (t : DataFrame * DataFrame * DataFrame * DataFrame * Analysis.results)
    (fs' : Cache.filesystem) (w' : Api.world) :
  process_vulnerability_data vuln_df kev_set output_dir clear_cache_flag fs w
    = (Ok t, fs', w') ->
  exists working_df unique_cves job_cve_cache,
    categorize_and_filter vuln_df = Ok (working_df, unique_cves)
    /\ score_and_analyze vuln_df working_df kev_set job_cve_cache = Ok t.
Proof.
  unfold Core.process_vulnerability_data.
  destruct (Cache.load_cve_cache _ _ _ _) as [cache|e]; [|discriminate].
  destruct (categorize_and_filter vuln_df) as [[working_df unique_cves]|e];
    [|discriminate].
  destruct (Core.fetch_all _ _ _ _ _ _) as [[[u|e] cache'] w1]; [|discriminate].
  intros [= H _ _]. eauto.
Qed.

Lemma categorize_and_filter_kept (vuln_df working_df : DataFrame)
    (unique_cves : list string) :
  categorize_and_filter vuln_df = Ok (working_df, unique_cves) ->
  Forall (fun r => kept (cell_of r "Risk")) (rows working_df).
Proof.
  unfold Core.categorize_and_filter. intros H.
  bind_inv H as df Hdf. bind_inv H as u Hu. bind_inv H as cves Hcves.
  bind_inv H as uniq Huniq. injection H as <- _.
  eapply Forall_impl; [apply FrameFacts.filter_rows_holds|].
  intros r Hr. by apply negb_true_iff in Hr.
Qed.

Lemma categorize_and_filter_labels (vuln_df working_df : DataFrame)
    (unique_cves : list string) (label : string) :
  categorize_and_filter vuln_df = Ok (working_df, unique_cves) ->
  label ∈ columns working_df -> label ∈ columns vuln_df \/ label ∈ ["Risk"; "Bucket"].
Proof.
  unfold Core.categorize_and_filter. intros H.
  bind_inv H as df Hdf. bind_inv H as u Hu. bind_inv H as cves Hcves.
  bind_inv H as uniq Huniq. injection H as <- _.
  cbn [columns filter_rows].
  unfold Categorization.categorize_vulnerabilities in Hdf.
  bind_inv Hdf as df1 Hrisk. destruct (has_column df1 "Name"); [|discriminate].
  apply FrameFacts.set_column_Ok in Hdf as [-> _].
  apply FrameFacts.set_column_Ok in Hrisk as [-> _].
  rewrite !AnalysisFacts.elem_of_add_label, !elem_of_cons. tauto.
Qed.

(** analysis.py, lines 24-52: the three frames returned keep the risk
    labels of the frame given and add four columns to it. *)
Lemma analyze_frames (df processed check_needed analyzed : DataFrame)
    (kev_set : gset string) (cache : cve_cache) (res : Analysis.results) :
  analyze_vulnerability_data df kev_set cache
    = Ok (processed, check_needed, analyzed, res) ->
  (forall P : cell -> Prop,
      Forall (fun r => P (cell_of r "Risk")) (rows df) ->
      Forall (fun r => P (cell_of r "Risk")) (rows processed)
      /\ Forall (fun r => P (cell_of r "Risk")) (rows check_needed)
      /\ Forall (fun r => P (cell_of r "Risk")) (rows analyzed))
  /\ (forall x, x ∈ columns processed ->
        x ∈ columns df \/
        x ∈ ["CVE Published Date"; "Days After Discovery"; "KEV Listed"; "Patch Status"])
  /\ columns check_needed = columns processed
  /\ columns analyzed = columns processed
  /\ generate_risk_counts analyzed = Ok (Analysis.risk_counts res)
  /\ generate_top_cves analyzed = Ok (Analysis.top_cves res)
  /\ generate_ip_vuln_counts analyzed = Ok (Analysis.ip_vuln_counts res)
  /\ generate_patch_summary analyzed = Ok (Analysis.patch_summary res)
  /\ generate_bucket_summary analyzed = Ok (Analysis.bucket_summary res)
  /\ generate_seol_summary analyzed = Ok (Analysis.seol_summary res)
  /\ generate_scoring_summary analyzed = Ok (Analysis.scoring_summary res)
  /\ generate_vulnerability_insights analyzed
       = Ok (Analysis.vulnerability_insights res)
  /\ Analysis.generate_common_critical analyzed = Ok (Analysis.common_critical res).
Proof.
  unfold Analysis.analyze_vulnerability_data. intros H.
  bind_inv H as u1 Hcve. bind_inv H as df1 Hdays. bind_inv H as u2 Hrisk.
  bind_inv H as v1 Hv1. bind_inv H as v2 Hv2. bind_inv H as v3 Hv3.
  bind_inv H as v4 Hv4. bind_inv H as v5 Hv5. bind_inv H as v6 Hv6.
  bind_inv H as v7 Hv7. bind_inv H as v8 Hv8. bind_inv H as v9 Hv9.
  injection H as <- <- <- <-. cbn [Analysis.risk_counts Analysis.top_cves
    Analysis.ip_vuln_counts Analysis.patch_summary Analysis.bucket_summary
    Analysis.seol_summary Analysis.scoring_summary Analysis.vulnerability_insights
    Analysis.common_critical].
  split; [|split; [|repeat split; assumption]].
  - intros P HP.
    assert (Hproc : Forall (fun r => P (cell_of r "Risk"))
      (rows (Analysis.with_column
               (Analysis.with_column df1 "KEV Listed"
                  (fun r => Analysis.kev_listed str_of_float str_of_int kev_set
                              (cell_of r "CVE")))
               "Patch Status"
               (fun r => Analysis.patch_status cache (cell_of r "CVE"))))).
    { apply FrameFacts.with_column_keeps; [discriminate|].
      apply FrameFacts.with_column_keeps; [discriminate|].
      eapply FrameFacts.set_column_keeps; [exact Hdays|discriminate|].
      apply FrameFacts.with_column_keeps; [discriminate|exact HP]. }
    split; [exact Hproc|].
    split; repeat apply FrameFacts.filter_rows_keeps; exact Hproc.
  - intros c Hc. cbn [columns Analysis.with_column] in Hc.
    apply FrameFacts.set_column_Ok in Hdays as [Hcols _].
    rewrite !AnalysisFacts.elem_of_add_label, Hcols in Hc.
    cbn [columns Analysis.with_column] in Hc.
    rewrite !AnalysisFacts.elem_of_add_label in Hc.
    rewrite !elem_of_cons. tauto.
Qed.

(** analysis.py, lines 24-46: the enriched frame returned holds one row
    per row of the frame given; the filters of lines 48-52 make views. *)
Lemma analyze_keeps_every_row (df processed check_needed analyzed : DataFrame)
    (kev_set : gset string) (cache : cve_cache) (res : Analysis.results) :
  analyze_vulnerability_data df kev_set cache
    = Ok (processed, check_needed, analyzed, res) ->
  length (rows processed) = length (rows df).
Proof.
  unfold Analysis.analyze_vulnerability_data. intros H.
  bind_inv H as u1 Hcve. bind_inv H as df1 Hdays. bind_inv H as u2 Hrisk.
  bind_inv H as v1 Hv1. bind_inv H as v2 Hv2. bind_inv H as v3 Hv3.
  bind_inv H as v4 Hv4. bind_inv H as v5 Hv5. bind_inv H as v6 Hv6.
  bind_inv H as v7 Hv7. bind_inv H as v8 Hv8. bind_inv H as v9 Hv9.
  injection H as <- _ _ _.
  apply FrameFacts.set_column_Ok in Hdays as [_ Hrows].
  apply Forall2_length in Hrows.
  unfold Analysis.with_column in *. cbn [rows] in *.
  rewrite !length_fmap in *. by symmetry.
Qed.

Lemma score_and_analyze_Ok (vuln_df working_df : DataFrame) (kev_set : gset string)
    (cache : cve_cache) (orig processed check_needed analyzed : DataFrame)
    (res : Analysis.results) :
  score_and_analyze vuln_df working_df kev_set cache
    = Ok (orig, processed, check_needed, analyzed, res) ->
  orig = vuln_df
  /\ exists scored_df,
       Scoring.add_scoring_data float_of_str working_df = Ok scored_df
       /\ analyze_vulnerability_data scored_df kev_set cache
            = Ok (processed, check_needed, analyzed, res).
Proof.
  unfold Core.score_and_analyze. intros H.
  bind_inv H as scored_df Hscore. bind_inv H as frames Han.
  destruct frames as [[[p c] a] r]. injection H as <- <- <- <- <-. eauto.
Qed.


Lemma not_added_label (label : string) (added : list string) (cols : list string) :
  bool_decide (label ∈ added) = false ->
  label ∈ cols \/ label ∈ added -> label ∈ cols.
Proof. intros Hno [H | H]; [exact H|]. by apply bool_decide_eq_false in Hno. Qed.

(** C10: for an input table without "KEV Listed" column the pipeline adds
    no "Exploitability Score" column: scoring runs before the "KEV Listed"
    column is assigned, so a frame the pipeline returns (processed,
    check-needed or analyzed) has that column only if the input table had
    it; a table that came without it leaves the pipeline without it. *)
Theorem no_exploitability_score_column (vuln_df : DataFrame) (kev_set : gset string)
    (output_dir : option string) (clear_cache_flag : bool)
    (fs : Cache.filesystem) (w : Api.world)
    (orig processed check_needed analyzed : DataFrame) (res : Analysis.results)
    (fs' : Cache.filesystem) (w' : Api.world) :
  process_vulnerability_data vuln_df kev_set output_dir clear_cache_flag fs w
    = (Ok (orig, processed, check_needed, analyzed, res), fs', w') ->
  "KEV Listed" ∉ columns vuln_df ->
  (forall frame, frame ∈ [processed; check_needed; analyzed] ->
     "Exploitability Score" ∈ columns frame ->
     "Exploitability Score" ∈ columns vuln_df)
  /\ ("Exploitability Score" ∉ columns vuln_df ->
      ("Exploitability Score" ∉ columns processed)
      /\ ("Exploitability Score" ∉ columns check_needed)
      /\ ("Exploitability Score" ∉ columns analyzed)).
Proof.
  intros H Hkev.
  apply process_Ok in H as (working_df & unique_cves & cache & Hcat & H).
  apply score_and_analyze_Ok in H as (-> & scored_df & Hscore & Han).
  apply analyze_frames in Han as (_ & Hcols & Hc & Ha & _).
  assert (Hworking : "KEV Listed" ∉ columns working_df).
  { intros Hk. apply Hkev.
    apply (categorize_and_filter_labels _ _ _ _ Hcat) in Hk.
    by apply not_added_label in Hk. }
  assert (Hadd : "Exploitability Score" ∈ columns processed ->
                 "Exploitability Score" ∈ columns vuln_df).
  { intros Hin.
    apply Hcols, not_added_label in Hin; [|reflexivity].
    apply (add_scoring_data_labels _ _ _ _ Hscore Hworking), not_added_label in Hin;
      [|reflexivity].
    apply (categorize_and_filter_labels _ _ _ _ Hcat), not_added_label in Hin;
      [exact Hin|reflexivity]. }
  split.
  - intros frame Hframe. rewrite !elem_of_cons, elem_of_nil in Hframe.
    destruct Hframe as [-> | [-> | [-> | []]]]; [|rewrite Hc|rewrite Ha]; exact Hadd.
  - intros Hexp. rewrite Hc, Ha.
    assert (Hno : "Exploitability Score" ∉ columns processed).
    { intros Hin. by apply Hexp, Hadd. }
    auto.
Qed.

End CoreFacts.

End CoreFacts.

(** ** The lookup client: key rotation, effort and outcome *)

(** ** Letter case *)

Module LetterCase.

(** A capital letter, A to Z. *)
Definition capital (a : ascii) : Prop := (65 <= N_of_ascii a <= 90)%N.

(** The same letter, whatever its case: the same character, or a capital
    letter and its small form, which stands 32 places after it. *)
Definition same_letter (a b : ascii) : Prop :=
  a = b
  \/ (capital a /\ N_of_ascii b = (N_of_ascii a + 32)%N)
  \/ (capital b /\ N_of_ascii a = (N_of_ascii b + 32)%N).

(** Two texts that differ at most by the case of their letters. *)
Fixpoint caseless_eq (s t : string) : Prop :=
  match s, t with
  | EmptyString, EmptyString => True
  | String a s', String b t' => same_letter a b /\ caseless_eq s' t'
  | _, _ => False
  end.

(** [p] occurs in [s], letter case aside. *)
Definition occurs_caseless (p s : string) : Prop :=
  exists before mid after, s = (before ++ mid ++ after)%string /\ caseless_eq p mid.

Lemma N_of_ascii_inj (a b : ascii) : N_of_ascii a = N_of_ascii b -> a = b.
Proof. intros H. rewrite <- (ascii_N_embedding a), <- (ascii_N_embedding b). by rewrite H. Qed.

Lemma N_of_lower_ascii (a : ascii) :
  N_of_ascii (lower_ascii a)
  = (if (65 <=? N_of_ascii a) && (N_of_ascii a <=? 90)
     then N_of_ascii a + 32 else N_of_ascii a)%N.
Proof.
  unfold lower_ascii.
  destruct ((65 <=? N_of_ascii a) && (N_of_ascii a <=? 90))%N eqn:Hup; [|reflexivity].
  apply andb_true_iff in Hup as [H1 H2]. apply N.leb_le in H2.
  apply N_ascii_embedding. lia.
Qed.

Lemma lower_ascii_same (a b : ascii) :
  lower_ascii a = lower_ascii b <-> same_letter a b.
Proof.
  unfold same_letter, capital. split.
  - intros H. apply (f_equal N_of_ascii) in H. rewrite !N_of_lower_ascii in H.
    destruct (N.leb_spec 65 (N_of_ascii a)), (N.leb_spec (N_of_ascii a) 90),
      (N.leb_spec 65 (N_of_ascii b)), (N.leb_spec (N_of_ascii b) 90);
      cbn [andb] in H;
      first [left; apply N_of_ascii_inj; lia | right; left; lia | right; right; lia].
  - intros H. apply N_of_ascii_inj. rewrite !N_of_lower_ascii.
    destruct H as [-> | [[Ha Hb] | [Hb Ha]]]; [reflexivity| |];
      destruct (N.leb_spec 65 (N_of_ascii a)), (N.leb_spec (N_of_ascii a) 90),
        (N.leb_spec 65 (N_of_ascii b)), (N.leb_spec (N_of_ascii b) 90);
      cbn [andb]; lia.
Qed.

Lemma lower_caseless (s t : string) : lower s = lower t <-> caseless_eq s t.
Proof.
  revert t. induction s as [|a s IH]; intros [|b t]; cbn [lower caseless_eq];
    try (split; [discriminate|contradiction]); [tauto|].
  rewrite <- IH, <- lower_ascii_same. split.
  - intros [= H1 H2]. auto.
  - intros [-> ->]. reflexivity.
Qed.

Lemma append_String (x : ascii) (a b : string) :
  (String x a ++ b)%string = String x (a ++ b)%string.
Proof. reflexivity. Qed.

Lemma lower_append (a b : string) : lower (a ++ b) = (lower a ++ lower b)%string.
Proof.
  induction a as [|x a IH]; [reflexivity|].
  rewrite append_String. cbn [lower]. by rewrite append_String, IH.
Qed.

Lemma lower_append_inv (s x y : string) :
  lower s = (x ++ y)%string ->
  exists s1 s2, s = (s1 ++ s2)%string /\ lower s1 = x /\ lower s2 = y.
Proof.
  revert s. induction x as [|c x IH]; intros s H.
  - exists "", s. auto.
  - destruct s as [|a s]; [discriminate|].
    rewrite append_String in H. cbn [lower] in H. injection H as Hc H.
    destruct (IH s H) as (s1 & s2 & -> & H1 & H2).
    exists (String a s1), s2. cbn [lower]. by rewrite Hc, H1.
Qed.

End LetterCase.

Module ApiEffort.

Import Api.

(** The state of the key rotation that every call of [get_api_key]
    expects and leaves behind. *)
Definition key_state_ok (w : world) : Prop :=
  (api_key_index w < length API_KEYS)%nat /\ (request_count w <= 1000)%nat.

(** The sum of the seconds slept. *)
Definition total (l : list Z) : Z := foldr Z.add 0 l.

(** The longest back-off of a run over the given attempt numbers. *)
Definition backoff_budget (todo : list nat) : Z :=
  total ((fun attempt => NVD_RETRY_DELAY * (Z.of_nat attempt + 1)) <$> todo).

Lemma total_app (l k : list Z) : total (l ++ k) = total l + total k.
Proof. induction l as [|x l IH]; simpl; [reflexivity|]. unfold total in *. simpl. lia. Qed.

(** X1: [get_api_key] hands out the key at the current index; it keeps
    the index while fewer than 1000 keys were handed out since the last
    rotation, and on the call after the 1000th it moves to the next of the
    four keys, wrapping around, and restarts the count at 1. The index
    stays within the key list, so the call cannot raise, and nothing but
    the two counters changes. *)
Theorem get_api_key_rotation (w : world) :
  key_state_ok w ->
  exists key,
    (get_api_key w).1 = Ok key
    /\ API_KEYS !! api_key_index (get_api_key w).2 = Some key
    /\ key_state_ok (get_api_key w).2
    /\ ((request_count w < 1000)%nat ->
        api_key_index (get_api_key w).2 = api_key_index w
        /\ request_count (get_api_key w).2 = S (request_count w))
    /\ (request_count w = 1000%nat ->
        api_key_index (get_api_key w).2 = ((api_key_index w + 1) mod 4)%nat
        /\ request_count (get_api_key w).2 = 1%nat)
    /\ clock_reads (get_api_key w).2 = clock_reads w
    /\ requests (get_api_key w).2 = requests w
    /\ sleeps (get_api_key w).2 = sleeps w.
Proof.
  intros [Hidx Hcount]. unfold get_api_key, key_state_ok.
  destruct (Nat.leb_spec 1000 (request_count w)) as [Hge|Hlt].
  - assert (Hrot : ((api_key_index w + 1) mod length API_KEYS < length API_KEYS)%nat).
    { apply Nat.mod_upper_bound. discriminate. }
    destruct (lookup_lt_is_Some_2 API_KEYS _ Hrot) as [key Hkey].
    exists key. cbn [fst snd api_key_index request_count clock_reads requests sleeps].
    rewrite Hkey.
    split; [reflexivity|]. split; [reflexivity|].
    split; [split; [exact Hrot|lia]|].
    split; [intros ?; lia|]. split; [intros _; split; reflexivity|].
    repeat split.
  - destruct (lookup_lt_is_Some_2 API_KEYS _ Hidx) as [key Hkey].
    exists key. cbn [fst snd api_key_index request_count clock_reads requests sleeps].
    rewrite Hkey.
    split; [reflexivity|]. split; [reflexivity|].
    split; [split; [exact Hidx|lia]|].
    split; [intros _; split; reflexivity|]. split; [intros ?; lia|].
    repeat split.
Qed.

(** One of the three patch tags, in any letter case. The tags are made
    of ASCII letters that no character beyond ASCII folds to, so that the
    test of the code on [tag.lower()] is this one for every tag. *)
Definition patch_tag (tag : string) : Prop :=
  LetterCase.caseless_eq tag "patch"
  \/ LetterCase.caseless_eq tag "vendor advisory"
  \/ LetterCase.caseless_eq tag "third party advisory".

(** A reference that carries a patch tag. *)
Definition patch_tagged (ref : nvd_reference) : Prop :=
  exists tags tag, ref_tags ref = Some tags /\ tag ∈ tags /\ patch_tag tag.

Section ApiEffort.

Variable clock : nat -> float.
Variable network : nat -> http_reply.
Variable parse_date_iso : string -> option string.

Abbreviation attempts := (Api.attempts clock network parse_date_iso).
Abbreviation fetch_cve_details := (Api.fetch_cve_details clock network parse_date_iso).
Abbreviation entry_of_cve := (Api.entry_of_cve parse_date_iso).

(** What one run of the retry loop costs. *)
Definition effort (todo : list nat) (url key : string) (w w' : world) : Prop :=
  api_key_index w' = api_key_index w
  /\ request_count w' = request_count w
  /\ (clock_reads w' <= clock_reads w + length todo)%nat
  /\ (exists sent, requests w' = requests w ++ sent
        /\ (length sent <= length todo)%nat
        /\ Forall (fun r => r = (url, key)) sent)
  /\ (exists slept, sleeps w' = sleeps w ++ slept
        /\ Forall (fun s => 0 < s) slept
        /\ total slept <= backoff_budget todo).

Lemma backoff_budget_nonneg (todo : list nat) : 0 <= backoff_budget todo.
Proof.
  unfold backoff_budget, NVD_RETRY_DELAY.
  induction todo as [|a l IH]; [reflexivity|].
  rewrite fmap_cons. unfold total in *. simpl foldr. lia.
Qed.

Lemma backoff_budget_cons (a : nat) (todo : list nat) :
  backoff_budget (a :: todo) = NVD_RETRY_DELAY * (Z.of_nat a + 1) + backoff_budget todo.
Proof. reflexivity. Qed.

(** The loop head and one request, then the rest of the loop from a world
    in which at most one back-off was slept. *)
Lemma effort_step (attempt : nat) (rest : list nat) (url key : string)
    (w w1 w' : world) (slept : list Z) :
  api_key_index w1 = api_key_index w ->
  request_count w1 = request_count w ->
  clock_reads w1 = S (clock_reads w) ->
  requests w1 = requests w ++ [(url, key)] ->
  sleeps w1 = sleeps w ++ slept ->
  slept = [] \/ slept = [NVD_RETRY_DELAY * (Z.of_nat attempt + 1)] ->
  effort rest url key w1 w' ->
  effort (attempt :: rest) url key w w'.
Proof.
  intros Hi Hc Hk Hr Hs Hslept (Hi' & Hc' & Hk' & (sent & Hr' & Hlen & Hsent)
                                 & (slept' & Hs' & Hpos & Hsum)).
  unfold effort. rewrite Hi', Hc', Hi, Hc.
  split; [reflexivity|]. split; [reflexivity|].
  split; [simpl; lia|].
  split.
  - exists ((url, key) :: sent). rewrite Hr', Hr, <- app_assoc. simpl.
    split; [reflexivity|]. split; [lia|]. by constructor.
  - exists (slept ++ slept'). rewrite Hs', Hs, <- app_assoc.
    split; [reflexivity|].
    rewrite total_app, backoff_budget_cons.
    pose proof (backoff_budget_nonneg rest).
    destruct Hslept as [-> | ->].
    + split; [exact Hpos|]. unfold total at 1, NVD_RETRY_DELAY. simpl foldr. lia.
    + split; [constructor; [unfold NVD_RETRY_DELAY; lia|exact Hpos]|].
      unfold total at 1. simpl foldr. lia.
Qed.

Lemma effort_stop (todo : list nat) (url key : string) (w w' : world)
    (sent : list (string * string)) :
  api_key_index w' = api_key_index w ->
  request_count w' = request_count w ->
  (clock_reads w' <= clock_reads w + length todo)%nat ->
  requests w' = requests w ++ sent ->
  (length sent <= length todo)%nat ->
  Forall (fun r => r = (url, key)) sent ->
  sleeps w' = sleeps w ->
  effort todo url key w w'.
Proof.
  intros Hi Hc Hk Hr Hlen Hsent Hs. unfold effort.
  split; [exact Hi|]. split; [exact Hc|]. split; [exact Hk|].
  split; [by exists sent|].
  exists []. rewrite Hs, app_nil_r. split; [reflexivity|].
  split; [constructor|]. apply backoff_budget_nonneg.
Qed.

Lemma attempts_effort (todo : list nat) cve_id url key start timeout cache w
    res cache' w' :
  attempts todo cve_id url key start timeout cache w = (res, cache', w') ->
  effort todo url key w w'.
Proof.
  revert w. induction todo as [|attempt rest IH]; intros w H.
  - simpl in H. injection H as _ _ <-.
    apply (effort_stop _ _ _ _ _ []); try reflexivity; simpl; try lia.
    + by rewrite app_nil_r.
    + constructor.
  - simpl in H.
    destruct (timeout <? clock (clock_reads w) - start)%float.
    { injection H as _ _ <-.
      apply (effort_stop _ _ _ _ _ []); try reflexivity; simpl; try lia.
      + by rewrite app_nil_r.
      + constructor. }
    assert (Hback : forall w1,
      attempts rest cve_id url key start timeout cache w1 = (res, cache', w') ->
      api_key_index w1 = api_key_index w ->
      request_count w1 = request_count w ->
      clock_reads w1 = S (clock_reads w) ->
      requests w1 = requests w ++ [(url, key)] ->
      (sleeps w1 = sleeps w ++ []
       \/ sleeps w1 = sleeps w ++ [NVD_RETRY_DELAY * (Z.of_nat attempt + 1)]) ->
      effort (attempt :: rest) url key w w').
    { intros w1 H1 Hi Hc Hk Hr [Hs|Hs].
      - eapply effort_step; eauto.
      - eapply effort_step; eauto. }
    assert (Hend : forall w1,
      w1 = w' ->
      api_key_index w1 = api_key_index w ->
      request_count w1 = request_count w ->
      clock_reads w1 = S (clock_reads w) ->
      requests w1 = requests w ++ [(url, key)] ->
      sleeps w1 = sleeps w ->
      effort (attempt :: rest) url key w w').
    { intros w1 <- Hi Hc Hk Hr Hs.
      apply (effort_stop _ _ _ _ _ [(url, key)]); auto.
      - rewrite Hk. simpl. lia.
      - simpl. lia. }
    destruct (network (length (requests w))) as [|code body].
    { eapply Hback; [exact H|..]; try reflexivity. by right. }
    destruct (bool_decide (code ∈ [403; 429])).
    { eapply Hback; [exact H|..]; try reflexivity. by right. }
    destruct (is_error_status code).
    { eapply Hback; [exact H|..]; try reflexivity. by right. }
    destruct body as [[|cve_data vs]|e].
    + eapply Hback; [exact H|..]; try reflexivity. left. simpl. by rewrite app_nil_r.
    + destruct (entry_of_cve cve_data) as [new_entry|e].
      * injection H as _ _ H. eapply Hend; [exact H|..]; reflexivity.
      * destruct (is_request_exception e).
        -- eapply Hback; [exact H|..]; try reflexivity. by right.
        -- injection H as _ _ H. eapply Hend; [exact H|..]; reflexivity.
    + destruct (is_request_exception e).
      * eapply Hback; [exact H|..]; try reflexivity. by right.
      * injection H as _ _ H. eapply Hend; [exact H|..]; reflexivity.
Qed.

(** X2: one call of [fetch_cve_details] sends at most five requests, all
    to the URL of the CVE id asked for, reads the clock at most six times
    and sleeps at most 5+10+15+20+25 = 75 seconds in all; a cache hit costs
    nothing. The request log and the sleep log only grow. *)
Theorem fetch_effort_is_bounded (cve_id : string) (job_cve_cache : cve_cache)
    (timeout_threshold : float) (w : world)
    (res : pyresult CacheEntry) (cache' : cve_cache) (w' : world) :
  fetch_cve_details cve_id job_cve_cache timeout_threshold w = (res, cache', w') ->
  (exists sent, requests w' = requests w ++ sent
     /\ (length sent <= NVD_RETRY_ATTEMPTS)%nat
     /\ Forall (fun r => r.1 = (NVD_BASE_URL ++ "?cveId=" ++ cve_id)%string) sent)
  /\ (clock_reads w' <= clock_reads w + 6)%nat
  /\ (exists slept, sleeps w' = sleeps w ++ slept
        /\ Forall (fun s => 0 < s) slept
        /\ total slept <= 75)
  /\ (is_Some (job_cve_cache !! cve_id) -> w' = w).
Proof.
  unfold Api.fetch_cve_details.
  destruct (job_cve_cache !! cve_id) as [cached|] eqn:Hlook.
  { intros [= _ _ <-].
    split; [exists []; rewrite app_nil_r; repeat split; [simpl; lia|constructor]|].
    split; [lia|].
    split; [exists []; rewrite app_nil_r; repeat split; [constructor|unfold total; simpl; lia]|].
    reflexivity. }
  unfold get_api_key.
  set (rot := if (1000 <=? request_count w)%nat
              then ((api_key_index w + 1) mod length API_KEYS, 0)%nat
              else (api_key_index w, request_count w)).
  destruct rot as [index count].
  destruct (API_KEYS !! index) as [key|].
  2:{ intros [= _ _ <-]. cbn [requests clock_reads sleeps].
      split; [exists []; rewrite app_nil_r; repeat split; [simpl; lia|constructor]|].
      split; [lia|].
      split; [exists []; rewrite app_nil_r; repeat split; [constructor|unfold total; simpl; lia]|].
      intros [? [=]]. }
  unfold time_time. cbn [requests clock_reads sleeps api_key_index request_count].
  intros H. apply attempts_effort in H.
  destruct H as (_ & _ & Hk & (sent & Hr & Hlen & Hsent) & (slept & Hs & Hpos & Hsum)).
  cbn [requests clock_reads sleeps] in Hk, Hr, Hs.
  split.
  { exists sent. split; [exact Hr|]. split; [exact Hlen|].
    eapply Forall_impl; [exact Hsent|]. by intros r ->. }
  split; [simpl in Hk; lia|].
  split; [|intros [? [=]]].
  exists slept. split; [exact Hs|]. split; [exact Hpos|]. exact Hsum.
Qed.

(** What a run of the retry loop leaves in the cache. *)
Lemma attempts_outcome (todo : list nat) cve_id url key start timeout cache w
    res cache' w' :
  attempts todo cve_id url key start timeout cache w = (res, cache', w') ->
  match res with
  | Ok e => cache' = <[cve_id := e]> cache
  | Raise x => cache' = cache /\ is_request_exception x = false
  end.
Proof.
  revert w. induction todo as [|attempt rest IH]; simpl; intros w H.
  - by injection H as <- <- _.
  - destruct (timeout <? clock (clock_reads w) - start)%float.
    { by injection H as <- <- _. }
    destruct (network (length (requests w))) as [|code body]; [by eapply IH|].
    destruct (bool_decide (code ∈ [403; 429])); [by eapply IH|].
    destruct (is_error_status code); [by eapply IH|].
    destruct body as [[|cve_data vs]|e]; [by eapply IH| |].
    + destruct (entry_of_cve cve_data) as [new_entry|e].
      * by injection H as <- <- _.
      * destruct (is_request_exception e) eqn:He; [by eapply IH|].
        by injection H as <- <- _.
    + destruct (is_request_exception e) eqn:He; [by eapply IH|].
      by injection H as <- <- _.
Qed.

(** The two facts about a lookup that the pipeline relies on. *)
Lemma fetch_requests_bound (cve_id : string) (job_cve_cache : cve_cache)
    (timeout_threshold : float) (w : world)
    (res : pyresult CacheEntry) (cache' : cve_cache) (w' : world) :
  fetch_cve_details cve_id job_cve_cache timeout_threshold w = (res, cache', w') ->
  exists sent, requests w' = requests w ++ sent
               /\ (length sent <= NVD_RETRY_ATTEMPTS)%nat.
Proof.
  unfold Api.fetch_cve_details.
  destruct (job_cve_cache !! cve_id) as [cached|].
  { intros [= _ _ <-]. exists []. rewrite app_nil_r. split; [reflexivity|simpl; lia]. }
  unfold get_api_key.
  destruct (if (1000 <=? request_count w)%nat
            then ((api_key_index w + 1) mod length API_KEYS, 0)%nat
            else (api_key_index w, request_count w)) as [index count].
  destruct (API_KEYS !! index) as [key|].
  2:{ intros [= _ _ <-]. exists []. rewrite app_nil_r. split; [reflexivity|simpl; lia]. }
  unfold time_time. cbn [requests clock_reads sleeps api_key_index request_count].
  intros H. apply attempts_effort in H.
  destruct H as (_ & _ & _ & (sent & Hr & Hlen & _) & _).
  exists sent. split; [exact Hr|exact Hlen].
Qed.

Lemma fetch_ok_cached (cve_id : string) (job_cve_cache : cve_cache)
    (timeout_threshold : float) (w : world)
    (e : CacheEntry) (cache' : cve_cache) (w' : world) :
  fetch_cve_details cve_id job_cve_cache timeout_threshold w = (Ok e, cache', w') ->
  cache' !! cve_id = Some e.
Proof.
  unfold Api.fetch_cve_details.
  destruct (job_cve_cache !! cve_id) as [cached|] eqn:Hlook.
  { by intros [= <- <- _]. }
  destruct (get_api_key w) as [[key|x] w1]; [|discriminate].
  unfold time_time. intros H. apply attempts_outcome in H. subst cache'.
  apply lookup_insert_eq.
Qed.

(** X3: the entry a call of [fetch_cve_details] returns is the one the
    cache holds for that id afterwards, no other id is touched, and a
    repeated call, with any timeout budget and in any world, returns the
    same entry without any effect. When the call raises, the exception is
    no transport error (those are retried), the id was not cached, and
    the cache is as it was. *)
Theorem fetch_result_is_cached (cve_id : string) (job_cve_cache : cve_cache)
    (timeout_threshold : float) (w : world)
    (res : pyresult CacheEntry) (cache' : cve_cache) (w' : world) :
  fetch_cve_details cve_id job_cve_cache timeout_threshold w = (res, cache', w') ->
  (forall e, res = Ok e ->
     cache' !! cve_id = Some e
     /\ (forall other, other <> cve_id -> cache' !! other = job_cve_cache !! other)
     /\ forall (timeout_threshold' : float) (later_world : world),
          fetch_cve_details cve_id cache' timeout_threshold' later_world
            = (Ok e, cache', later_world))
  /\ (forall x, res = Raise x ->
        cache' = job_cve_cache
        /\ is_request_exception x = false
        /\ job_cve_cache !! cve_id = None).
Proof.
  intros H.
  assert (Hcases :
    match res with
    | Ok e => cache' !! cve_id = Some e
              /\ forall other, other <> cve_id -> cache' !! other = job_cve_cache !! other
    | Raise x => cache' = job_cve_cache
                 /\ is_request_exception x = false
                 /\ job_cve_cache !! cve_id = None
    end).
  { revert H. unfold Api.fetch_cve_details.
    destruct (job_cve_cache !! cve_id) as [cached|] eqn:Hlook.
    { intros [= <- <- _]. auto. }
    destruct (get_api_key w) as [[key|x] w1] eqn:Hget.
    - unfold time_time. intros H. apply attempts_outcome in H.
      destruct res as [e|x].
      + subst cache'. split; [apply lookup_insert_eq|].
        intros other Hother. by apply lookup_insert_ne.
      + destruct H as [-> Hx]. auto.
    - intros [= <- <- _]. split; [reflexivity|]. split; [|reflexivity].
      revert Hget. unfold get_api_key.
      destruct (if (1000 <=? request_count w)%nat
                then ((api_key_index w + 1) mod length API_KEYS, 0)%nat
                else (api_key_index w, request_count w)) as [index count].
      destruct (API_KEYS !! index); intros [= <- _]. reflexivity. }
  split.
  - intros e ->. destruct Hcases as [Hlook Hothers].
    split; [exact Hlook|]. split; [exact Hothers|].
    intros t' w2. unfold Api.fetch_cve_details. rewrite Hlook. reflexivity.
  - intros x ->. exact Hcases.
Qed.

(** X4: for an id that is not cached, when the time budget is not spent at
    the first check and the first reply has a status that is no error and
    carries a CVE record, that record decides the call: one request is
    sent, with the key just handed out, nothing is slept, and the entry
    built from the record is stored and returned. A publication date that
    does not parse makes the call raise [ValueError], uncaught, with the
    cache left as it was. *)
Theorem first_record_decides (cve_id : string) (job_cve_cache : cve_cache)
    (timeout_threshold : float) (w : world) (key : string)
    (code : Z) (cve_data : nvd_cve) (others : list nvd_cve) :
  job_cve_cache !! cve_id = None ->
  (get_api_key w).1 = Ok key ->
  (timeout_threshold <? clock (S (clock_reads w)) - clock (clock_reads w))%float = false ->
  network (length (requests w)) = Response code (Ok (cve_data :: others)) ->
  bool_decide (code ∈ [403; 429]) = false ->
  is_error_status code = false ->
  let run := fetch_cve_details cve_id job_cve_cache timeout_threshold w in
  run.1.1 = entry_of_cve cve_data
  /\ run.1.2 = match entry_of_cve cve_data with
               | Ok e => <[cve_id := e]> job_cve_cache
               | Raise _ => job_cve_cache
               end
  /\ requests run.2
     = requests w ++ [((NVD_BASE_URL ++ "?cveId=" ++ cve_id)%string, key)]
  /\ sleeps run.2 = sleeps w
  /\ clock_reads run.2 = (clock_reads w + 2)%nat
  /\ (forall published_raw,
        published cve_data = Some published_raw -> published_raw <> "" ->
        parse_date_iso (split_head "T" published_raw) = None ->
        run.1.1 = Raise ValueError /\ run.1.2 = job_cve_cache).
Proof.
  intros Hmiss Hkey Htime Hreply Hrate Herr run.
  assert (Hraise : forall e, entry_of_cve cve_data = Raise e ->
                             is_request_exception e = false).
  { intros e He. exact (ApiFacts.entry_of_cve_no_request_exception _ _ _ He). }
  assert (Hrun : run = (entry_of_cve cve_data,
                        match entry_of_cve cve_data with
                        | Ok e => <[cve_id := e]> job_cve_cache
                        | Raise _ => job_cve_cache
                        end,
                        (requests_get network (NVD_BASE_URL ++ "?cveId=" ++ cve_id)%string key
                           (time_time clock (time_time clock (get_api_key w).2).2).2).2)).
  { unfold run, Api.fetch_cve_details. rewrite Hmiss.
    destruct (get_api_key w) as [k w1] eqn:Hget. cbn [fst snd] in Hkey. subst k.
    assert (Hreads : clock_reads w1 = clock_reads w /\ requests w1 = requests w).
    { revert Hget. unfold get_api_key.
      destruct (if (1000 <=? request_count w)%nat
                then ((api_key_index w + 1) mod length API_KEYS, 0)%nat
                else (api_key_index w, request_count w)) as [index count].
      intros [= _ <-]. split; reflexivity. }
    destruct Hreads as [Hreads Hreqs].
    unfold time_time at 1. cbn [fst snd].
    change (seq 0 NVD_RETRY_ATTEMPTS) with (0%nat :: seq 1 4).
    cbn [Api.attempts time_time requests_get clock_reads requests].
    rewrite <- Hreads in Htime. rewrite <- Hreqs in Hreply.
    rewrite Htime, Hreply, Hrate, Herr.
    destruct (Api.entry_of_cve parse_date_iso cve_data) as [e|e] eqn:He.
    - reflexivity.
    - rewrite (Hraise e eq_refl). reflexivity. }
  rewrite Hrun. cbn [fst snd].
  assert (Hw : forall k w1, get_api_key w = (k, w1) ->
                 clock_reads w1 = clock_reads w /\ requests w1 = requests w
                 /\ sleeps w1 = sleeps w).
  { intros k w1. unfold get_api_key.
    destruct (if (1000 <=? request_count w)%nat
              then ((api_key_index w + 1) mod length API_KEYS, 0)%nat
              else (api_key_index w, request_count w)) as [index count].
    intros [= _ <-]. repeat split. }
  destruct (get_api_key w) as [k w1] eqn:Hget.
  destruct (Hw k w1 eq_refl) as (Hc & Hr & Hs).
  cbn [fst snd requests_get time_time requests sleeps clock_reads].
  rewrite Hr, Hs, Hc.
  split; [reflexivity|]. split; [reflexivity|]. split; [reflexivity|].
  split; [reflexivity|]. split; [lia|].
  intros published_raw Hpub Hne Hparse.
  unfold Api.entry_of_cve. rewrite Hpub.
  change (default "" (Some published_raw)) with published_raw.
  apply String.eqb_neq in Hne. rewrite Hne, Hparse. split; reflexivity.
Qed.

(** X25: the time budget is checked before each attempt. When the
    clock, at the first check, is already past the budget, the call sends
    no request and does not sleep, whatever the network would have
    answered: it stores and returns the entry "CVE Not Found", and later
    calls for the id are answered from the cache. *)
Theorem timeout_before_first_request (cve_id : string) (job_cve_cache : cve_cache)
    (timeout_threshold : float) (w : world) (key : string) :
  job_cve_cache !! cve_id = None ->
  (get_api_key w).1 = Ok key ->
  (timeout_threshold <? clock (S (clock_reads w)) - clock (clock_reads w))%float = true ->
  let run := fetch_cve_details cve_id job_cve_cache timeout_threshold w in
  run.1.1 = Ok not_found_entry
  /\ run.1.2 = <[cve_id := not_found_entry]> job_cve_cache
  /\ requests run.2 = requests w
  /\ sleeps run.2 = sleeps w
  /\ forall (timeout_threshold' : float) (later_world : world),
       fetch_cve_details cve_id run.1.2 timeout_threshold' later_world
         = (Ok not_found_entry, run.1.2, later_world).
Proof.
  intros Hmiss Hkey Htime run.
  assert (Hrun : run = (Ok not_found_entry, <[cve_id := not_found_entry]> job_cve_cache,
                        (time_time clock (time_time clock (get_api_key w).2).2).2)).
  { unfold run, Api.fetch_cve_details. rewrite Hmiss.
    destruct (get_api_key w) as [k w1] eqn:Hget. cbn [fst snd] in Hkey. subst k.
    assert (Hreads : clock_reads w1 = clock_reads w).
    { revert Hget. unfold get_api_key.
      destruct (if (1000 <=? request_count w)%nat
                then ((api_key_index w + 1) mod length API_KEYS, 0)%nat
                else (api_key_index w, request_count w)) as [index count].
      by intros [= _ <-]. }
    unfold time_time at 1. cbn [fst snd].
    change (seq 0 NVD_RETRY_ATTEMPTS) with (0%nat :: seq 1 4).
    cbn [Api.attempts time_time clock_reads].
    rewrite <- Hreads in Htime. rewrite Htime. reflexivity. }
  rewrite Hrun. cbn [fst snd].
  assert (Hw : forall k w1, get_api_key w = (k, w1) ->
                 requests w1 = requests w /\ sleeps w1 = sleeps w).
  { intros k w1. unfold get_api_key.
    destruct (if (1000 <=? request_count w)%nat
              then ((api_key_index w + 1) mod length API_KEYS, 0)%nat
              else (api_key_index w, request_count w)) as [index count].
    intros [= _ <-]. split; reflexivity. }
  destruct (get_api_key w) as [k w1] eqn:Hget.
  destruct (Hw k w1 eq_refl) as (Hr & Hs).
  cbn [fst snd time_time requests sleeps].
  split; [reflexivity|]. split; [reflexivity|].
  split; [exact Hr|]. split; [exact Hs|].
  intros t' w2. unfold Api.fetch_cve_details. rewrite lookup_insert_eq. reflexivity.
Qed.

Lemma is_patch_tag_spec (tag : string) : is_patch_tag tag = true <-> patch_tag tag.
Proof.
  unfold is_patch_tag, patch_tag.
  rewrite bool_decide_eq_true, !elem_of_cons, elem_of_nil.
  rewrite <- !LetterCase.lower_caseless.
  change (lower "patch") with "patch".
  change (lower "vendor advisory") with "vendor advisory".
  change (lower "third party advisory") with "third party advisory".
  tauto.
Qed.

Lemma has_patch_tag_spec (ref : nvd_reference) :
  has_patch_tag ref = true <-> patch_tagged ref.
Proof.
  unfold has_patch_tag, patch_tagged. rewrite existsb_exists. split.
  - intros (tag & Hin & Htag). destruct (ref_tags ref) as [tags|]; [|contradiction].
    exists tags, tag. split; [reflexivity|].
    split; [by apply list_elem_of_In|by apply is_patch_tag_spec].
  - intros (tags & tag & -> & Hin & Htag). exists tag.
    split; [by apply list_elem_of_In|by apply is_patch_tag_spec].
Qed.

(** X5: the entry built from a CVE record. The entry lists the references
    of the record that carry one of the tags patch, vendor advisory or
    third party advisory, in any letter case: each of them as often as the
    record has it, in the order of the record, with its url, its source and
    all its tags (the url defaulting to the empty text, the source to
    "Unknown"). The patch status is "Available" exactly when there is such
    a reference; otherwise it is "Workaround Available" or "Not Found"
    according to the record's workarounds. The date is missing exactly
    when the record has no publication date. *)
Theorem entry_of_cve_status (cve_data : nvd_cve) (e : CacheEntry) :
  entry_of_cve cve_data = Ok e ->
  exists tagged others,
    default [] (cve_references cve_data) ≡ₚ tagged ++ others
    /\ sublist tagged (default [] (cve_references cve_data))
    /\ Forall patch_tagged tagged
    /\ Forall (fun ref => ~ patch_tagged ref) others
    /\ references (patch_info e)
       = JArr ((fun ref =>
                  JObj [("url", JStr (default "" (ref_url ref)));
                        ("source", JStr (default "Unknown" (ref_source ref)));
                        ("tags", JArr (JStr <$> default [] (ref_tags ref)))])
               <$> tagged)
    /\ (status (patch_info e) = Str "Available" <-> tagged <> [])
    /\ (tagged = [] ->
        status (patch_info e)
          = Str (if workarounds cve_data then "Workaround Available" else "Not Found"))
    /\ (date_obj e = Null <-> default "" (published cve_data) = "")
    /\ (forall published_raw, published cve_data = Some published_raw ->
          published_raw <> "" ->
          exists iso, parse_date_iso (split_head "T" published_raw) = Some iso
                      /\ date_obj e = Str iso).
Proof.
  intros H. unfold Api.entry_of_cve in H.
  bind_inv H as d Hd. injection H as <-. cbn [references status patch_info date_obj].
  destruct (filter_selects has_patch_tag patch_tagged
              (default [] (cve_references cve_data)) has_patch_tag_spec)
    as (others & Hperm & Hsub & Hsel & Hothers).
  exists (List.filter has_patch_tag (default [] (cve_references cve_data))), others.
  split; [exact Hperm|]. split; [exact Hsub|]. split; [exact Hsel|].
  split; [exact Hothers|]. split; [reflexivity|].
  split.
  { destruct (List.filter has_patch_tag _) as [|ref l].
    - split; [|congruence]. destruct (workarounds cve_data); discriminate.
    - split; [discriminate|reflexivity]. }
  split; [intros ->; reflexivity|].
  split.
  { destruct (String.eqb_spec (default "" (published cve_data)) "") as [Heq|Hne].
    - injection Hd as <-. tauto.
    - destruct (parse_date_iso _); [|discriminate]. injection Hd as <-.
      split; [discriminate|]. intros ?. contradiction. }
  intros published_raw Hpub Hne. rewrite Hpub in Hd.
  change (default "" (Some published_raw)) with published_raw in Hd.
  apply String.eqb_neq in Hne. rewrite Hne in Hd.
  destruct (parse_date_iso _) as [iso|]; [|discriminate].
  injection Hd as <-. eauto.
Qed.

End ApiEffort.

End ApiEffort.

(** ** The cache file: clearing, overwriting, recovery *)

Module CacheEdges.

Import Cache.

(** X6: [clear_cache] reports failure exactly when the file exists and
    cannot be removed, and then changes nothing; otherwise the file is gone
    afterwards, whether or not it was there, and every other file is as
    before. *)
Theorem clear_cache_removes_the_file (path : string) (fs : filesystem) :
  ((clear_cache path fs).1 = false
     <-> is_Some (files fs !! path) /\ path ∈ locked fs)
  /\ ((clear_cache path fs).1 = false -> (clear_cache path fs).2 = fs)
  /\ ((clear_cache path fs).1 = true ->
        files (clear_cache path fs).2 !! path = None
        /\ (forall other, other <> path ->
              files (clear_cache path fs).2 !! other = files fs !! other)
        /\ locked (clear_cache path fs).2 = locked fs).
Proof.
  unfold clear_cache, fs_remove.
  destruct (files fs !! path) as [text|] eqn:Hfile.
  - destruct (bool_decide (path ∈ locked fs)) eqn:Hlock; cbn [fst snd files locked].
    + apply bool_decide_eq_true in Hlock.
      split; [split; [intros _; split; [eauto|exact Hlock]|reflexivity]|].
      split; [reflexivity|discriminate].
    + apply bool_decide_eq_false in Hlock.
      split; [split; [discriminate|intros [_ ?]; contradiction]|].
      split; [discriminate|]. intros _.
      split; [apply lookup_delete_eq|].
      split; [|reflexivity]. intros other Hother. by apply lookup_delete_ne.
  - cbn [fst snd].
    split; [split; [discriminate|intros [[? [=]] _]]|].
    split; [discriminate|]. intros _. auto.
Qed.

Lemma append_cons (x : ascii) (a b : string) :
  (String x a ++ b)%string = String x (a ++ b)%string.
Proof. reflexivity. Qed.

Lemma append_assoc (a b c : string) : ((a ++ b) ++ c = a ++ (b ++ c))%string.
Proof. induction a as [|x a IH]; [reflexivity|]. rewrite !append_cons. by rewrite IH. Qed.

Lemma append_nonempty (a b : string) : b <> "" -> (a ++ b)%string <> "".
Proof. destruct a; [auto|discriminate]. Qed.

Lemma ends_with_slash_cons (a : ascii) (s : string) :
  s <> "" -> ends_with_slash (String a s) = ends_with_slash s.
Proof. destruct s as [|b s']; [contradiction|reflexivity]. Qed.

Lemma ends_with_slash_append (d t : string) :
  t <> "" -> ends_with_slash (d ++ t) = ends_with_slash t.
Proof.
  intros Ht. induction d as [|a d IH]; [reflexivity|].
  rewrite append_cons, ends_with_slash_cons; [exact IH|]. by apply append_nonempty.
Qed.

Lemma has_slash_append (a b : string) :
  has_slash (a ++ b) = has_slash a || has_slash b.
Proof.
  induction a as [|x a IH]; [reflexivity|].
  rewrite append_cons. cbn [has_slash]. by rewrite IH, orb_assoc.
Qed.

Lemma ends_with_slash_has_slash (a : string) :
  ends_with_slash a = true -> has_slash a = true.
Proof.
  induction a as [|x a IH]; [discriminate|].
  destruct a as [|y a].
  - cbn. by rewrite orb_false_r.
  - rewrite ends_with_slash_cons by discriminate. intros H.
    cbn [has_slash] in *. rewrite (IH H). apply orb_true_r.
Qed.

Lemma has_slash_path_join (a b : string) :
  a <> "" -> has_slash (path_join a b) = true.
Proof.
  intros Ha. unfold path_join. apply String.eqb_neq in Ha. rewrite Ha. cbn [orb].
  destruct (ends_with_slash a) eqn:Hslash; rewrite !has_slash_append.
  - by rewrite (ends_with_slash_has_slash a Hslash).
  - cbn. apply orb_true_r.
Qed.

Lemma up_to_last_slash_empty (p : string) :
  up_to_last_slash p = "" <-> has_slash p = false.
Proof.
  destruct p as [|a p]; [done|]. cbn [up_to_last_slash has_slash].
  destruct (Ascii.eqb a "/" || has_slash p); split; (discriminate || reflexivity).
Qed.

Lemma rstrip_slashes_nonempty (head : string) :
  all_slashes head = false -> rstrip_slashes head <> "".
Proof.
  destruct head as [|a head]; [discriminate|]. intros H.
  cbn [rstrip_slashes]. rewrite H. discriminate.
Qed.

(** A path has a directory part exactly when it holds a slash. *)
Lemma dirname_empty (p : string) : dirname p = "" <-> has_slash p = false.
Proof.
  unfold dirname. rewrite <- up_to_last_slash_empty.
  destruct (String.eqb_spec (up_to_last_slash p) "") as [Heq|Hne]; cbn [negb andb].
  - tauto.
  - destruct (all_slashes (up_to_last_slash p)) eqn:Hall; cbn [negb]; [tauto|].
    split; [|contradiction]. intros H. by apply rstrip_slashes_nonempty in H.
Qed.

Section CacheEdges.

Variable to_csv : DataFrame -> string.
Variable read_csv : string -> pyresult DataFrame.
Variable json_dumps : json -> pyresult string.
Variable json_loads : string -> pyresult json.
Variable today : string.

Abbreviation load_row := (Cache.load_row json_loads).
Abbreviation load_rows := (Cache.load_rows json_loads).
Abbreviation load_cve_cache := (Cache.load_cve_cache read_csv json_loads).
Abbreviation save_cve_cache := (Cache.save_cve_cache to_csv json_dumps today).
Abbreviation cache_frame := (Cache.cache_frame json_dumps today).

Lemma save_cases (cache : cve_cache) (path : string) (fs : filesystem) :
  (exists frame,
     cache_frame cache = Ok frame
     /\ dirname path <> "" /\ (dirname path ∉ locked fs) /\ (path ∉ locked fs)
     /\ save_cve_cache cache path fs
        = (true, {| files := <[path := to_csv frame]> (files fs);
                    locked := locked fs |}))
  \/ (save_cve_cache cache path fs = (false, fs)
      /\ ((exists e, cache_frame cache = Raise e)
          \/ dirname path = "" \/ dirname path ∈ locked fs \/ path ∈ locked fs)).
Proof.
  unfold Cache.save_cve_cache.
  destruct (cache_frame cache) as [frame|e]; [|right; split; [reflexivity|eauto]].
  change (Ok frame ≫= ?k) with (k frame). cbv beta.
  unfold ensure_dir_exists, fs_write.
  destruct (String.eqb_spec (dirname path) "") as [Hdir|Hdir];
    [right; split; [reflexivity|auto]|].
  destruct (decide (dirname path ∈ locked fs)) as [Hlocked|Hlocked].
  { rewrite (bool_decide_eq_true_2 _ Hlocked). right. split; [reflexivity|auto]. }
  rewrite (bool_decide_eq_false_2 _ Hlocked).
  change (Ok ?d ≫= ?k) with (k d). cbv beta.
  destruct (decide (path ∈ locked fs)) as [Hpath|Hpath].
  { rewrite (bool_decide_eq_true_2 _ Hpath). right. split; [reflexivity|auto]. }
  rewrite (bool_decide_eq_false_2 _ Hpath). left. exists frame. auto 10.
Qed.

(** X7: [save_cve_cache] returns True exactly when every reference list
    has a JSON text, the path has a directory part, and neither the
    directory nor the file is barred. A path without a slash,
    "cve_cache.csv" for one, has no directory part: there is no directory
    to make and the save fails, whereas the path the pipeline saves to
    always has one. A failed save leaves every file as it was. A
    successful save replaces the whole file by the CSV text of the mapping
    given, so that what an earlier save wrote is gone, and touches no other
    file. *)
Theorem save_cve_cache_overwrites (cache : cve_cache) (path : string) (fs : filesystem) :
  ((save_cve_cache cache path fs).1 = true
     <-> (exists frame, cache_frame cache = Ok frame)
         /\ has_slash path = true
         /\ (dirname path ∉ locked fs) /\ (path ∉ locked fs))
  /\ (has_slash path = false -> save_cve_cache cache path fs = (false, fs))
  /\ save_cve_cache cache "cve_cache.csv" fs = (false, fs)
  /\ (forall output_dir cache_filename,
        has_slash (get_cache_path output_dir cache_filename) = true)
  /\ ((save_cve_cache cache path fs).1 = false -> (save_cve_cache cache path fs).2 = fs)
  /\ ((save_cve_cache cache path fs).1 = true ->
        exists frame,
          cache_frame cache = Ok frame
          /\ files (save_cve_cache cache path fs).2 !! path = Some (to_csv frame)
          /\ (forall other, other <> path ->
                files (save_cve_cache cache path fs).2 !! other = files fs !! other)
          /\ locked (save_cve_cache cache path fs).2 = locked fs)
  /\ (forall earlier : cve_cache,
        (save_cve_cache cache path fs).1 = true ->
        save_cve_cache cache path (save_cve_cache earlier path fs).2
          = save_cve_cache cache path fs).
Proof.
  assert (Hnoslash : forall p, has_slash p = false ->
            save_cve_cache cache p fs = (false, fs)).
  { intros p Hp. apply dirname_empty in Hp.
    destruct (save_cases cache p fs) as [(frame & _ & Hdir & _) | [H _]];
      [contradiction|exact H]. }
  assert (Hslash : dirname path <> "" <-> has_slash path = true).
  { rewrite dirname_empty. by destruct (has_slash path). }
  split; [|split; [apply Hnoslash|split; [by apply Hnoslash|split]]].
  - destruct (save_cases cache path fs)
      as [(frame & Hframe & Hdir & Hlocked & Hpath & ->) | [-> Hwhy]]; cbn [fst].
    + split; [|reflexivity]. intros _. apply Hslash in Hdir. eauto.
    + split; [discriminate|]. intros ([frame Hframe] & Hdir & Hlocked & Hpath).
      apply Hslash in Hdir.
      destruct Hwhy as [[e He] | [? | [? | ?]]]; [congruence|contradiction..].
  - intros output_dir cache_filename. unfold get_cache_path.
    apply has_slash_path_join. unfold path_join.
    destruct (_ || _); apply append_nonempty; discriminate.
  - split; [|split].
    + destruct (save_cases cache path fs) as [(frame & _ & _ & _ & _ & ->) | [-> _]];
        [discriminate|reflexivity].
    + destruct (save_cases cache path fs)
        as [(frame & Hframe & _ & _ & _ & ->) | [-> _]]; [|discriminate].
      intros _. exists frame. cbn [fst snd files locked].
      split; [exact Hframe|]. split; [apply lookup_insert_eq|].
      split; [|reflexivity]. intros other Hother. by apply lookup_insert_ne.
    + intros earlier.
      destruct (save_cases cache path fs)
        as [(frame & Hframe & Hdir & Hlocked & Hpath & Hsave) | [-> _]];
        [|discriminate].
      intros _. rewrite Hsave.
      destruct (save_cases earlier path fs)
        as [(frame0 & _ & _ & _ & _ & ->) | [-> _]]; cbn [snd]; [|exact Hsave].
      destruct (save_cases cache path
                  {| files := <[path := to_csv frame0]> (files fs);
                     locked := locked fs |})
        as [(frame' & Hframe' & _ & _ & _ & ->) | [_ Hwhy]]; cbn [files locked] in *.
      * assert (frame' = frame) as -> by congruence.
        by rewrite insert_insert_eq.
      * destruct Hwhy as [[e He] | [? | [? | ?]]]; [congruence|contradiction..].
Qed.

(** The rows of a cache file whose id is a text. *)
Definition text_id (r : row) : Prop := exists id, r !! "cve_id" = Some (Str id).

Lemma load_row_text_id (acc : cve_cache) (r : row) :
  text_id r ->
  (exists acc', load_row acc r = Ok acc')
  \/ (load_row acc r = Raise KeyError
      /\ (r !! "date_obj" = None \/ r !! "patch_status" = None)).
Proof.
  intros [id Hid]. unfold Cache.load_row, getitem. rewrite Hid.
  change (Ok (Str id) ≫= ?k) with (k (Str id)). cbv beta.
  destruct (r !! "date_obj") as [d|]; [|right; split; [reflexivity|by left]].
  change (Ok d ≫= ?k) with (k d). cbv beta.
  destruct (r !! "patch_status") as [st|]; [|right; split; [reflexivity|by right]].
  change (Ok st ≫= ?k) with (k st). cbv beta.
  left.
  destruct (try_except _ anything (Ok (JArr []))) as [refs|e] eqn:Hrefs.
  - eexists. reflexivity.
  - exfalso. revert Hrefs. unfold try_except.
    destruct (_ ≫= _); [discriminate|]. simpl. discriminate.
Qed.

Lemma load_row_missing (acc : cve_cache) (r : row) :
  text_id r ->
  r !! "date_obj" = None \/ r !! "patch_status" = None ->
  load_row acc r = Raise KeyError.
Proof.
  intros [id Hid] Hmiss. unfold Cache.load_row, getitem. rewrite Hid.
  change (Ok (Str id) ≫= ?k) with (k (Str id)). cbv beta.
  destruct (r !! "date_obj") as [d|]; [|reflexivity].
  destruct Hmiss as [[=]|Hst]. rewrite Hst. reflexivity.
Qed.

Lemma load_rows_missing (acc : cve_cache) (rs : list row) :
  Forall text_id rs ->
  Exists (fun r => r !! "date_obj" = None \/ r !! "patch_status" = None) rs ->
  load_rows acc rs = Raise KeyError.
Proof.
  intros Hids. revert acc. induction Hids as [|r rs Hid _ IH]; intros acc Hex.
  - by apply Exists_nil in Hex.
  - simpl. destruct (load_row_text_id acc r Hid) as [[acc' Hok] | [Hraise _]].
    + rewrite Hok. change (Ok acc' ≫= ?k) with (k acc'). cbv beta.
      apply IH. apply Exists_cons in Hex as [Hmiss|Hex]; [|exact Hex].
      rewrite (load_row_missing acc r Hid Hmiss) in Hok. discriminate.
    + rewrite Hraise. reflexivity.
Qed.

(** X8: reading the cache file never fails on a file with text ids. When
    the reader rejects the file, or when the table lacks the [date_obj] or
    the [patch_status] cell in some row, the result is the empty mapping:
    the rows read before the bad one are dropped with it. A table without
    rows gives the empty mapping as well. *)
Theorem load_cve_cache_recovers (path text : string) (fs : filesystem) :
  files fs !! path = Some text ->
  (forall e, read_csv text = Raise e -> e <> Unsupported ->
     load_cve_cache path fs = Ok ∅)
  /\ (forall df, read_csv text = Ok df ->
        Forall text_id (rows df) ->
        (exists cache, load_cve_cache path fs = Ok cache)
        /\ (Exists (fun r => r !! "date_obj" = None \/ r !! "patch_status" = None)
              (rows df) ->
            load_cve_cache path fs = Ok ∅)
        /\ (rows df = [] -> load_cve_cache path fs = Ok ∅)).
Proof.
  intros Hfile. unfold Cache.load_cve_cache. rewrite Hfile.
  split.
  - intros e -> Hne. simpl. by destruct e.
  - intros df -> Hids. change (Ok df ≫= ?k) with (k df). cbv beta.
    split; [|split].
    + assert (Hcases : forall acc, (exists c, load_rows acc (rows df) = Ok c)
                                   \/ load_rows acc (rows df) = Raise KeyError).
      { induction Hids as [|r rs Hid _ IH]; intros acc; [left; by eexists|].
        simpl. destruct (load_row_text_id acc r Hid) as [[acc' Hok] | [Hraise _]].
        - rewrite Hok. apply IH.
        - rewrite Hraise. by right. }
      destruct (Hcases ∅) as [[c ->] | ->]; eauto.
    + intros Hex. by rewrite (load_rows_missing ∅ _ Hids Hex).
    + intros ->. reflexivity.
Qed.

(** X9: an entry is read from four cells of its row, [cve_id],
    [date_obj], [patch_status] and [references]; the [cached_date] cell
    that [save_cve_cache] writes next to them is never looked at, so rows
    that differ in it alone load alike, and of two rows with the same id
    the later one is the entry kept. *)
Theorem load_reads_four_columns (acc : cve_cache) (r : row) :
  (forall r' : row,
     (forall c, c ∈ ["cve_id"; "date_obj"; "patch_status"; "references"] ->
                r !! c = r' !! c) ->
     load_row acc r = load_row acc r')
  /\ (forall v, load_row acc (<["cached_date" := v]> r) = load_row acc r)
  /\ (forall (id : string) (acc1 acc2 : cve_cache) (earlier : row),
        r !! "cve_id" = Some (Str id) -> earlier !! "cve_id" = Some (Str id) ->
        load_row acc earlier = Ok acc1 -> load_row acc1 r = Ok acc2 ->
        load_row acc r = Ok acc2).
Proof.
  assert (Hfour : forall a (x y : row),
    x !! "cve_id" = y !! "cve_id" -> x !! "date_obj" = y !! "date_obj" ->
    x !! "patch_status" = y !! "patch_status" -> x !! "references" = y !! "references" ->
    load_row a x = load_row a y).
  { intros a x y H1 H2 H3 H4. unfold Cache.load_row, getitem.
    rewrite H1, H2, H3, H4. reflexivity. }
  split; [|split].
  - intros r' Hsame. apply Hfour; apply Hsame; apply (bool_decide_unpack _); reflexivity.
  - intros v. apply Hfour; by rewrite lookup_insert_ne.
  - intros id acc1 acc2 earlier Hid Hid' H1 H2.
    revert H1 H2. unfold Cache.load_row, getitem. rewrite Hid, Hid'.
    change (Ok (Str id) ≫= ?k) with (k (Str id)). cbv beta.
    intros H1 H2.
    bind_inv H1 as d1 Hd1. bind_inv H1 as s1 Hs1. bind_inv H1 as j1 Hj1.
    injection H1 as <-.
    bind_inv H2 as d2 Hd2. bind_inv H2 as s2 Hs2. bind_inv H2 as j2 Hj2.
    injection H2 as <-.
    rewrite Hd2. change (Ok d2 ≫= ?k) with (k d2). cbv beta.
    rewrite Hs2. change (Ok s2 ≫= ?k) with (k s2). cbv beta.
    rewrite Hj2. change (Ok j2 ≫= ?k) with (k j2). cbv beta.
    by rewrite insert_insert_eq.
Qed.

End CacheEdges.

(** X10: where the cache file lives when no file name is given, as in
    the pipeline: in the directory [cache] under the output directory,
    under the name [cve_cache.csv]. A missing or empty output directory
    stands for the current one, and a separator is put after the output
    directory unless it ends in one. *)
Theorem get_cache_path_layout (output_dir : option string) :
  get_cache_path output_dir None
    = (or_default output_dir "."
       ++ (if ends_with_slash (or_default output_dir ".") then "" else "/")
       ++ "cache/cve_cache.csv")%string
  /\ or_default output_dir "." <> ""
  /\ get_cache_path None None = "./cache/cve_cache.csv"
  /\ get_cache_path (Some "") None = "./cache/cve_cache.csv"
  /\ get_cache_path output_dir (Some "") = get_cache_path output_dir None.
Proof.
  assert (Hbase : or_default output_dir "." <> "").
  { unfold or_default. destruct output_dir as [d|]; [|discriminate].
    destruct (String.eqb_spec d ""); [discriminate|assumption]. }
  split; [|split; [exact Hbase|repeat split]].
  unfold get_cache_path, path_join, DEFAULT_CACHE_DIR.
  set (base := or_default output_dir ".") in *.
  apply String.eqb_neq in Hbase. rewrite Hbase. cbn [orb].
  destruct (ends_with_slash base) eqn:Hslash.
  - assert (Hdir : (base ++ "cache")%string <> "") by (by apply append_nonempty).
    apply String.eqb_neq in Hdir. rewrite Hdir. cbn [orb].
    rewrite ends_with_slash_append by discriminate.
    change (ends_with_slash "cache") with false. cbv iota.
    rewrite append_assoc. reflexivity.
  - assert (Hdir : (base ++ "/" ++ "cache")%string <> "") by (by apply append_nonempty).
    apply String.eqb_neq in Hdir. rewrite Hdir. cbn [orb].
    rewrite ends_with_slash_append by discriminate.
    change (ends_with_slash ("/" ++ "cache")) with false. cbv iota.
    rewrite !append_assoc. reflexivity.
Qed.

End CacheEdges.

(** ** Categorization: substring matching, first match, idempotence *)

Module CategorizationMatching.

Import Categorization.

(** [p] occurs in [s] as a run of consecutive characters. *)
Definition occurs (p s : string) : Prop :=
  exists before after, s = (before ++ p ++ after)%string.

Lemma string_append_cons (x : ascii) (a b : string) :
  (String x a ++ b)%string = String x (a ++ b)%string.
Proof. reflexivity. Qed.

Lemma prefix_spec (p s : string) :
  String.prefix p s = true <-> exists after, s = (p ++ after)%string.
Proof.
  revert p. induction s as [|b s IH]; intros [|a p]; simpl.
  - split; [intros _; by exists ""|reflexivity].
  - split; [discriminate|]. intros [after H]. discriminate.
  - split; [intros _; by exists (String b s)|reflexivity].
  - destruct (ascii_dec a b) as [->|Hne].
    + rewrite IH. split; intros [after H]; exists after.
      * rewrite string_append_cons. by rewrite <- H.
      * rewrite string_append_cons in H. by injection H.
    + split; [discriminate|]. intros [after H].
      rewrite string_append_cons in H. injection H as -> _. contradiction.
Qed.

(** The embedding of Python's [p in s] decides [occurs]. *)
Lemma contains_spec (p s : string) : contains p s = true <-> occurs p s.
Proof.
  induction s as [|b s IH].
  - cbn [contains]. rewrite orb_false_r, prefix_spec. split.
    + intros [after H]. by exists "", after.
    + intros (before & after & H). destruct before as [|x before].
      * by exists after.
      * rewrite string_append_cons in H. discriminate.
  - cbn [contains]. rewrite orb_true_iff, prefix_spec, IH. split.
    + intros [[after H] | (before & after & H)].
      * by exists "", after.
      * exists (String b before), after. rewrite string_append_cons. by rewrite H.
    + intros (before & after & H). destruct before as [|x before].
      * left. by exists after.
      * right. exists before, after. rewrite string_append_cons in H. by injection H.
Qed.

(** Looking for the folded pattern in the folded text is looking for the
    pattern letter case aside. *)
Lemma occurs_lower (p s : string) :
  occurs (lower p) (lower s) <-> LetterCase.occurs_caseless p s.
Proof.
  split.
  - intros (before & after & H).
    apply LetterCase.lower_append_inv in H as (s1 & s23 & -> & H1 & H23).
    apply LetterCase.lower_append_inv in H23 as (s2 & s3 & -> & H2 & H3).
    exists s1, s2, s3. split; [reflexivity|]. by apply LetterCase.lower_caseless.
  - intros (before & mid & after & -> & H). apply LetterCase.lower_caseless in H.
    exists (lower before), (lower after). by rewrite !LetterCase.lower_append, H.
Qed.

(** Some pattern of the list occurs in the folded name, once folded. *)
Definition some_pattern_occurs (patterns : list string) (name_lower : string) : Prop :=
  exists pattern, pattern ∈ patterns /\ occurs (lower pattern) name_lower.

(** The name mentions one of the patterns: the pattern stands in the
    name as a run of consecutive characters, letter case aside. *)
Definition mentions (name : string) (patterns : list string) : Prop :=
  exists pattern, pattern ∈ patterns /\ LetterCase.occurs_caseless pattern name.

Lemma some_pattern_occurs_lower (patterns : list string) (name : string) :
  some_pattern_occurs patterns (lower name) <-> mentions name patterns.
Proof.
  unfold some_pattern_occurs, mentions.
  split; intros (pattern & Hin & Hocc); exists pattern; (split; [exact Hin|]);
    by apply occurs_lower.
Qed.

(** The patterns of a mapping table are ASCII texts. *)
Definition ascii_patterns (mappings : list (string * list string)) : Prop :=
  Forall (fun m => Forall (fun pattern => is_ascii pattern = true) m.2) mappings.

Lemma Forall_not_mentions (mappings : list (string * list string)) (name : string) :
  Forall (fun m => ~ some_pattern_occurs m.2 (lower name)) mappings
  <-> Forall (fun m => ~ mentions name m.2) mappings.
Proof.
  split; intros H; (eapply Forall_impl; [exact H|]); intros m Hm Hocc; apply Hm;
    by apply some_pattern_occurs_lower.
Qed.

Lemma any_pattern_in_spec (patterns : list string) (name_lower : string) :
  any_pattern_in patterns name_lower = true <-> some_pattern_occurs patterns name_lower.
Proof.
  unfold any_pattern_in, some_pattern_occurs. rewrite existsb_exists. split.
  - intros (p & Hin & Hc). exists p. split; [by apply list_elem_of_In|by apply contains_spec].
  - intros (p & Hin & Hc). exists p. split; [by apply list_elem_of_In|by apply contains_spec].
Qed.

Lemma first_match_none (mappings : list (string * list string)) (name_lower : string) :
  first_match mappings name_lower = None
  <-> Forall (fun m => ~ some_pattern_occurs m.2 name_lower) mappings.
Proof.
  induction mappings as [|[severity patterns] rest IH]; simpl.
  - split; [constructor|reflexivity].
  - destruct (any_pattern_in patterns name_lower) eqn:Hany.
    + split; [discriminate|]. intros H. apply Forall_cons in H as [H _].
      exfalso. apply H. by apply any_pattern_in_spec.
    + rewrite IH. split.
      * intros H. constructor; [|exact H]. simpl. intros Hocc.
        apply any_pattern_in_spec in Hocc. congruence.
      * intros H. by apply Forall_cons in H as [_ H].
Qed.

Lemma first_match_first (before after : list (string * list string))
    (severity : string) (patterns : list string) (name_lower : string) :
  Forall (fun m => ~ some_pattern_occurs m.2 name_lower) before ->
  some_pattern_occurs patterns name_lower ->
  first_match (before ++ (severity, patterns) :: after) name_lower = Some severity.
Proof.
  intros Hbefore Hocc. induction Hbefore as [|[s p] l Hm _ IH]; simpl.
  - apply any_pattern_in_spec in Hocc. by rewrite Hocc.
  - destruct (any_pattern_in p name_lower) eqn:Hany; [|exact IH].
    exfalso. apply Hm. by apply any_pattern_in_spec.
Qed.

Lemma lower_ascii_idemp (a : ascii) : lower_ascii (lower_ascii a) = lower_ascii a.
Proof.
  unfold lower_ascii.
  destruct ((65 <=? N_of_ascii a) && (N_of_ascii a <=? 90))%N eqn:Hup; [|by rewrite Hup].
  apply andb_true_iff in Hup as [H1 H2].
  apply N.leb_le in H1. apply N.leb_le in H2.
  rewrite N_ascii_embedding by lia.
  replace (N_of_ascii a + 32 <=? 90)%N with false; [by rewrite andb_false_r|].
  symmetry. apply N.leb_gt. lia.
Qed.

Lemma lower_idemp (s : string) : lower (lower s) = lower s.
Proof. induction s as [|a s IH]; simpl; [reflexivity|]. by rewrite lower_ascii_idemp, IH. Qed.

Section CategorizationMatching.

Variable NAME_MAPPINGS : list (string * list string).
Variable BUCKET_MAPPINGS : list (string * list string).
Variable set_order : list string -> list string.

Abbreviation assign_severity := (Categorization.assign_severity NAME_MAPPINGS).
Abbreviation categorize_name := (Categorization.categorize_name BUCKET_MAPPINGS set_order).
Abbreviation categorize_vulnerabilities :=
  (Categorization.categorize_vulnerabilities NAME_MAPPINGS BUCKET_MAPPINGS set_order).

(** X11: the severity guessed from a finding's name when no usable risk
    is declared, for a name and patterns that are ASCII texts. The first
    entry of the mapping, in its order, with a pattern that the name
    mentions (the pattern stands in the name, letter case aside) decides;
    "Check Needed" is the answer exactly when the name mentions no pattern
    ("Check Needed" being no key of the mapping); two names that differ
    by letter case alone get the same answer; a missing name is
    "Informational"; a name that is a number makes the call raise
    [AttributeError]. *)
Theorem severity_is_first_match (name : string) (existing_risk : cell) :
  is_ascii name = true ->
  ascii_patterns NAME_MAPPINGS ->
  CategorizationFacts.declared_wins existing_risk = false ->
  (forall before severity patterns after,
     NAME_MAPPINGS = before ++ (severity, patterns) :: after ->
     Forall (fun m => ~ mentions name m.2) before ->
     mentions name patterns ->
     assign_severity (Str name) existing_risk = Ok (Str severity))
  /\ (Forall (fun m => ~ mentions name m.2) NAME_MAPPINGS ->
      assign_severity (Str name) existing_risk = Ok (Str "Check Needed"))
  /\ (Forall (fun m => m.1 <> "Check Needed") NAME_MAPPINGS ->
      assign_severity (Str name) existing_risk = Ok (Str "Check Needed") ->
      Forall (fun m => ~ mentions name m.2) NAME_MAPPINGS)
  /\ (forall name', is_ascii name' = true -> LetterCase.caseless_eq name' name ->
        assign_severity (Str name') existing_risk
          = assign_severity (Str name) existing_risk)
  /\ assign_severity Null existing_risk = Ok (Str "Informational")
  /\ (forall z, assign_severity (Int z) existing_risk = Raise AttributeError)
  /\ (forall f, PrimFloat.is_nan f = false ->
        assign_severity (Num f) existing_risk = Raise AttributeError).
Proof.
  intros _ _ Hdecl. unfold CategorizationFacts.declared_wins in Hdecl.
  unfold Categorization.assign_severity. rewrite Hdecl. cbn [pd_isna py_lower].
  change (Ok (lower name) ≫= ?k) with (k (lower name)). cbv beta.
  split; [|split; [|split; [|split; [|split; [|split]]]]].
  - intros before severity patterns after -> Hbefore Hocc.
    apply Forall_not_mentions in Hbefore. apply some_pattern_occurs_lower in Hocc.
    by rewrite (first_match_first _ _ _ _ _ Hbefore Hocc).
  - intros Hnone. apply Forall_not_mentions, first_match_none in Hnone.
    by rewrite Hnone.
  - intros Hkeys H. apply Forall_not_mentions, first_match_none.
    destruct (first_match NAME_MAPPINGS (lower name)) as [s|] eqn:Hm; [|reflexivity].
    injection H as ->.
    apply CategorizationFacts.first_match_label in Hm.
    apply list_elem_of_fmap in Hm as ([s p] & Heq & Hin). simpl in Heq. subst s.
    rewrite Forall_forall in Hkeys. by destruct (Hkeys _ Hin).
  - intros name' _ Hsame. apply LetterCase.lower_caseless in Hsame.
    change (Ok (lower name') ≫= ?k) with (k (lower name')). cbv beta.
    by rewrite Hsame.
  - reflexivity.
  - reflexivity.
  - intros f Hf. rewrite Hf. reflexivity.
Qed.

Lemma matching_buckets_spec (mappings : list (string * list string))
    (name_lower bucket : string) :
  bucket ∈ matching_buckets mappings name_lower
  <-> exists keywords, (bucket, keywords) ∈ mappings
                       /\ some_pattern_occurs keywords name_lower.
Proof.
  induction mappings as [|[b kws] rest IH]; simpl.
  - split; [intros H; by apply elem_of_nil in H|].
    intros (k & H & _). by apply elem_of_nil in H.
  - destruct (any_pattern_in kws name_lower) eqn:Hany.
    + rewrite elem_of_cons, list_elem_of_In, filter_In, <- list_elem_of_In, IH.
      split.
      * intros [-> | [(k & Hin & Hocc) _]].
        -- exists kws. split; [apply elem_of_cons; by left|by apply any_pattern_in_spec].
        -- exists k. split; [apply elem_of_cons; by right|exact Hocc].
      * intros (k & Hin & Hocc). apply elem_of_cons in Hin as [[= -> ->] | Hin].
        -- by left.
        -- destruct (String.eqb_spec bucket b) as [->|Hne]; [by left|].
           right. split; [by exists k|reflexivity].
    + rewrite IH. split.
      * intros (k & Hin & Hocc). exists k. split; [apply elem_of_cons; by right|exact Hocc].
      * intros (k & Hin & Hocc). apply elem_of_cons in Hin as [[= -> ->] | Hin].
        -- apply any_pattern_in_spec in Hocc. congruence.
        -- by exists k.
Qed.

Lemma NoDup_filter_bool {A} (p : A -> bool) (l : list A) :
  NoDup l -> NoDup (List.filter p l).
Proof.
  induction 1 as [|x l Hx _ IH]; simpl; [constructor|].
  destruct (p x); [|exact IH]. constructor; [|exact IH].
  rewrite list_elem_of_In, filter_In, <- list_elem_of_In. tauto.
Qed.

Lemma matching_buckets_NoDup (mappings : list (string * list string))
    (name_lower : string) :
  NoDup (matching_buckets mappings name_lower).
Proof.
  induction mappings as [|[b kws] rest IH]; simpl; [constructor|].
  destruct (any_pattern_in kws name_lower); [|exact IH].
  constructor; [|by apply NoDup_filter_bool].
  rewrite list_elem_of_In, filter_In. intros [_ H].
  by rewrite String.eqb_refl in H.
Qed.

(** X12: the bucket text of a finding whose name is a text, for a name
    and keywords that are ASCII texts. When the name mentions a keyword
    of some bucket (the keyword stands in the name, letter case aside),
    the text is the comma-separated list of the labels of the buckets with
    such a keyword, each label once, in the order the set of labels is
    iterated; when it mentions none it is "Miscellaneous"; two names that
    differ by letter case alone get the same text. *)
Theorem bucket_text_lists_matches (name : string) :
  is_ascii name = true ->
  ascii_patterns BUCKET_MAPPINGS ->
  (forall l, set_order l ≡ₚ l) ->
  ((exists bucket keywords, (bucket, keywords) ∈ BUCKET_MAPPINGS
                            /\ mentions name keywords) ->
   exists labels,
     categorize_name (Str name) = Ok (join ", " labels)
     /\ NoDup labels
     /\ forall bucket, bucket ∈ labels
          <-> exists keywords, (bucket, keywords) ∈ BUCKET_MAPPINGS
                               /\ mentions name keywords)
  /\ ((forall bucket keywords, (bucket, keywords) ∈ BUCKET_MAPPINGS ->
         ~ mentions name keywords) ->
      categorize_name (Str name) = Ok "Miscellaneous")
  /\ (forall name', is_ascii name' = true -> LetterCase.caseless_eq name' name ->
        categorize_name (Str name') = categorize_name (Str name)).
Proof.
  intros _ _ Horder. unfold Categorization.categorize_name. cbn [pd_isna py_lower].
  change (Ok (lower name) ≫= ?k) with (k (lower name)). cbv beta.
  assert (Hspec : forall bucket,
            bucket ∈ matching_buckets BUCKET_MAPPINGS (lower name)
            <-> exists keywords, (bucket, keywords) ∈ BUCKET_MAPPINGS
                                 /\ mentions name keywords).
  { intros bucket. rewrite matching_buckets_spec.
    split; intros (k & Hin & Hocc); exists k; (split; [exact Hin|]);
      by apply some_pattern_occurs_lower. }
  split; [|split].
  - intros (bucket & keywords & Hin & Hocc).
    assert (Hb : bucket ∈ matching_buckets BUCKET_MAPPINGS (lower name)).
    { apply Hspec. by exists keywords. }
    exists (set_order (matching_buckets BUCKET_MAPPINGS (lower name))).
    split.
    { destruct (matching_buckets BUCKET_MAPPINGS (lower name));
        [by apply elem_of_nil in Hb|reflexivity]. }
    split.
    { rewrite Horder. apply matching_buckets_NoDup. }
    intros b. rewrite Horder. apply Hspec.
  - intros Hnone.
    destruct (matching_buckets BUCKET_MAPPINGS (lower name)) as [|b l] eqn:Hm;
      [reflexivity|].
    exfalso.
    destruct (proj1 (Hspec b)) as (k & Hin & Hocc); [apply elem_of_cons; by left|].
    by apply (Hnone b k).
  - intros name' _ Hsame. apply LetterCase.lower_caseless in Hsame.
    change (Ok (lower name') ≫= ?k) with (k (lower name')). cbv beta.
    by rewrite Hsame.
Qed.


Lemma assign_severity_stable (name existing_risk out : cell) :
  assign_severity name existing_risk = Ok out -> assign_severity name out = Ok out.
Proof.
  unfold Categorization.assign_severity.
  destruct (truthy existing_risk && negb (is_none_label existing_risk)
            && negb (pd_isna existing_risk)) eqn:Hd.
  - intros [= <-]. by rewrite Hd.
  - intros H.
    destruct (truthy out && negb (is_none_label out) && negb (pd_isna out));
      [reflexivity|exact H].
Qed.

Lemma pmapM_fixed {A} (f : A -> pyresult A) (l : list A) :
  Forall (fun a => f a = Ok a) l -> pmapM f l = Ok l.
Proof.
  induction 1 as [|a l Ha _ IH]; simpl; [reflexivity|].
  rewrite Ha. change (Ok a ≫= ?k) with (k a). cbv beta.
  rewrite IH. reflexivity.
Qed.

Lemma Forall2_Forall_right {A B} (P : A -> B -> Prop) (l : list A) (k : list B) :
  Forall2 P l k -> Forall (fun y => exists x, P x y) k.
Proof. induction 1; constructor; eauto. Qed.

Lemma add_label_present (cols : list string) (c : string) :
  c ∈ cols -> add_label cols c = cols.
Proof. intros H. unfold add_label. by rewrite bool_decide_eq_true_2. Qed.

(** X13: categorization is idempotent. Categorizing a frame that
    categorization returned gives that very frame again: the risk
    assigned to a row is a fixed point of [assign_severity], and the bucket
    text depends on the name alone. *)
Theorem categorize_is_idempotent (df df' : DataFrame) :
  categorize_vulnerabilities df = Ok df' ->
  categorize_vulnerabilities df' = Ok df'.
Proof.
  intros H. unfold Categorization.categorize_vulnerabilities in H.
  bind_inv H as df1 H1.
  destruct (has_column df1 "Name") eqn:Hname; [|discriminate].
  apply FrameFacts.set_column_Ok in H1 as [Hcols1 Hrows1].
  apply FrameFacts.set_column_Ok in H as [Hcols' Hrows'].
  pose proof (FrameFacts.Forall2_compose _ _ _ _ _ Hrows1 Hrows') as Hrows.
  apply Forall2_Forall_right in Hrows.
  assert (Hrisk_col : "Risk" ∈ columns df').
  { rewrite Hcols', Hcols1. apply AnalysisFacts.elem_of_add_label. left.
    apply AnalysisFacts.elem_of_add_label. by right. }
  assert (Hbucket_col : "Bucket" ∈ columns df').
  { rewrite Hcols'. apply AnalysisFacts.elem_of_add_label. by right. }
  assert (Hname_col : "Name" ∈ columns df').
  { rewrite Hcols'. apply AnalysisFacts.elem_of_add_label. left.
    by apply AnalysisFacts.has_column_true. }
  assert (Hfixed : Forall (fun r =>
      (name ← getitem r "Name"; assign_severity name (row_get r "Risk" Null))
        ≫= (fun v => Ok (<["Risk" := v]> r)) = Ok r
      /\ (categorize_name (cell_of r "Name") ≫= (fun b => Ok (Str b)))
           ≫= (fun v => Ok (<["Bucket" := v]> r)) = Ok r) (rows df')).
  { eapply Forall_impl; [exact Hrows|].
    intros r'' (r0 & (r1 & (v & Hv & ->) & (b & Hb & ->))).
    bind_inv Hv as name Hn. bind_inv Hb as bucket Hbucket. cbv beta in Hv, Hb.
    assert (b = Str bucket) as -> by congruence. clear Hb.
    unfold getitem in Hn. destruct (r0 !! "Name") as [n|] eqn:Hlook; [|discriminate].
    injection Hn as ->.
    split.
    - unfold getitem, row_get.
      rewrite (lookup_insert_ne _ "Bucket" "Name") by discriminate.
      rewrite (lookup_insert_ne _ "Risk" "Name") by discriminate. rewrite Hlook.
      change (Ok name ≫= ?k) with (k name). cbv beta.
      rewrite (lookup_insert_ne _ "Bucket" "Risk") by discriminate.
      rewrite lookup_insert_eq.
      change (default Null (Some v)) with v.
      rewrite (assign_severity_stable _ _ _ Hv).
      change (Ok v ≫= ?k) with (k v). cbv beta.
      f_equal. apply insert_id.
      rewrite lookup_insert_ne by discriminate. apply lookup_insert_eq.
    - rewrite FrameFacts.cell_of_insert_ne by discriminate.
      rewrite Hbucket.
      change (Ok bucket ≫= ?k) with (k bucket). cbv beta.
      change (Ok (Str bucket) ≫= ?k) with (k (Str bucket)). cbv beta.
      f_equal. apply insert_id. apply lookup_insert_eq. }
  unfold Categorization.categorize_vulnerabilities, set_column.
  rewrite (pmapM_fixed _ (rows df')).
  2:{ eapply Forall_impl; [exact Hfixed|]. by intros r [Hr _]. }
  change (Ok (rows df') ≫= ?k) with (k (rows df')). cbv beta.
  rewrite add_label_present by exact Hrisk_col.
  change (Ok ?d ≫= ?k) with (k d). cbv beta.
  assert (Heta : {| columns := columns df'; rows := rows df' |} = df') by (by destruct df').
  rewrite Heta.
  rewrite (proj2 (AnalysisFacts.has_column_true df' "Name") Hname_col).
  rewrite (pmapM_fixed _ (rows df')).
  2:{ eapply Forall_impl; [exact Hfixed|]. by intros r [_ Hr]. }
  change (Ok (rows df') ≫= ?k) with (k (rows df')). cbv beta.
  rewrite add_label_present by exact Hbucket_col.
  by rewrite Heta.
Qed.

End CategorizationMatching.

End CategorizationMatching.

(** ** Scoring: the columns added by [add_scoring_data] *)

Module ScoringColumns.

Import Scoring.

Definition band_labels : list string :=
  ["Critical"; "High"; "Medium"; "Low"; "Not Assigned"].

(** The cell of a row under a category column is one of the five band
    labels. *)
Definition banded (category : string) (r : row) : Prop :=
  exists label, cell_of r category = Str label /\ label ∈ band_labels.

Definition scoring_columns : list string :=
  ["CVSS Category"; "EPSS Category"; "VPR Category"; "Exploitability Score"].

(** [df'] is [df] with some of the columns [touched] added or rewritten:
    no column is lost, no other column appears, the rows correspond one to
    one and agree on every other cell. *)
Definition extends (touched : list string) (df df' : DataFrame) : Prop :=
  (forall c, c ∈ columns df -> c ∈ columns df')
  /\ (forall c, c ∈ columns df' -> c ∈ columns df \/ c ∈ touched)
  /\ Forall2 (fun r r' : row => forall c, c ∉ touched -> r' !! c = r !! c)
       (rows df) (rows df').

Lemma extends_refl (touched : list string) (df : DataFrame) : extends touched df df.
Proof.
  split; [auto|]. split; [auto|].
  induction (rows df); constructor; auto.
Qed.

Lemma extends_trans (touched : list string) (df1 df2 df3 : DataFrame) :
  extends touched df1 df2 -> extends touched df2 df3 -> extends touched df1 df3.
Proof.
  intros (Ha1 & Hb1 & Hr1) (Ha2 & Hb2 & Hr2).
  split; [auto|]. split.
  - intros c Hc. apply Hb2 in Hc as [Hc|Hc]; [auto|by right].
  - pose proof (FrameFacts.Forall2_compose _ _ _ _ _ Hr1 Hr2) as H.
    eapply Forall2_impl; [exact H|].
    intros r r'' (r' & H1 & H2) c Hc. by rewrite H2, H1.
Qed.

Lemma extends_set_column (touched : list string) (df df' : DataFrame) (c : string)
    (f : row -> pyresult cell) :
  set_column df c f = Ok df' -> c ∈ touched -> extends touched df df'.
Proof.
  intros H Hc. apply FrameFacts.set_column_Ok in H as [Hcols Hrows].
  split; [|split].
  - intros x Hx. rewrite Hcols. apply AnalysisFacts.elem_of_add_label. by left.
  - intros x Hx. rewrite Hcols in Hx.
    apply AnalysisFacts.elem_of_add_label in Hx as [Hx | ->]; auto.
  - eapply Forall2_impl; [exact Hrows|].
    intros r r' (v & _ & ->) x Hx. apply lookup_insert_ne. by intros <-.
Qed.

Lemma set_column_total (df : DataFrame) (c : string) (f : row -> pyresult cell) :
  (forall r, exists v, f r = Ok v) -> exists df', set_column df c f = Ok df'.
Proof.
  intros Hf. unfold set_column.
  destruct (pmapM_total (fun r => v ← f r; Ok (<[c := v]> r)) (rows df)) as [rs Hrs].
  { apply Forall_forall. intros r _. destruct (Hf r) as [v Hv].
    rewrite Hv. by eexists. }
  rewrite Hrs. by eexists.
Qed.

Lemma set_column_cells (df df' : DataFrame) (c : string) (f : row -> pyresult cell)
    (P : cell -> Prop) :
  set_column df c f = Ok df' ->
  (forall r v, f r = Ok v -> P v) ->
  Forall (fun r' => P (cell_of r' c)) (rows df').
Proof.
  intros H HP. apply FrameFacts.set_column_Ok in H as [_ Hrows].
  induction Hrows as [|r r' l l' (v & Hv & ->) _ IH]; constructor; [|exact IH].
  rewrite FrameFacts.cell_of_insert_eq. by eapply HP.
Qed.

(** A score that [float] converts, or refuses with an error the mappers
    catch: any cell but an integer too large for a binary64. *)
Definition in_float_range (c : cell) : Prop :=
  forall z, c = Int z -> float_overflows z = false.

Definition score_columns : list string :=
  ["CVSS v3.0 Base Score"; "EPSS Score"; "VPR Score"].

Definition scores_in_range (df : DataFrame) : Prop :=
  Forall (fun r => Forall (fun c => in_float_range (cell_of r c)) score_columns)
    (rows df).

Section ScoringColumns.

Variable float_of_str : string -> option float.

Abbreviation py_float := (Scoring.py_float float_of_str).
Abbreviation categorize_cvss_score := (Scoring.categorize_cvss_score float_of_str).
Abbreviation categorize_epss_score := (Scoring.categorize_epss_score float_of_str).
Abbreviation categorize_vpr_score := (Scoring.categorize_vpr_score float_of_str).
Abbreviation add_scoring_data := (Scoring.add_scoring_data float_of_str).

(** A mapper answers every score in the range of [float] with a band
    label, and raises nothing but [OverflowError]. *)
Definition bands (f : cell -> pyresult string) : Prop :=
  (forall score, in_float_range score ->
     exists label, f score = Ok label /\ label ∈ band_labels)
  /\ (forall score e, f score = Raise e -> e = OverflowError).

Ltac band_label := eexists; split; [reflexivity|by apply (bool_decide_unpack _)].

Lemma py_float_overflows_only (s : cell) (e : exn) :
  py_float s = Raise e -> Scoring.value_or_type_error e = false -> e = OverflowError.
Proof.
  intros He Hcaught.
  apply ScoringFacts.py_float_raises in He as [[He _] | [-> _]]; [congruence|reflexivity].
Qed.

Lemma categorize_cvss_score_bands : bands categorize_cvss_score.
Proof.
  split.
  - intros s Hs. unfold Scoring.categorize_cvss_score.
    destruct (pd_isna s); [band_label|].
    destruct (py_float s) as [f|e] eqn:Hf.
    + change (Ok f ≫= ?k) with (k f). cbv beta.
      destruct (9.0 <=? f)%float; [band_label|].
      destruct (7.0 <=? f)%float; [band_label|].
      destruct (4.0 <=? f)%float; [band_label|].
      destruct (0.1 <=? f)%float; band_label.
    + change (Raise e ≫= ?k) with (@Raise string e). unfold try_except.
      rewrite (ScoringFacts.py_float_caught _ _ _ Hs Hf). band_label.
  - intros s e. unfold Scoring.categorize_cvss_score.
    destruct (pd_isna s); [discriminate|].
    destruct (py_float s) as [f|e'] eqn:Hf.
    + change (Ok f ≫= ?k) with (k f). cbv beta.
      destruct (9.0 <=? f)%float; [discriminate|].
      destruct (7.0 <=? f)%float; [discriminate|].
      destruct (4.0 <=? f)%float; [discriminate|].
      destruct (0.1 <=? f)%float; discriminate.
    + change (Raise e' ≫= ?k) with (@Raise string e'). unfold try_except.
      destruct (Scoring.value_or_type_error e') eqn:Hcaught; [discriminate|].
      intros [= <-]. by eapply py_float_overflows_only.
Qed.

Lemma categorize_epss_score_bands : bands categorize_epss_score.
Proof.
  split.
  - intros s Hs. unfold Scoring.categorize_epss_score.
    destruct (pd_isna s); [band_label|].
    destruct (py_float s) as [f|e] eqn:Hf.
    + change (Ok f ≫= ?k) with (k f). cbv beta.
      destruct (0.9 <=? f)%float; [band_label|].
      destruct (0.7 <=? f)%float; [band_label|].
      destruct (0.4 <=? f)%float; [band_label|].
      destruct (0.1 <=? f)%float; band_label.
    + change (Raise e ≫= ?k) with (@Raise string e). unfold try_except.
      rewrite (ScoringFacts.py_float_caught _ _ _ Hs Hf). band_label.
  - intros s e. unfold Scoring.categorize_epss_score.
    destruct (pd_isna s); [discriminate|].
    destruct (py_float s) as [f|e'] eqn:Hf.
    + change (Ok f ≫= ?k) with (k f). cbv beta.
      destruct (0.9 <=? f)%float; [discriminate|].
      destruct (0.7 <=? f)%float; [discriminate|].
      destruct (0.4 <=? f)%float; [discriminate|].
      destruct (0.1 <=? f)%float; discriminate.
    + change (Raise e' ≫= ?k) with (@Raise string e'). unfold try_except.
      destruct (Scoring.value_or_type_error e') eqn:Hcaught; [discriminate|].
      intros [= <-]. by eapply py_float_overflows_only.
Qed.

Lemma categorize_vpr_score_bands : bands categorize_vpr_score.
Proof.
  split.
  - intros s Hs. unfold Scoring.categorize_vpr_score.
    destruct (pd_isna s); [band_label|].
    destruct (py_float s) as [f|e] eqn:Hf.
    + change (Ok f ≫= ?k) with (k f). cbv beta.
      destruct (9.0 <=? f)%float; [band_label|].
      destruct (7.0 <=? f)%float; [band_label|].
      destruct (4.0 <=? f)%float; [band_label|].
      destruct (0.1 <=? f)%float; band_label.
    + change (Raise e ≫= ?k) with (@Raise string e). unfold try_except.
      rewrite (ScoringFacts.py_float_caught _ _ _ Hs Hf). band_label.
  - intros s e. unfold Scoring.categorize_vpr_score.
    destruct (pd_isna s); [discriminate|].
    destruct (py_float s) as [f|e'] eqn:Hf.
    + change (Ok f ≫= ?k) with (k f). cbv beta.
      destruct (9.0 <=? f)%float; [discriminate|].
      destruct (7.0 <=? f)%float; [discriminate|].
      destruct (4.0 <=? f)%float; [discriminate|].
      destruct (0.1 <=? f)%float; discriminate.
    + change (Raise e' ≫= ?k) with (@Raise string e'). unfold try_except.
      destruct (Scoring.value_or_type_error e') eqn:Hcaught; [discriminate|].
      intros [= <-]. by eapply py_float_overflows_only.
Qed.

(** One optional step of [add_scoring_data]: the category column is
    written when the score column is there. *)
Lemma optional_category (df : DataFrame) (src dst : string)
    (f : cell -> pyresult string) :
  bands f -> dst ∈ scoring_columns ->
  Forall (fun r => in_float_range (cell_of r src)) (rows df) ->
  exists df',
    (if has_column df src then apply_to_column df src dst f else Ok df) = Ok df'
    /\ extends scoring_columns df df'
    /\ (has_column df src = true ->
        dst ∈ columns df' /\ Forall (banded dst) (rows df')).
Proof.
  intros [Hf _] Hdst Hrange. destruct (has_column df src).
  - unfold apply_to_column.
    assert (Hset : exists df', set_column df dst
                                 (fun r => s ← f (cell_of r src); Ok (Str s)) = Ok df').
    { unfold set_column.
      destruct (pmapM_total
                  (fun r => v ← (s ← f (cell_of r src); Ok (Str s)); Ok (<[dst := v]> r))
                  (rows df)) as [rs Hrs].
      { eapply Forall_impl; [exact Hrange|]. intros r Hr.
        destruct (Hf (cell_of r src) Hr) as (label & -> & _). by eexists. }
      rewrite Hrs. by eexists. }
    destruct Hset as [df' Hdf'].
    exists df'. split; [exact Hdf'|].
    split; [by eapply extends_set_column|]. intros _. split.
    + apply FrameFacts.set_column_Ok in Hdf' as [-> _].
      apply AnalysisFacts.elem_of_add_label. by right.
    + apply FrameFacts.set_column_Ok in Hdf' as [_ Hrows].
      revert Hrange.
      induction Hrows as [|r r' l l' (v & Hv & ->) _ IH]; intros Hrange; constructor.
      * apply Forall_cons in Hrange as [Hr _].
        unfold banded. rewrite FrameFacts.cell_of_insert_eq.
        bind_inv Hv as label Hlabel. injection Hv as <-.
        destruct (Hf _ Hr) as (l0 & Hl0 & Hin).
        exists label. split; [reflexivity|congruence].
      * apply Forall_cons in Hrange as [_ Hrange]. by apply IH.
  - exists df. split; [reflexivity|]. split; [apply extends_refl|discriminate].
Qed.

Lemma optional_column_extends (b : bool) (df df' : DataFrame) (src dst : string)
    (f : cell -> pyresult string) :
  (if b then apply_to_column df src dst f else Ok df) = Ok df' ->
  dst ∈ scoring_columns -> extends scoring_columns df df'.
Proof.
  destruct b.
  - unfold apply_to_column. intros H Hdst. by eapply extends_set_column.
  - intros [= <-] _. apply extends_refl.
Qed.

Lemma add_scoring_data_extends (df df' : DataFrame) :
  add_scoring_data df = Ok df' -> extends scoring_columns df df'.
Proof.
  unfold Scoring.add_scoring_data. intros H.
  bind_inv H as df1 H1. bind_inv H as df2 H2. bind_inv H as df3 H3. cbv beta in H.
  apply optional_column_extends in H1; [|by apply (bool_decide_unpack _)].
  apply optional_column_extends in H2; [|by apply (bool_decide_unpack _)].
  apply optional_column_extends in H3; [|by apply (bool_decide_unpack _)].
  assert (H4 : extends scoring_columns df3 df').
  { destruct (forallb (has_column df3) _); [|injection H as <-; apply extends_refl].
    eapply extends_set_column; [exact H|]. by apply (bool_decide_unpack _). }
  eapply extends_trans; [|exact H4]. eapply extends_trans; [|exact H3].
  eapply extends_trans; [exact H1|exact H2].
Qed.

Lemma pmapM_Raise {A B} (f : A -> pyresult B) (l : list A) (e : exn) :
  pmapM f l = Raise e -> exists a, a ∈ l /\ f a = Raise e.
Proof.
  induction l as [|a l IH]; simpl; [discriminate|].
  destruct (f a) as [b|e'] eqn:Ha.
  - change (Ok b ≫= ?k) with (k b). cbv beta.
    destruct (pmapM f l) as [bs|e'']; [discriminate|].
    intros [= <-]. destruct (IH eq_refl) as (a' & Hin & Ha').
    exists a'. split; [apply elem_of_cons; by right|exact Ha'].
  - intros [= <-]. exists a. split; [apply elem_of_cons; by left|exact Ha].
Qed.

Lemma optional_raises (b : bool) (df : DataFrame) (src dst : string)
    (f : cell -> pyresult string) (e : exn) :
  bands f ->
  (if b then apply_to_column df src dst f else Ok df) = Raise e -> e = OverflowError.
Proof.
  intros [_ Hf]. destruct b; [|discriminate].
  unfold apply_to_column, set_column.
  destruct (pmapM _ (rows df)) as [rs|e'] eqn:Hrows; [discriminate|].
  intros [= <-]. apply pmapM_Raise in Hrows as (r & _ & Hr).
  destruct (f (cell_of r src)) as [label|e''] eqn:Hlabel; [discriminate|].
  injection Hr as <-. by eapply Hf.
Qed.

Lemma range_extends (df df' : DataFrame) (c : string) :
  extends scoring_columns df df' -> c ∉ scoring_columns ->
  Forall (fun r => in_float_range (cell_of r c)) (rows df) ->
  Forall (fun r => in_float_range (cell_of r c)) (rows df').
Proof.
  intros (_ & _ & Hrows) Hc.
  induction Hrows as [|r r' l l' Hr _ IH]; intros Hrange; constructor.
  - apply Forall_cons in Hrange as [H _]. unfold cell_of in *. by rewrite (Hr c Hc).
  - apply Forall_cons in Hrange as [_ H]. by apply IH.
Qed.

(** X14: [add_scoring_data] returns for every frame whose scores are in
    the range of [float], and raises nothing but the [OverflowError] of an
    integer score beyond it, as on a frame with the score [10 ^ 400]. When
    it returns it has kept every column and every row, changed no cell
    outside the three category columns and the exploitability score, and
    added no other column. A category column is written exactly for a score
    column that is present, and then holds one of the five band labels in
    every row. *)
Theorem add_scoring_data_returns (df : DataFrame) :
  (scores_in_range df ->
   exists df',
     add_scoring_data df = Ok df'
     /\ length (rows df') = length (rows df)
     /\ extends scoring_columns df df'
     /\ (has_column df "CVSS v3.0 Base Score" = true ->
         "CVSS Category" ∈ columns df' /\ Forall (banded "CVSS Category") (rows df'))
     /\ (has_column df "EPSS Score" = true ->
         "EPSS Category" ∈ columns df' /\ Forall (banded "EPSS Category") (rows df'))
     /\ (has_column df "VPR Score" = true ->
         "VPR Category" ∈ columns df' /\ Forall (banded "VPR Category") (rows df')))
  /\ (forall e, add_scoring_data df = Raise e ->
        e = OverflowError /\ ~ scores_in_range df)
  /\ Forall (fun c => add_scoring_data {| columns := [c]; rows := [{[ c := Int (10 ^ 400) ]}] |}
                      = Raise OverflowError) score_columns.
Proof.
  assert (Hreturns : scores_in_range df ->
   exists df',
     add_scoring_data df = Ok df'
     /\ length (rows df') = length (rows df)
     /\ extends scoring_columns df df'
     /\ (has_column df "CVSS v3.0 Base Score" = true ->
         "CVSS Category" ∈ columns df' /\ Forall (banded "CVSS Category") (rows df'))
     /\ (has_column df "EPSS Score" = true ->
         "EPSS Category" ∈ columns df' /\ Forall (banded "EPSS Category") (rows df'))
     /\ (has_column df "VPR Score" = true ->
         "VPR Category" ∈ columns df' /\ Forall (banded "VPR Category") (rows df'))).
  { intros Hrange. unfold scores_in_range, score_columns in Hrange.
    assert (Hcvss : Forall (fun r => in_float_range (cell_of r "CVSS v3.0 Base Score"))
                      (rows df)).
    { eapply Forall_impl; [exact Hrange|]. intros r Hr.
      by apply Forall_cons in Hr as [Hr _]. }
    assert (Hepss : Forall (fun r => in_float_range (cell_of r "EPSS Score")) (rows df)).
    { eapply Forall_impl; [exact Hrange|]. intros r Hr.
      apply Forall_cons in Hr as [_ Hr]. by apply Forall_cons in Hr as [Hr _]. }
    assert (Hvpr : Forall (fun r => in_float_range (cell_of r "VPR Score")) (rows df)).
    { eapply Forall_impl; [exact Hrange|]. intros r Hr.
      apply Forall_cons in Hr as [_ Hr]. apply Forall_cons in Hr as [_ Hr].
      by apply Forall_cons in Hr as [Hr _]. }
    clear Hrange.
    unfold Scoring.add_scoring_data.
    destruct (optional_category df "CVSS v3.0 Base Score" "CVSS Category"
                categorize_cvss_score categorize_cvss_score_bands)
      as (df1 & H1 & He1 & Hb1); [by apply (bool_decide_unpack _)|exact Hcvss|].
    destruct (optional_category df1 "EPSS Score" "EPSS Category"
                categorize_epss_score categorize_epss_score_bands)
      as (df2 & H2 & He2 & Hb2); [by apply (bool_decide_unpack _)| |].
    { eapply range_extends; [exact He1| |exact Hepss]. by apply (bool_decide_unpack _). }
    destruct (optional_category df2 "VPR Score" "VPR Category"
                categorize_vpr_score categorize_vpr_score_bands)
      as (df3 & H3 & He3 & Hb3); [by apply (bool_decide_unpack _)| |].
    { eapply range_extends; [exact (extends_trans _ _ _ _ He1 He2)| |exact Hvpr].
      by apply (bool_decide_unpack _). }
    assert (Hlast : exists df',
      (if forallb (has_column df3) ["EPSS Category"; "VPR Category"; "KEV Listed"]
       then set_column df3 "Exploitability Score"
              (fun r => Ok (Int (calculate_exploitability_score r)))
       else Ok df3) = Ok df'
      /\ extends scoring_columns df3 df'
      /\ forall k P, k <> "Exploitability Score" ->
           Forall (fun r => P (cell_of r k)) (rows df3) ->
           Forall (fun r => P (cell_of r k)) (rows df')).
    { destruct (forallb (has_column df3) _).
      - destruct (set_column_total df3 "Exploitability Score"
                    (fun r => Ok (Int (calculate_exploitability_score r)))) as [df' Hdf'].
        { intros r. by eexists. }
        exists df'. split; [exact Hdf'|]. split.
        + eapply extends_set_column; [exact Hdf'|]. by apply (bool_decide_unpack _).
        + intros k P Hk HP. eapply FrameFacts.set_column_keeps; [exact Hdf'| |exact HP].
          by intros <-.
      - exists df3. split; [reflexivity|]. split; [apply extends_refl|auto]. }
    destruct Hlast as (df' & H4 & He4 & Hkeep4).
    exists df'.
    assert (Hsame1 : has_column df1 "EPSS Score" = has_column df "EPSS Score").
    { destruct He1 as (Ha & Hb & _). unfold has_column.
      apply bool_decide_ext. split; [|apply Ha].
      intros Hc. apply Hb in Hc as [Hc|Hc]; [exact Hc|].
      exfalso. revert Hc. apply (bool_decide_unpack _). vm_compute. reflexivity. }
    assert (Hsame2 : has_column df2 "VPR Score" = has_column df "VPR Score").
    { pose proof (extends_trans _ _ _ _ He1 He2) as (Ha & Hb & _). unfold has_column.
      apply bool_decide_ext. split; [|apply Ha].
      intros Hc. apply Hb in Hc as [Hc|Hc]; [exact Hc|].
      exfalso. revert Hc. apply (bool_decide_unpack _). vm_compute. reflexivity. }
    pose proof (extends_trans _ _ _ _ (extends_trans _ _ _ _
                  (extends_trans _ _ _ _ He1 He2) He3) He4) as Hext.
    split.
    { rewrite H1. change (Ok df1 ≫= ?k) with (k df1). cbv beta.
      rewrite H2. change (Ok df2 ≫= ?k) with (k df2). cbv beta.
      rewrite H3. change (Ok df3 ≫= ?k) with (k df3). cbv beta.
      exact H4. }
    split.
    { destruct Hext as (_ & _ & Hrows). symmetry. by eapply Forall2_length. }
    split; [exact Hext|].
    split; [|split].
    - intros Hc. destruct (Hb1 Hc) as [Hcol Hrows].
      split.
      + destruct (extends_trans _ _ _ _ (extends_trans _ _ _ _ He2 He3) He4) as [Ha _].
        by apply Ha.
      + apply (Hkeep4 "CVSS Category"
                 (fun c => exists label, c = Str label /\ label ∈ band_labels));
          [discriminate|].
        apply (CoreFacts.optional_column_keeps _ _ _ _ _ "CVSS Category" _
                 (fun c => exists label, c = Str label /\ label ∈ band_labels) H3);
          [discriminate|].
        apply (CoreFacts.optional_column_keeps _ _ _ _ _ "CVSS Category" _
                 (fun c => exists label, c = Str label /\ label ∈ band_labels) H2);
          [discriminate|].
        exact Hrows.
    - intros Hc. rewrite <- Hsame1 in Hc. destruct (Hb2 Hc) as [Hcol Hrows].
      split.
      + destruct (extends_trans _ _ _ _ He3 He4) as [Ha _]. by apply Ha.
      + apply (Hkeep4 "EPSS Category"
                 (fun c => exists label, c = Str label /\ label ∈ band_labels));
          [discriminate|].
        apply (CoreFacts.optional_column_keeps _ _ _ _ _ "EPSS Category" _
                 (fun c => exists label, c = Str label /\ label ∈ band_labels) H3);
          [discriminate|].
        exact Hrows.
    - intros Hc. rewrite <- Hsame2 in Hc. destruct (Hb3 Hc) as [Hcol Hrows].
      split.
      + destruct He4 as [Ha _]. by apply Ha.
      + apply (Hkeep4 "VPR Category"
                 (fun c => exists label, c = Str label /\ label ∈ band_labels));
          [discriminate|].
        exact Hrows. }
  split; [exact Hreturns|]. split.
  - intros e He. split.
    + revert He. unfold Scoring.add_scoring_data.
      destruct (if has_column df "CVSS v3.0 Base Score" then _ else _) as [df1|e1] eqn:H1.
      2:{ intros [= <-]. eapply optional_raises; [|exact H1].
          exact categorize_cvss_score_bands. }
      change (Ok df1 ≫= ?k) with (k df1). cbv beta.
      destruct (if has_column df1 "EPSS Score" then _ else _) as [df2|e2] eqn:H2.
      2:{ intros [= <-]. eapply optional_raises; [|exact H2].
          exact categorize_epss_score_bands. }
      change (Ok df2 ≫= ?k) with (k df2). cbv beta.
      destruct (if has_column df2 "VPR Score" then _ else _) as [df3|e3] eqn:H3.
      2:{ intros [= <-]. eapply optional_raises; [|exact H3].
          exact categorize_vpr_score_bands. }
      change (Ok df3 ≫= ?k) with (k df3). cbv beta.
      destruct (forallb (has_column df3) _); [|discriminate].
      destruct (set_column_total df3 "Exploitability Score"
                  (fun r => Ok (Int (calculate_exploitability_score r)))) as [df' Hdf'].
      { intros r. by eexists. }
      rewrite Hdf'. discriminate.
    + intros Hrange. destruct (Hreturns Hrange) as (df' & Hok & _). congruence.
  - repeat constructor; vm_compute; reflexivity.
Qed.

End ScoringColumns.

Lemma spec_weight_range (label : option cell) : 0 <= ScoringFacts.spec_weight label <= 4.
Proof.
  unfold ScoringFacts.spec_weight. destruct label as [[|s|f|z]|]; try lia.
  repeat (destruct (String.eqb s _); [lia|]). lia.
Qed.

Lemma exploitability_score_sum (r : row) :
  calculate_exploitability_score r
    = ScoringFacts.spec_weight (r !! "EPSS Category")
      + ScoringFacts.spec_weight (r !! "VPR Category")
      + ScoringFacts.spec_weight (r !! "KEV Listed").
Proof.
  unfold calculate_exploitability_score, row_get.
  rewrite !ScoringFacts.dict_get_priority by reflexivity. reflexivity.
Qed.

Section ExploitabilityColumn.

Variable float_of_str : string -> option float.

Lemma optional_column_grows (b : bool) (df df' : DataFrame) (src dst x : string)
    (f : cell -> pyresult string) :
  (if b then apply_to_column df src dst f else Ok df) = Ok df' ->
  x ∈ columns df \/ (b = true /\ x = dst) -> x ∈ columns df'.
Proof.
  destruct b.
  - unfold apply_to_column. intros H. apply FrameFacts.set_column_Ok in H as [-> _].
    rewrite AnalysisFacts.elem_of_add_label. tauto.
  - intros [= <-] [H | [[=] _]]. exact H.
Qed.

(** X15: the exploitability score lies between 0 and 12. When the frame
    given to [add_scoring_data] has a "KEV Listed" column and, for EPSS
    and for VPR, the score or the category column, the result has the
    column "Exploitability Score", holding in every row the score of that
    row as computed from its category and KEV cells. *)
Theorem exploitability_score_column (df df' : DataFrame) :
  Scoring.add_scoring_data float_of_str df = Ok df' ->
  "KEV Listed" ∈ columns df ->
  "EPSS Score" ∈ columns df \/ "EPSS Category" ∈ columns df ->
  "VPR Score" ∈ columns df \/ "VPR Category" ∈ columns df ->
  "Exploitability Score" ∈ columns df'
  /\ Forall (fun r' => cell_of r' "Exploitability Score"
                         = Int (calculate_exploitability_score r')
                       /\ 0 <= calculate_exploitability_score r' <= 12)
       (rows df')
  /\ forall r, 0 <= calculate_exploitability_score r <= 12.
Proof.
  intros H Hkev Hepss Hvpr.
  assert (Hrange : forall r, 0 <= calculate_exploitability_score r <= 12).
  { intros r. rewrite exploitability_score_sum.
    pose proof (spec_weight_range (r !! "EPSS Category")).
    pose proof (spec_weight_range (r !! "VPR Category")).
    pose proof (spec_weight_range (r !! "KEV Listed")). lia. }
  unfold Scoring.add_scoring_data in H.
  bind_inv H as df1 H1. bind_inv H as df2 H2. bind_inv H as df3 H3. cbv beta in H.
  assert (Hcols : forallb (has_column df3) ["EPSS Category"; "VPR Category"; "KEV Listed"]
                  = true).
  { cbn [forallb]. rewrite !andb_true_iff, !AnalysisFacts.has_column_true.
    split; [|split; [|split; [|reflexivity]]].
    - apply (optional_column_grows _ _ _ _ _ _ _ H3). left.
      apply (optional_column_grows _ _ _ _ _ _ _ H2).
      destruct (has_column df1 "EPSS Score") eqn:Hs; [right; by split|]. left.
      apply (optional_column_grows _ _ _ _ _ _ _ H1). left.
      destruct Hepss as [Hc|Hc]; [|exact Hc]. exfalso.
      apply bool_decide_eq_false in Hs. apply Hs.
      apply (optional_column_grows _ _ _ _ _ _ _ H1). by left.
    - apply (optional_column_grows _ _ _ _ _ _ _ H3).
      destruct (has_column df2 "VPR Score") eqn:Hs; [right; by split|]. left.
      apply (optional_column_grows _ _ _ _ _ _ _ H2). left.
      apply (optional_column_grows _ _ _ _ _ _ _ H1). left.
      destruct Hvpr as [Hc|Hc]; [|exact Hc]. exfalso.
      apply bool_decide_eq_false in Hs. apply Hs.
      apply (optional_column_grows _ _ _ _ _ _ _ H2). left.
      apply (optional_column_grows _ _ _ _ _ _ _ H1). by left.
    - apply (optional_column_grows _ _ _ _ _ _ _ H3). left.
      apply (optional_column_grows _ _ _ _ _ _ _ H2). left.
      apply (optional_column_grows _ _ _ _ _ _ _ H1). by left. }
  rewrite Hcols in H.
  apply FrameFacts.set_column_Ok in H as [Hcols' Hrows].
  split; [rewrite Hcols'; apply AnalysisFacts.elem_of_add_label; by right|].
  split; [|exact Hrange].
  induction Hrows as [|r r' l l' (v & Hv & ->) _ IH]; constructor; [|exact IH].
  injection Hv as <-. rewrite FrameFacts.cell_of_insert_eq.
  split; [|apply Hrange].
  unfold calculate_exploitability_score, row_get.
  rewrite !lookup_insert_ne by discriminate. reflexivity.
Qed.

End ExploitabilityColumn.

End ScoringColumns.

(** ** Enrichment and the records handed to the reporting layer *)

Module EnrichmentFacts.

Import Analysis.

(** What cleaning makes of a cell: a float that is a number stays, a NaN
    or an infinity becomes [None], and a cell that is no float is left as
    it is. *)
Definition cleaned (c c' : cell) : Prop :=
  (forall f, c = Num f ->
     PrimFloat.is_nan f = false ->
     (f =? infinity)%float = false -> (f =? neg_infinity)%float = false ->
     c' = Num f)
  /\ (forall f, c = Num f ->
        PrimFloat.is_nan f = true
        \/ (f =? infinity)%float = true \/ (f =? neg_infinity)%float = true ->
        c' = Null)
  /\ ((forall f, c <> Num f) -> c' = c).

Lemma clean_cell_cleaned (c : cell) : cleaned c (clean_cell c).
Proof.
  unfold cleaned. split; [|split].
  - intros f -> H1 H2 H3. simpl. by rewrite H1, H2, H3.
  - intros f -> H. simpl.
    destruct (PrimFloat.is_nan f), (f =? infinity)%float, (f =? neg_infinity)%float;
      try reflexivity.
    destruct H as [H | [H | H]]; discriminate.
  - intros H. destruct c as [|s|f|z]; try reflexivity. by destruct (H f).
Qed.

(** X18: the records [clean_for_json] makes of a frame. There is one
    record per row, in the order of the rows; its keys are the columns of
    the frame and no other, a cell the row lacks reading as a missing
    value. Under each column the record holds the cell of the row: as it
    is when it is a float that is a number, or no float at all, and [None]
    in place of a NaN or an infinity, so that no record holds either. *)
Theorem clean_for_json_records (df : DataFrame) :
  length (clean_for_json df) = length (rows df)
  /\ Forall2 (fun (r record : row) =>
                forall c,
                  (c ∉ columns df -> record !! c = None)
                  /\ (c ∈ columns df ->
                      exists c', record !! c = Some c' /\ cleaned (cell_of r c) c'))
       (rows df) (clean_for_json df)
  /\ (forall record c f, record ∈ clean_for_json df -> record !! c = Some (Num f) ->
        PrimFloat.is_nan f = false
        /\ (f =? infinity)%float = false /\ (f =? neg_infinity)%float = false).
Proof.
  assert (Hrecords : clean_for_json df
                     = AnalysisFacts.cleaned_record (columns df) <$> rows df).
  { unfold clean_for_json, to_records. cbn [rows columns].
    rewrite <- list_fmap_compose. reflexivity. }
  assert (Hclean : forall c f, clean_cell c = Num f ->
            PrimFloat.is_nan f = false
            /\ (f =? infinity)%float = false /\ (f =? neg_infinity)%float = false).
  { intros [|s|x|z] f; simpl; try discriminate.
    destruct (PrimFloat.is_nan x) eqn:H1; [discriminate|].
    destruct (x =? infinity)%float eqn:H2; [discriminate|].
    destruct (x =? neg_infinity)%float eqn:H3; [discriminate|].
    simpl. intros [= <-]. auto. }
  split; [by rewrite Hrecords, length_fmap|].
  split.
  - rewrite Hrecords. apply Forall2_fmap_r, Forall_Forall2_diag, Forall_forall.
    intros r _ c. rewrite AnalysisFacts.lookup_cleaned_record. split.
    + intros Hc. by rewrite bool_decide_eq_false_2.
    + intros Hc. rewrite bool_decide_eq_true_2 by exact Hc.
      eexists. split; [reflexivity|apply clean_cell_cleaned].
  - intros record c f Hin Hc. rewrite Hrecords in Hin.
    apply list_elem_of_fmap in Hin as (r & -> & _).
    rewrite AnalysisFacts.lookup_cleaned_record in Hc.
    destruct (bool_decide (c ∈ columns df)); [|discriminate].
    injection Hc as Hc. by apply (Hclean (cell_of r c)).
Qed.

(** The columns of the frame that the common-critical view carries over,
    and the columns a record of the view may have. *)
Definition carried_columns : list string :=
  ["Plugin ID"; "CVE"; "Host"; "Name"; "Description"; "Plugin Output"; "Risk";
   "CVSS v3.0 Base Score"; "CVSS Category";
   "EPSS Score"; "EPSS Category";
   "VPR Score"; "VPR Category";
   "KEV Listed"].

Definition view_columns : list string := carried_columns ++ ["Combined Priority"].

Lemma pmapM_keyed {K} (f : row -> pyresult (K * row)) (l : list row)
    (keyed : list (K * row)) :
  (forall r kr, f r = Ok kr -> kr.2 = r) ->
  pmapM f l = Ok keyed -> snd <$> keyed = l.
Proof.
  intros Hf H. apply pmapM_Ok in H.
  induction H as [|r kr l keyed Hkr _ IH]; [reflexivity|].
  rewrite fmap_cons, IH. f_equal. by apply Hf.
Qed.

Lemma sort_values_permutation (df df' : DataFrame) (k1 k2 : string) :
  sort_values df [k1; k2] [false; false] = Ok df' ->
  rows df' ≡ₚ rows df /\ columns df' = columns df.
Proof.
  unfold sort_values. cbn [length Nat.eqb negb]. intros H.
  bind_inv H as keyed Hkeyed. injection H as <-. cbn [rows columns].
  split; [|reflexivity].
  assert (Hsnd : snd <$> keyed = rows df).
  { eapply pmapM_keyed; [|exact Hkeyed].
    intros r kr Hkr. cbv beta in Hkr.
    bind_inv Hkr as a Ha. bind_inv Hkr as b Hb. by injection Hkr as <-. }
  rewrite <- Hsnd. apply fmap_Permutation. apply SortFacts.stable_sort_perm.
Qed.

(** A row that qualifies for the common-critical view: Critical or High
    in the three schemes, and KEV listed. *)
Definition qualifies (r : row) : Prop :=
  (exists cvss, r !! "CVSS Category" = Some (Str cvss) /\ AnalysisFacts.critical_or_high cvss)
  /\ (exists epss, r !! "EPSS Category" = Some (Str epss)
                   /\ AnalysisFacts.critical_or_high epss)
  /\ (exists vpr, r !! "VPR Category" = Some (Str vpr) /\ AnalysisFacts.critical_or_high vpr)
  /\ r !! "KEV Listed" = Some (Str "Yes").

Lemma isin_critical_or_high (r : row) (c : string) :
  isin (cell_of r c) ["Critical"; "High"] = true
  <-> exists label, r !! c = Some (Str label) /\ AnalysisFacts.critical_or_high label.
Proof.
  unfold cell_of, AnalysisFacts.critical_or_high. split.
  - destruct (r !! c) as [[|s|f|z]|]; simpl; try discriminate.
    intros H. apply bool_decide_eq_true in H. exists s. split; [reflexivity|].
    apply elem_of_cons in H as [-> | H]; [by left|].
    apply list_elem_of_singleton in H as ->. by right.
  - intros (label & -> & [-> | ->]); reflexivity.
Qed.

Lemma is_common_critical_spec (r : row) : is_common_critical r = true <-> qualifies r.
Proof.
  unfold is_common_critical, qualifies.
  rewrite !andb_true_iff, !isin_critical_or_high.
  assert (Hkev : cell_is (cell_of r "KEV Listed") "Yes" = true
                 <-> r !! "KEV Listed" = Some (Str "Yes")).
  { unfold cell_is, cell_of. destruct (r !! "KEV Listed") as [[|s|f|z]|]; simpl;
      try (split; [discriminate|]; intros [=]).
    - rewrite String.eqb_eq. split; [by intros ->|by intros [= ->]]. }
  rewrite Hkev. tauto.
Qed.

(** X19: the common-critical view is complete. Without one of the four
    columns it needs the view is empty. Otherwise the rows of the frame
    fall into those that qualify (Critical or High in the three schemes and
    KEV listed) and those that do not, and the view has one record for
    each row that qualifies, in some order. The keys of a record are the
    columns of the frame among the fourteen the view carries over, and
    "Combined Priority"; the three helper columns of the priority
    computation are not exported. Under a carried column the record holds
    the cell of its row, a NaN or an infinity as [None]; under "Combined
    Priority" it holds twice the CVSS band value plus the EPSS and the VPR
    band values. *)
Theorem common_critical_is_complete (df : DataFrame) (out : list row) :
  generate_common_critical df = Ok out ->
  (forallb (has_column df) ["CVSS Category"; "EPSS Category"; "VPR Category"; "KEV Listed"]
     = false -> out = [])
  /\ (forallb (has_column df) ["CVSS Category"; "EPSS Category"; "VPR Category"; "KEV Listed"]
        = true ->
      exists selected others,
        rows df ≡ₚ selected ++ others
        /\ Forall qualifies selected
        /\ Forall (fun r => ~ qualifies r) others
        /\ Forall2 (fun (r record : row) =>
                      (forall c, is_Some (record !! c)
                                 <-> c ∈ view_columns
                                     /\ (c ∈ columns df \/ c = "Combined Priority"))
                      /\ (forall c, c ∈ columns df -> c ∈ carried_columns ->
                            exists c', record !! c = Some c'
                                       /\ cleaned (cell_of r c) c')
                      /\ (forall cvss epss vpr,
                            r !! "CVSS Category" = Some (Str cvss) ->
                            r !! "EPSS Category" = Some (Str epss) ->
                            r !! "VPR Category" = Some (Str vpr) ->
                            record !! "Combined Priority"
                              = Some (Int (2 * AnalysisFacts.spec_band_value cvss
                                           + AnalysisFacts.spec_band_value epss
                                           + AnalysisFacts.spec_band_value vpr))))
             selected out).
Proof.
  unfold generate_common_critical.
  destruct (forallb (has_column df) _) eqn:Hreq; cbn [negb];
    [|intros [= <-]; split; [reflexivity|discriminate]].
  intros H. split; [discriminate|]. intros _. revert H.
  destruct (filter_selects is_common_critical qualifies (rows df) is_common_critical_spec)
    as (others & Hsplit & _ & Hqual & Hothers).
  destruct (rows (filter_rows is_common_critical df)) as [|r0 sel] eqn:Hsel.
  { intros [= <-]. cbn [rows filter_rows] in Hsel. rewrite Hsel in Hsplit.
    exists [], others. split; [exact Hsplit|]. split; [constructor|].
    split; [exact Hothers|constructor]. }
  cbv zeta.
  match goal with |- context [List.filter (has_column ?d) ?l] =>
    set (cc4 := d); change l with view_columns end.
  set (avail := List.filter (has_column cc4) view_columns).
  intros H. bind_inv H as sorted Hsorted. injection H as <-.
  destruct (has_column {| columns := avail; rows := rows cc4 |} "CVSS v3.0 Base Score")
    eqn:Hraw; [|discriminate].
  apply sort_values_permutation in Hsorted as [Hperm Hcols].
  cbn [rows columns] in Hperm, Hcols.
  assert (Hrows4 : rows cc4
                   = AnalysisFacts.enrich <$> List.filter is_common_critical (rows df)).
  { unfold cc4, with_column. cbn [rows filter_rows].
    rewrite <- !list_fmap_compose. reflexivity. }
  rewrite Hrows4 in Hperm.
  change (rows sorted
          ≡ₚ map AnalysisFacts.enrich (List.filter is_common_critical (rows df)))
    in Hperm.
  apply Permutation_map_inv in Hperm as (selected & Hrows & Hsel').
  exists selected, others.
  split; [by rewrite <- Hsel'|].
  assert (Hselected : Forall qualifies selected) by (by rewrite <- Hsel').
  split; [exact Hselected|]. split; [exact Hothers|].
  assert (Hout : clean_for_json sorted
                 = (fun r => AnalysisFacts.cleaned_record avail (AnalysisFacts.enrich r))
                     <$> selected).
  { unfold clean_for_json, to_records. cbn [rows columns].
    change (map AnalysisFacts.enrich selected) with (AnalysisFacts.enrich <$> selected)
      in Hrows.
    rewrite Hrows, Hcols, <- !list_fmap_compose. reflexivity. }
  rewrite Hout.
  assert (Havail : forall c, c ∈ avail
                     <-> c ∈ view_columns /\ (c ∈ columns df \/ c = "Combined Priority")).
  { intros c. unfold avail.
    rewrite list_elem_of_In, filter_In, <- list_elem_of_In, AnalysisFacts.has_column_true.
    unfold cc4, with_column. cbn [columns filter_rows].
    rewrite !AnalysisFacts.elem_of_add_label.
    split; [|tauto]. intros [Hview [[[[Hc | ->] | ->] | ->] | ->]]; auto.
    all: exfalso; revert Hview; apply (bool_decide_unpack _); vm_compute; reflexivity. }
  apply Forall2_fmap_r, Forall_Forall2_diag, Forall_forall.
  intros r Hin. rewrite Forall_forall in Hselected. specialize (Hselected r Hin).
  split; [|split].
  - intros c. rewrite AnalysisFacts.lookup_cleaned_record, <- Havail.
    case_bool_decide as Hc; split; try tauto; try (by intros _; eexists).
    by intros [? [=]].
  - intros c Hc Hview. rewrite AnalysisFacts.lookup_cleaned_record.
    assert (Hc' : c ∈ avail).
    { apply Havail. split; [apply elem_of_app; by left|by left]. }
    rewrite (bool_decide_eq_true_2 _ Hc').
    eexists. split; [reflexivity|].
    rewrite AnalysisFacts.cell_of_enrich; [apply clean_cell_cleaned|].
    intros Hhelper.
    assert (Hnot : Forall (fun h => h ∉ carried_columns)
                     ["CVSS Value"; "EPSS Value"; "VPR Value"; "Combined Priority"]).
    { repeat constructor; by apply (bool_decide_unpack _). }
    rewrite Forall_forall in Hnot. by apply (Hnot c Hhelper).
  - intros cvss epss vpr Hcvss Hepss Hvpr.
    rewrite AnalysisFacts.lookup_cleaned_record.
    assert (Hc' : "Combined Priority" ∈ avail).
    { apply Havail. split; [by apply (bool_decide_unpack _)|by right]. }
    rewrite (bool_decide_eq_true_2 _ Hc').
    apply is_common_critical_spec, AnalysisFacts.enrich_spec in Hselected
      as (cvss0 & epss0 & vpr0 & Hc0 & _ & He0 & _ & Hv0 & _ & _ & Hprio).
    unfold AnalysisFacts.enrich in Hc0, He0, Hv0.
    rewrite !lookup_insert_ne in Hc0, He0, Hv0 by discriminate.
    assert (cvss0 = cvss) as -> by congruence.
    assert (epss0 = epss) as -> by congruence.
    assert (vpr0 = vpr) as -> by congruence.
    unfold cell_of. rewrite Hprio. reflexivity.
Qed.

End EnrichmentFacts.

Module EnrichmentRows.

Import Analysis.

Definition enrichment_columns : list string :=
  ["CVE Published Date"; "Days After Discovery"; "KEV Listed"; "Patch Status"].

Section EnrichmentRows.

Variable str_of_float : float -> string.
Variable str_of_int : Z -> string.
Variable days_since : string -> pyresult Z.
Variable generate_risk_counts : DataFrame -> pyresult (list row).
Variable generate_top_cves : DataFrame -> pyresult (list row).
Variable generate_ip_vuln_counts : DataFrame -> pyresult (list row).
Variable generate_patch_summary : DataFrame -> pyresult (list row).
Variable generate_bucket_summary : DataFrame -> pyresult (list row).
Variable generate_seol_summary : DataFrame -> pyresult (list row).
Variable generate_scoring_summary : DataFrame -> pyresult (list row).
Variable generate_vulnerability_insights : DataFrame -> pyresult (list row).

Abbreviation analyze_vulnerability_data :=
  (Analysis.analyze_vulnerability_data str_of_float str_of_int days_since
     generate_risk_counts generate_top_cves generate_ip_vuln_counts
     generate_patch_summary generate_bucket_summary generate_seol_summary
     generate_scoring_summary generate_vulnerability_insights).

(** What enrichment does to one row, read off its CVE cell. *)
Definition enriched (kev_set : gset string) (cache : cve_cache) (r r' : row) : Prop :=
  (forall c, c ∉ enrichment_columns -> r' !! c = r !! c)
  /\ (pd_isna (cell_of r "CVE") = true ->
      cell_of r' "KEV Listed" = Str "No"
      /\ cell_of r' "Patch Status" = Str "Unknown"
      /\ cell_of r' "CVE Published Date" = Null
      /\ cell_of r' "Days After Discovery" = Null)
  /\ (forall id, cell_of r "CVE" = Str id ->
        cell_of r' "KEV Listed" = Str (if bool_decide (id ∈ kev_set) then "Yes" else "No")
        /\ cell_of r' "Patch Status"
           = match cache !! id with
             | Some e => status (patch_info e)
             | None => Str "Unknown"
             end
        /\ cell_of r' "CVE Published Date"
           = match cache !! id with
             | Some e => date_obj e
             | None => Null
             end).

(** analysis.py, lines 29-46: the cells written, as the code computes
    them from the CVE cell of the row. *)
Lemma analyze_rows (df processed check_needed analyzed : DataFrame)
    (kev_set : gset string) (cache : cve_cache) (res : Analysis.results) :
  analyze_vulnerability_data df kev_set cache
    = Ok (processed, check_needed, analyzed, res) ->
  Forall2 (fun r r' : row =>
             (forall c, c ∉ enrichment_columns -> r' !! c = r !! c)
             /\ cell_of r' "KEV Listed"
                = kev_listed str_of_float str_of_int kev_set (cell_of r "CVE")
             /\ cell_of r' "Patch Status" = patch_status cache (cell_of r "CVE")
             /\ cell_of r' "CVE Published Date" = published_date cache (cell_of r "CVE")
             /\ days_after_discovery days_since (published_date cache (cell_of r "CVE"))
                = Ok (cell_of r' "Days After Discovery"))
    (rows df) (rows processed).
Proof.
  unfold Analysis.analyze_vulnerability_data. intros H.
  bind_inv H as u1 Hcve. bind_inv H as df1 Hdays. bind_inv H as u2 Hrisk.
  bind_inv H as v1 Hv1. bind_inv H as v2 Hv2. bind_inv H as v3 Hv3.
  bind_inv H as v4 Hv4. bind_inv H as v5 Hv5. bind_inv H as v6 Hv6.
  bind_inv H as v7 Hv7. bind_inv H as v8 Hv8. bind_inv H as v9 Hv9.
  injection H as <- _ _ _.
  apply FrameFacts.set_column_Ok in Hdays as [_ Hrows].
  cbn [rows with_column] in Hrows |- *.
  apply Forall2_fmap_l in Hrows.
  apply Forall2_fmap_r, Forall2_fmap_r.
  eapply Forall2_impl; [exact Hrows|].
  intros r r1 (v & Hv & ->). unfold compose. cbv beta.
  set (cve := cell_of r "CVE") in *.
  assert (Hcve1 : forall x, cell_of (<["Days After Discovery" := x]>
                              (<["CVE Published Date" := published_date cache cve]> r))
                              "CVE" = cve).
  { intros x. rewrite !FrameFacts.cell_of_insert_ne by discriminate. reflexivity. }
  assert (Hcve2 : forall x y, cell_of (<["KEV Listed" := y]>
                                (<["Days After Discovery" := x]>
                                   (<["CVE Published Date" := published_date cache cve]> r)))
                                "CVE" = cve).
  { intros x y. rewrite !FrameFacts.cell_of_insert_ne by discriminate. reflexivity. }
  rewrite Hcve2, Hcve1.
  rewrite FrameFacts.cell_of_insert_eq in Hv.
  match goal with |- context [?row !! _ = r !! _] => set (r' := row) end.
  split; [|split; [|split; [|split]]].
  - intros c Hc. unfold enrichment_columns in Hc.
    rewrite !elem_of_cons, elem_of_nil in Hc. unfold r'.
    rewrite !lookup_insert_ne by (intros <-; apply Hc; auto 10). reflexivity.
  - unfold r', cell_of. rewrite lookup_insert_ne by discriminate.
    by rewrite lookup_insert_eq.
  - unfold r', cell_of. by rewrite lookup_insert_eq.
  - unfold r', cell_of. rewrite !lookup_insert_ne by discriminate.
    by rewrite lookup_insert_eq.
  - rewrite Hv. f_equal. unfold r', cell_of. rewrite !lookup_insert_ne by discriminate.
    by rewrite lookup_insert_eq.
Qed.

(** analysis.py, lines 48-52: the two frames split off the enriched one. *)
Lemma analyze_split (df processed check_needed analyzed : DataFrame)
    (kev_set : gset string) (cache : cve_cache) (res : Analysis.results) :
  analyze_vulnerability_data df kev_set cache
    = Ok (processed, check_needed, analyzed, res) ->
  let filtered :=
    List.filter (fun r => negb (isin (cell_of r "Risk") ["None"; "Informational"]))
      (rows processed) in
  rows check_needed
    = List.filter (fun r => cell_is (cell_of r "Risk") "Check Needed") filtered
  /\ rows analyzed
     = List.filter (fun r => negb (cell_is (cell_of r "Risk") "Check Needed")) filtered.
Proof.
  unfold Analysis.analyze_vulnerability_data. intros H.
  bind_inv H as u1 Hcve. bind_inv H as df1 Hdays. bind_inv H as u2 Hrisk.
  bind_inv H as v1 Hv1. bind_inv H as v2 Hv2. bind_inv H as v3 Hv3.
  bind_inv H as v4 Hv4. bind_inv H as v5 Hv5. bind_inv H as v6 Hv6.
  bind_inv H as v7 Hv7. bind_inv H as v8 Hv8. bind_inv H as v9 Hv9.
  injection H as <- <- <- _. split; reflexivity.
Qed.

(** X16: the enriched frame row by row. Enrichment keeps every row, in
    order, and every cell outside the four columns it writes. A row
    without CVE id is not KEV listed, has the patch status "Unknown" and
    neither a publication date nor an age. For a row whose CVE id is a
    text, "KEV Listed" is "Yes" exactly when the id is in the KEV set and
    "No" otherwise, and the patch status and the publication date are
    those of the cache entry of the id, "Unknown" and none when the cache
    has no entry for it. *)
Theorem enrichment_row_by_row (df processed check_needed analyzed : DataFrame)
    (kev_set : gset string) (cache : cve_cache) (res : Analysis.results) :
  analyze_vulnerability_data df kev_set cache
    = Ok (processed, check_needed, analyzed, res) ->
  Forall2 (enriched kev_set cache) (rows df) (rows processed).
Proof.
  intros H. apply analyze_rows in H.
  eapply Forall2_impl; [exact H|].
  intros r r' (Hothers & Hkev & Hpatch & Hdate & Hage).
  unfold enriched. rewrite Hkev, Hpatch, Hdate.
  split; [exact Hothers|split].
  - intros Hna.
    unfold kev_listed, patch_status, published_date in Hage |- *.
    rewrite Hna in Hage. rewrite Hna. cbn [negb andb] in Hage |- *.
    split; [reflexivity|]. split; [reflexivity|]. split; [reflexivity|].
    by injection Hage as <-.
  - intros id Hid.
    unfold kev_listed, patch_status, published_date, cache_get. rewrite Hid.
    cbn [pd_isna negb andb py_str].
    split; [by destruct (bool_decide (id ∈ kev_set))|]. split; reflexivity.
Qed.

End EnrichmentRows.

End EnrichmentRows.

(** ** The pipeline: distinct ids, lookups, partition of the result *)

Module PipelineFacts.

Lemma filter_all {A} (p : A -> bool) (l : list A) :
  Forall (fun x => p x = true) l -> List.filter p l = l.
Proof.
  induction 1 as [|x l Hx _ IH]; simpl; [reflexivity|]. by rewrite Hx, IH.
Qed.

Lemma filter_split {A} (p : A -> bool) (l : list A) :
  List.filter p l ++ List.filter (fun x => negb (p x)) l ≡ₚ l.
Proof.
  induction l as [|x l IH]; simpl; [reflexivity|].
  destruct (p x); simpl.
  - by rewrite IH.
  - rewrite <- Permutation_middle. by rewrite IH.
Qed.

Lemma add_unique_spec (seen : list string) (x id : string) :
  id ∈ Core.add_unique seen x <-> id ∈ seen \/ id = x.
Proof.
  unfold Core.add_unique. case_bool_decide as Hx.
  - split; [by left|]. by intros [H | ->].
  - rewrite elem_of_app, list_elem_of_singleton. reflexivity.
Qed.

Lemma add_unique_NoDup (seen : list string) (x : string) :
  NoDup seen -> NoDup (Core.add_unique seen x).
Proof.
  intros Hseen. unfold Core.add_unique. case_bool_decide as Hx; [exact Hseen|].
  apply NoDup_app. split; [exact Hseen|]. split; [|apply NoDup_singleton].
  intros y Hy Hy'. apply list_elem_of_singleton in Hy'. by subst y.
Qed.

Lemma dropna_unique_spec (cells : list cell) (seen ids : list string) :
  Core.dropna_unique cells seen = Ok ids ->
  NoDup seen ->
  NoDup ids /\ forall id, id ∈ ids <-> id ∈ seen \/ Str id ∈ cells.
Proof.
  revert seen. induction cells as [|c cells IH]; simpl; intros seen H Hseen.
  - injection H as <-. split; [exact Hseen|]. intros id.
    rewrite elem_of_nil. tauto.
  - destruct (pd_isna c) eqn:Hna.
    + destruct (IH _ H Hseen) as [Hnd Hin]. split; [exact Hnd|].
      intros id. rewrite Hin, elem_of_cons.
      split; [tauto|]. intros [?|[Hc|?]]; [tauto|subst c; discriminate Hna|tauto].
    + destruct c as [|s|f|z]; try discriminate.
      destruct (IH _ H (add_unique_NoDup _ s Hseen)) as [Hnd Hin].
      split; [exact Hnd|]. intros id.
      rewrite Hin, add_unique_spec, elem_of_cons.
      split; [intros [[?|Heq]|?]; subst; auto|].
      intros [?|[Heq|?]]; [auto| |auto]. injection Heq as Heq. subst. auto.
Qed.

(** X22: the CVE ids to look up. From the cells of the CVE column, texts
    and missing values, [dropna().unique()] yields every id that occurs,
    once, and nothing else; a missing value yields no id. *)
Theorem unique_cve_ids (cells : list cell) :
  (Forall (fun c => pd_isna c = true \/ exists id, c = Str id) cells ->
   exists ids, Core.dropna_unique cells [] = Ok ids)
  /\ (forall ids, Core.dropna_unique cells [] = Ok ids ->
        NoDup ids /\ forall id, id ∈ ids <-> Str id ∈ cells)
  /\ Core.dropna_unique (Null :: cells) [] = Core.dropna_unique cells [].
Proof.
  split; [|split; [|reflexivity]].
  - intros Hcells. generalize (@nil string).
    induction Hcells as [|c rest Hc _ IH]; intros seen; simpl.
    + by eexists.
    + destruct Hc as [-> | [id ->]]; [apply IH|]. cbn [pd_isna]. apply IH.
  - intros ids H. destruct (dropna_unique_spec _ _ _ H (NoDup_nil_2)) as [Hnd Hin].
    split; [exact Hnd|]. intros id. rewrite Hin, elem_of_nil. tauto.
Qed.

Section PipelineFacts.

Variable float_of_str : string -> option float.
Variable NAME_MAPPINGS : list (string * list string).
Variable BUCKET_MAPPINGS : list (string * list string).
Variable set_order : list string -> list string.
Variable clock : nat -> float.
Variable network : nat -> Api.http_reply.
Variable parse_date_iso : string -> option string.
Variable to_csv : DataFrame -> string.
Variable read_csv : string -> pyresult DataFrame.
Variable json_dumps : json -> pyresult string.
Variable json_loads : string -> pyresult json.
Variable today : string.
Variable str_of_float : float -> string.
Variable str_of_int : Z -> string.
Variable days_since : string -> pyresult Z.
Variable generate_risk_counts : DataFrame -> pyresult (list row).
Variable generate_top_cves : DataFrame -> pyresult (list row).
Variable generate_ip_vuln_counts : DataFrame -> pyresult (list row).
Variable generate_patch_summary : DataFrame -> pyresult (list row).
Variable generate_bucket_summary : DataFrame -> pyresult (list row).
Variable generate_seol_summary : DataFrame -> pyresult (list row).
Variable generate_scoring_summary : DataFrame -> pyresult (list row).
Variable generate_vulnerability_insights : DataFrame -> pyresult (list row).

Abbreviation fetch_all := (Core.fetch_all clock network parse_date_iso).
Abbreviation categorize_and_filter :=
  (Core.categorize_and_filter NAME_MAPPINGS BUCKET_MAPPINGS set_order).
Abbreviation analyze_vulnerability_data :=
  (Analysis.analyze_vulnerability_data str_of_float str_of_int days_since
     generate_risk_counts generate_top_cves generate_ip_vuln_counts
     generate_patch_summary generate_bucket_summary generate_seol_summary
     generate_scoring_summary generate_vulnerability_insights).
Abbreviation score_and_analyze :=
  (Core.score_and_analyze float_of_str str_of_float str_of_int days_since
     generate_risk_counts generate_top_cves generate_ip_vuln_counts
     generate_patch_summary generate_bucket_summary generate_seol_summary
     generate_scoring_summary generate_vulnerability_insights).
Abbreviation process_vulnerability_data :=
  (Core.process_vulnerability_data float_of_str NAME_MAPPINGS BUCKET_MAPPINGS set_order
     clock network parse_date_iso to_csv read_csv json_dumps json_loads today
     str_of_float str_of_int days_since
     generate_risk_counts generate_top_cves generate_ip_vuln_counts
     generate_patch_summary generate_bucket_summary generate_seol_summary
     generate_scoring_summary generate_vulnerability_insights).
Abbreviation load_cve_cache := (Cache.load_cve_cache read_csv json_loads).
Abbreviation save_cve_cache := (Cache.save_cve_cache to_csv json_dumps today).

(** The ids of [unique_cves] that are no key of the cache loaded. *)
Definition uncached (job_cve_cache : cve_cache) (unique_cves : list string)
    : list string :=
  List.filter (fun cve => negb (bool_decide (is_Some (job_cve_cache !! cve)))) unique_cves.

(** The file system the run starts from once the cache was cleared on
    request. *)
Definition after_clear (clear_cache_flag : bool) (path : string)
    (fs : Cache.filesystem) : Cache.filesystem :=
  if clear_cache_flag then (Cache.clear_cache path fs).2 else fs.

Lemma uncached_none (loaded : cve_cache) (ids : list string) :
  Forall (fun id => is_Some (loaded !! id)) ids -> uncached loaded ids = [].
Proof.
  unfold uncached. induction 1 as [|id l Hid _ IH]; [reflexivity|].
  simpl. rewrite (bool_decide_eq_true_2 _ Hid). exact IH.
Qed.

(** core.py, lines 66-70: the loop of lookups. *)
Lemma fetch_all_spec (ids : list string) (cache : cve_cache) (w : Api.world)
    (res : pyresult unit) (cache' : cve_cache) (w' : Api.world) :
  fetch_all ids cache w = (res, cache', w') ->
  cache ⊆ cache'
  /\ (exists sent, Api.requests w' = Api.requests w ++ sent
        /\ (length sent <= Api.NVD_RETRY_ATTEMPTS * length ids)%nat)
  /\ (ids = [] -> w' = w)
  /\ (forall u, res = Ok u -> Forall (fun id => is_Some (cache' !! id)) ids).
Proof.
  revert cache w. induction ids as [|id ids IH]; intros cache w H.
  - simpl in H. injection H as <- <- <-.
    split; [reflexivity|]. split; [exists []; by rewrite app_nil_r|].
    split; [reflexivity|]. intros u _. constructor.
  - cbn [Core.fetch_all] in H.
    destruct (Api.fetch_cve_details clock network parse_date_iso id cache
                Core.default_timeout w) as [[[e|x] c1] w1] eqn:Hfetch.
    + pose proof (ApiFacts.fetch_extends_cache _ _ _ _ _ _ _ _ _ _ Hfetch) as Hsub1.
      pose proof (ApiEffort.fetch_requests_bound _ _ _ _ _ _ _ _ _ _ Hfetch)
        as (sent1 & Hsent1 & Hlen1).
      pose proof (ApiEffort.fetch_ok_cached _ _ _ _ _ _ _ _ _ _ Hfetch) as Hlook.
      destruct (IH _ _ H) as (Hsub2 & (sent2 & Hsent2 & Hlen2) & _ & Hall).
      split; [by etrans|]. split; [|split; [discriminate|]].
      * exists (sent1 ++ sent2). rewrite Hsent2, Hsent1, <- app_assoc.
        split; [reflexivity|]. rewrite length_app. simpl length. lia.
      * intros u Hu. constructor; [|by eapply Hall].
        exists e. by eapply lookup_weaken.
    + injection H as <- <- <-.
      pose proof (ApiFacts.fetch_extends_cache _ _ _ _ _ _ _ _ _ _ Hfetch) as Hsub1.
      pose proof (ApiEffort.fetch_requests_bound _ _ _ _ _ _ _ _ _ _ Hfetch)
        as (sent1 & Hsent1 & Hlen1).
      split; [exact Hsub1|]. split; [|split; discriminate].
      exists sent1. split; [exact Hsent1|]. simpl length. lia.
Qed.

(** core.py, lines 33-91: the stages of a run. *)
Lemma process_stages (vuln_df : DataFrame) (kev_set : gset string)
    (output_dir : option string) (clear_cache_flag : bool)
    (fs : Cache.filesystem) (w : Api.world)
    (res : pyresult (DataFrame * DataFrame * DataFrame * DataFrame * Analysis.results))
    (fs' : Cache.filesystem) (w' : Api.world) :
  process_vulnerability_data vuln_df kev_set output_dir clear_cache_flag fs w
    = (res, fs', w') ->
  let path := Cache.get_cache_path output_dir None in
  let fs0 := after_clear clear_cache_flag path fs in
  ((exists e, load_cve_cache path fs0 = Raise e) /\ w' = w /\ fs' = fs0
   /\ exists e, res = Raise e)
  \/ (exists loaded,
        load_cve_cache path fs0 = Ok loaded
        /\ (((exists e, categorize_and_filter vuln_df = Raise e) /\ w' = w /\ fs' = fs0
             /\ exists e, res = Raise e)
            \/ exists working_df unique_cves fetched cache',
                 categorize_and_filter vuln_df = Ok (working_df, unique_cves)
                 /\ fetch_all (uncached loaded unique_cves) loaded w = (fetched, cache', w')
                 /\ ((exists e, fetched = Raise e /\ res = Raise e /\ fs' = fs0)
                     \/ (exists u, fetched = Ok u)
                        /\ fs' = (save_cve_cache cache' path fs0).2
                        /\ res = score_and_analyze vuln_df working_df kev_set cache'))).
Proof.
  intros H path fs0. unfold Core.process_vulnerability_data in H.
  fold path in H. change (if clear_cache_flag then _ else fs) with fs0 in H.
  destruct (load_cve_cache path fs0) as [loaded|e] eqn:Hload.
  2:{ injection H as <- <- <-. left. eauto 10. }
  right. exists loaded. split; [reflexivity|].
  destruct (categorize_and_filter vuln_df) as [[working_df unique_cves]|e] eqn:Hcat.
  2:{ injection H as <- <- <-. left. eauto 10. }
  right. exists working_df, unique_cves.
  fold (uncached loaded unique_cves) in H.
  destruct (fetch_all (uncached loaded unique_cves) loaded w)
    as [[[u|e] cache'] w1] eqn:Hfetch.
  - injection H as <- <- <-. exists (Ok u), cache'.
    split; [reflexivity|]. split; [reflexivity|]. right. eauto.
  - injection H as <- <- <-. exists (Raise e), cache'.
    split; [reflexivity|]. split; [reflexivity|]. left. eauto.
Qed.

(** X24: the network traffic of a run. The requests a run sends are
    appended to the log, and there are at most five for each distinct CVE
    id of the rows kept that the cache file did not already answer. A run
    whose ids are all in the cache file sends nothing, reads no clock and
    does not sleep; neither does a run that fails before the lookups. *)
Theorem pipeline_network_effort (vuln_df : DataFrame) (kev_set : gset string)
    (output_dir : option string) (clear_cache_flag : bool)
    (fs : Cache.filesystem) (w : Api.world)
    (res : pyresult (DataFrame * DataFrame * DataFrame * DataFrame * Analysis.results))
    (fs' : Cache.filesystem) (w' : Api.world) :
  process_vulnerability_data vuln_df kev_set output_dir clear_cache_flag fs w
    = (res, fs', w') ->
  let path := Cache.get_cache_path output_dir None in
  let fs0 := after_clear clear_cache_flag path fs in
  exists sent,
    Api.requests w' = Api.requests w ++ sent
    /\ (forall loaded working_df unique_cves,
          load_cve_cache path fs0 = Ok loaded ->
          categorize_and_filter vuln_df = Ok (working_df, unique_cves) ->
          (length sent <= 5 * length (uncached loaded unique_cves))%nat
          /\ (Forall (fun id => is_Some (loaded !! id)) unique_cves -> w' = w))
    /\ ((forall loaded, load_cve_cache path fs0 <> Ok loaded) -> w' = w)
    /\ ((forall frames, categorize_and_filter vuln_df <> Ok frames) -> w' = w).
Proof.
  intros H path fs0. apply process_stages in H. fold path fs0 in H.
  destruct H as [([e He] & -> & _) | (loaded & Hload & H)].
  { exists []. rewrite app_nil_r. split; [reflexivity|].
    split; [|split; reflexivity]. intros loaded ? ? Hload. congruence. }
  destruct H as [([e He] & -> & _)
                 | (working_df & unique_cves & fetched & cache' & Hcat & Hfetch & _)].
  { exists []. rewrite app_nil_r. split; [reflexivity|].
    split; [|split; reflexivity]. intros ? ? ? _ Hcat. congruence. }
  apply fetch_all_spec in Hfetch as (_ & (sent & Hsent & Hlen) & Hnone & _).
  exists sent. split; [exact Hsent|]. split; [|split].
  - intros loaded2 working2 unique2 Hload2 Hcat2.
    rewrite Hload in Hload2. injection Hload2 as <-.
    rewrite Hcat in Hcat2. injection Hcat2 as <- <-.
    split; [exact Hlen|]. intros Hall. apply Hnone. by apply uncached_none.
  - intros Hno. by destruct (Hno loaded).
  - intros Hno. by destruct (Hno (working_df, unique_cves)).
Qed.

Lemma categorize_and_filter_ids (vuln_df working_df : DataFrame)
    (unique_cves : list string) :
  categorize_and_filter vuln_df = Ok (working_df, unique_cves) ->
  Core.dropna_unique ((fun r => cell_of r "CVE") <$> rows working_df) [] = Ok unique_cves
  /\ (length (rows working_df) <= length (rows vuln_df))%nat.
Proof.
  unfold Core.categorize_and_filter. intros H.
  bind_inv H as df Hdf. bind_inv H as u Hu. bind_inv H as cves Hcves.
  bind_inv H as uniq Huniq. injection H as <- <-.
  unfold Core.column in Hcves.
  destruct (has_column _ "CVE"); [|discriminate]. injection Hcves as <-.
  split; [exact Huniq|].
  cbn [rows filter_rows]. etrans; [apply filter_length_le|].
  unfold Categorization.categorize_vulnerabilities in Hdf.
  bind_inv Hdf as df1 Hrisk. destruct (has_column df1 "Name"); [|discriminate].
  apply FrameFacts.set_column_Ok in Hdf as [_ H2].
  apply FrameFacts.set_column_Ok in Hrisk as [_ H1].
  apply Forall2_length in H1, H2. lia.
Qed.

(** X17: the frames a run returns. The processed frame has one row for
    each input row that categorization did not label "None" or
    "Informational", so no more rows than the input; its rows labelled
    "Check Needed" make up the check-needed frame and all its other rows
    the analyzed frame, each in the order of the processed frame: the two
    frames partition it. *)
Theorem pipeline_frames_partition (vuln_df : DataFrame) (kev_set : gset string)
    (output_dir : option string) (clear_cache_flag : bool)
    (fs : Cache.filesystem) (w : Api.world)
    (orig processed check_needed analyzed : DataFrame) (res : Analysis.results)
    (fs' : Cache.filesystem) (w' : Api.world) :
  process_vulnerability_data vuln_df kev_set output_dir clear_cache_flag fs w
    = (Ok (orig, processed, check_needed, analyzed, res), fs', w') ->
  rows check_needed
    = List.filter (fun r => cell_is (cell_of r "Risk") "Check Needed") (rows processed)
  /\ rows analyzed
     = List.filter (fun r => negb (cell_is (cell_of r "Risk") "Check Needed"))
         (rows processed)
  /\ rows check_needed ++ rows analyzed ≡ₚ rows processed
  /\ (length (rows check_needed) + length (rows analyzed) = length (rows processed))%nat
  /\ (length (rows processed) <= length (rows vuln_df))%nat
  /\ Forall (fun r => cell_of r "Risk" = Str "Check Needed") (rows check_needed)
  /\ Forall (fun r => cell_of r "Risk" <> Str "Check Needed") (rows analyzed).
Proof.
  intros H.
  apply (CoreFacts.process_Ok float_of_str NAME_MAPPINGS BUCKET_MAPPINGS set_order
           clock network parse_date_iso to_csv read_csv json_dumps json_loads today
           str_of_float str_of_int days_since
           generate_risk_counts generate_top_cves generate_ip_vuln_counts
           generate_patch_summary generate_bucket_summary generate_seol_summary
           generate_scoring_summary generate_vulnerability_insights) in H.
  destruct H as (working_df & unique_cves & cache & Hcat & Hrun).
  pose proof Hcat as Hkept. apply CoreFacts.categorize_and_filter_kept in Hkept.
  pose proof (categorize_and_filter_ids _ _ _ Hcat) as [_ Hlen].
  apply CoreFacts.score_and_analyze_Ok in Hrun as (_ & scored_df & Hscore & Han).
  pose proof (CoreFacts.add_scoring_data_keeps _ _ _ _ Hscore Hkept) as Hkept1.
  pose proof Hscore as Hrows1.
  apply ScoringColumns.add_scoring_data_extends in Hrows1 as (_ & _ & Hrows1).
  apply Forall2_length in Hrows1.
  pose proof Han as Hlen2. apply CoreFacts.analyze_keeps_every_row in Hlen2.
  pose proof Han as Hrisk.
  apply (CoreFacts.analyze_frames float_of_str parse_date_iso to_csv read_csv
           json_loads today) in Hrisk as (Hrisk & _).
  destruct (Hrisk _ Hkept1) as (Hkept2 & _ & _).
  pose proof Han as Hsplit. apply EnrichmentRows.analyze_split in Hsplit as [Hcn Han'].
  cbv zeta in Hcn, Han'.
  assert (Hall : List.filter
                   (fun r => negb (isin (cell_of r "Risk") ["None"; "Informational"]))
                   (rows processed) = rows processed).
  { apply filter_all. eapply Forall_impl; [exact Hkept2|].
    intros r Hr. unfold CoreFacts.kept in Hr. by rewrite Hr. }
  rewrite Hall in Hcn, Han'.
  split; [exact Hcn|]. split; [exact Han'|].
  assert (Hperm : rows check_needed ++ rows analyzed ≡ₚ rows processed).
  { rewrite Hcn, Han'. apply filter_split. }
  split; [exact Hperm|].
  split; [rewrite <- length_app; by apply Permutation_length|].
  split; [lia|].
  split.
  - rewrite Hcn. apply Forall_forall. intros r Hr.
    apply list_elem_of_In, filter_In in Hr as [_ Hr].
    unfold cell_is in Hr. destruct (cell_of r "Risk") as [|s|f|z]; try discriminate.
    apply String.eqb_eq in Hr. by subst s.
  - rewrite Han'. apply Forall_forall. intros r Hr.
    apply list_elem_of_In, filter_In in Hr as [_ Hr].
    intros Heq. rewrite Heq in Hr. discriminate.
Qed.

(** X23: every CVE id of the processed frame is resolved. When a run
    returns, there is one mapping of CVE details, the cache loaded from the
    file extended by the lookups of the run, such that each processed row
    whose CVE id is a text has an entry in it, and the row's patch status
    and publication date are those of the entry; that mapping is what the
    run saves to the cache file. *)
Theorem cve_details_are_resolved (vuln_df : DataFrame) (kev_set : gset string)
    (output_dir : option string) (clear_cache_flag : bool)
    (fs : Cache.filesystem) (w : Api.world)
    (orig processed check_needed analyzed : DataFrame) (res : Analysis.results)
    (fs' : Cache.filesystem) (w' : Api.world) :
  process_vulnerability_data vuln_df kev_set output_dir clear_cache_flag fs w
    = (Ok (orig, processed, check_needed, analyzed, res), fs', w') ->
  let path := Cache.get_cache_path output_dir None in
  let fs0 := after_clear clear_cache_flag path fs in
  exists loaded job_cve_cache,
    load_cve_cache path fs0 = Ok loaded
    /\ loaded ⊆ job_cve_cache
    /\ fs' = (save_cve_cache job_cve_cache path fs0).2
    /\ Forall (fun r' =>
                 forall id, cell_of r' "CVE" = Str id ->
                   exists e, job_cve_cache !! id = Some e
                             /\ cell_of r' "Patch Status" = status (patch_info e)
                             /\ cell_of r' "CVE Published Date" = date_obj e)
         (rows processed).
Proof.
  intros H path fs0. apply process_stages in H. fold path fs0 in H.
  destruct H as [(_ & _ & _ & [e [=]]) | (loaded & Hload & H)].
  destruct H as [(_ & _ & _ & [e [=]])
                 | (working_df & unique_cves & fetched & cache' & Hcat & Hfetch & H)].
  destruct H as [(e & _ & [=] & _) | ([u ->] & Hfs & Hrun)].
  exists loaded, cache'. split; [exact Hload|].
  apply fetch_all_spec in Hfetch as (Hsub & _ & _ & Hall).
  specialize (Hall u eq_refl).
  split; [exact Hsub|]. split; [exact Hfs|].
  symmetry in Hrun.
  apply CoreFacts.score_and_analyze_Ok in Hrun as (_ & scored_df & Hscore & Han).
  pose proof Hscore as Hrows1.
  apply ScoringColumns.add_scoring_data_extends in Hrows1 as (_ & _ & Hrows1).
  pose proof Han as Hrows2. apply EnrichmentRows.analyze_rows in Hrows2.
  pose proof (FrameFacts.Forall2_compose _ _ _ _ _ Hrows1 Hrows2) as Hrows.
  pose proof (categorize_and_filter_ids _ _ _ Hcat) as [Hids _].
  apply dropna_unique_spec in Hids as [_ Hids]; [|constructor].
  apply Forall_forall. intros r' Hr' id Hid.
  destruct (Forall2_elem_r _ _ _ _ Hrows Hr')
    as (r & Hr & rs & Hsame1 & Hsame2 & _ & Hpatch & Hdate & _).
  assert (Hcve1 : cell_of rs "CVE" = Str id).
  { rewrite <- Hid. unfold cell_of. rewrite Hsame2; [reflexivity|].
    by apply (bool_decide_unpack _). }
  assert (Hcve : cell_of r "CVE" = Str id).
  { rewrite <- Hcve1. unfold cell_of. rewrite Hsame1; [reflexivity|].
    by apply (bool_decide_unpack _). }
  assert (Hin : id ∈ unique_cves).
  { apply Hids. right. rewrite <- Hcve. apply list_elem_of_fmap. by exists r. }
  assert (Hsome : is_Some (cache' !! id)).
  { destruct (loaded !! id) as [e|] eqn:Hl.
    - exists e. by eapply lookup_weaken.
    - rewrite Forall_forall in Hall. apply Hall.
      unfold uncached. apply list_elem_of_In, filter_In.
      split; [by apply list_elem_of_In|].
      rewrite bool_decide_eq_false_2; [reflexivity|]. rewrite Hl. by intros [? [=]]. }
  destruct Hsome as [e He]. exists e. split; [exact He|].
  rewrite Hpatch, Hdate, Hcve1.
  unfold Analysis.patch_status, Analysis.published_date, Analysis.cache_get.
  cbn [pd_isna negb]. rewrite He. split; reflexivity.
Qed.

End PipelineFacts.

End PipelineFacts.

(** ** The scoring summary and the KEV file *)

Module ViewFacts.

Import Views.

Lemma count_equal_unfold (df : DataFrame) (c value : string) :
  count_equal df c value
    = Z.of_nat (length (List.filter (fun r => cell_is (cell_of r c) value) (rows df))).
Proof. reflexivity. Qed.

Lemma count_equal_range (df : DataFrame) (c value : string) :
  0 <= count_equal df c value <= Z.of_nat (length (rows df)).
Proof.
  rewrite count_equal_unfold.
  pose proof (filter_length_le (fun r => cell_is (cell_of r c) value) (rows df)). lia.
Qed.

(** The rows counted under different labels are different rows. *)
Lemma count_equal_disjoint (df : DataFrame) (c : string) :
  count_equal df c "Critical" + count_equal df c "High"
  + count_equal df c "Medium" + count_equal df c "Low"
  <= Z.of_nat (length (rows df)).
Proof.
  rewrite !count_equal_unfold. induction (rows df) as [|r l IH]; [simpl; lia|].
  cbn [List.filter length].
  destruct (cell_of r c) as [|s|f|z]; cbn [cell_is]; try lia.
  destruct (String.eqb_spec s "Critical") as [->|H1]; [cbn; lia|].
  destruct (String.eqb_spec s "High") as [->|H2]; [cbn; lia|].
  destruct (String.eqb_spec s "Medium") as [->|H3]; [cbn; lia|].
  destruct (String.eqb_spec s "Low") as [->|H4]; cbn [length]; lia.
Qed.

(** X20: the scoring summary. The view is empty when one of the three
    category columns or "KEV Listed" is missing. Otherwise it has four
    records, for CVSS, EPSS, VPR and CISA KEV in this order; the record of
    a scoring scheme holds, for each of Critical, High, Medium and Low, the
    number of rows with that category, four numbers that add up to at most
    the number of rows; the CISA KEV record holds the number of KEV-listed
    rows as its Critical count and 0 for the three other levels. *)
Theorem scoring_summary_counts (df : DataFrame) :
  exists out,
    generate_scoring_summary df = Ok out
    /\ (forallb (has_column df)
          ["CVSS Category"; "EPSS Category"; "VPR Category"; "KEV Listed"] = false ->
        out = [])
    /\ (forallb (has_column df)
          ["CVSS Category"; "EPSS Category"; "VPR Category"; "KEV Listed"] = true ->
        exists cvss epss vpr kev,
          out = [cvss; epss; vpr; kev]
          /\ cvss !! "Metric" = Some (Str "CVSS")
          /\ epss !! "Metric" = Some (Str "EPSS")
          /\ vpr !! "Metric" = Some (Str "VPR")
          /\ kev !! "Metric" = Some (Str "CISA KEV")
          /\ (forall severity, severity ∈ ["Critical"; "High"; "Medium"; "Low"] ->
                cvss !! (severity ++ " Count")%string
                  = Some (Int (count_equal df "CVSS Category" severity))
                /\ epss !! (severity ++ " Count")%string
                   = Some (Int (count_equal df "EPSS Category" severity))
                /\ vpr !! (severity ++ " Count")%string
                   = Some (Int (count_equal df "VPR Category" severity)))
          /\ kev !! "Critical Count" = Some (Int (count_equal df "KEV Listed" "Yes"))
          /\ kev !! "High Count" = Some (Int 0)
          /\ kev !! "Medium Count" = Some (Int 0)
          /\ kev !! "Low Count" = Some (Int 0))
    /\ (forall category,
          count_equal df category "Critical" + count_equal df category "High"
          + count_equal df category "Medium" + count_equal df category "Low"
          <= Z.of_nat (length (rows df))).
Proof.
  assert (Hsum : forall category,
            count_equal df category "Critical" + count_equal df category "High"
            + count_equal df category "Medium" + count_equal df category "Low"
            <= Z.of_nat (length (rows df))) by (intros c; apply count_equal_disjoint).
  unfold generate_scoring_summary.
  destruct (forallb (has_column df) _); cbn [negb].
  2:{ exists []. split; [reflexivity|]. split; [reflexivity|].
      split; [discriminate|exact Hsum]. }
  cbv [add_count_columns assign_list severity_counts mbind pyresult_bind pbind
       length Nat.eqb negb rows columns zip_with fmap list_fmap
       String.eqb Ascii.eqb Bool.eqb].
  set (count := count_equal df) in *. clearbody count.
  eexists. split; [reflexivity|]. split; [discriminate|]. split; [|exact Hsum].
  intros _. do 4 eexists. split; [reflexivity|].
  split; [vm_compute; reflexivity|]. split; [vm_compute; reflexivity|].
  split; [vm_compute; reflexivity|]. split; [vm_compute; reflexivity|].
  split.
  { intros severity Hs. rewrite !elem_of_cons, elem_of_nil in Hs.
    destruct Hs as [->|[->|[->|[->|[]]]]]; repeat split; vm_compute; reflexivity. }
  repeat split; vm_compute; reflexivity.
Qed.

End ViewFacts.

Module LoaderFacts.

Section LoaderFacts.

Variable read_excel : string -> pyresult DataFrame.
Variable read_csv : string -> pyresult DataFrame.
Variable str_of_float : float -> string.
Variable str_of_int : Z -> string.

Abbreviation load_kev_file := (Loaders.load_kev_file read_csv str_of_float str_of_int).
Abbreviation load_vulnerability_file := (Loaders.load_vulnerability_file read_excel).
Abbreviation py_str := (Analysis.py_str str_of_float str_of_int).
Abbreviation kev_listed := (Analysis.kev_listed str_of_float str_of_int).

(** X21: the KEV set. A file that is missing, that the reader rejects or
    that has no [cveID] column gives the empty set, never an exception.
    Otherwise the set holds the text of every [cveID] cell that is not
    missing, and nothing else; a finding whose CVE id is a text is then
    flagged "Yes" exactly when some row of the file carries this id. *)
Theorem kev_set_of_file (file_path : string) (fs : Cache.filesystem) :
  (Cache.files fs !! file_path = None -> load_kev_file file_path fs = ∅)
  /\ (forall content e, Cache.files fs !! file_path = Some content ->
        read_csv content = Raise e -> load_kev_file file_path fs = ∅)
  /\ (forall content df, Cache.files fs !! file_path = Some content ->
        read_csv content = Ok df ->
        (has_column df "cveID" = false -> load_kev_file file_path fs = ∅)
        /\ (has_column df "cveID" = true ->
            forall id,
              (id ∈ load_kev_file file_path fs
               <-> exists r, r ∈ rows df /\ pd_isna (cell_of r "cveID") = false
                             /\ py_str (cell_of r "cveID") = id)
              /\ (kev_listed (load_kev_file file_path fs) (Str id) = Str "Yes"
                  <-> exists r, r ∈ rows df /\ pd_isna (cell_of r "cveID") = false
                                /\ py_str (cell_of r "cveID") = id)))
  /\ (forall kev_set, kev_listed kev_set Null = Str "No").
Proof.
  unfold Loaders.load_kev_file.
  split; [by intros ->|]. split; [by intros content e -> ->|].
  split; [|reflexivity].
  intros content df -> ->. split; [by intros ->|]. intros -> id.
  assert (Hin : id ∈ (list_to_set (Loaders.dropna_astype_str str_of_float str_of_int
                                     ((fun r => cell_of r "cveID") <$> rows df))
                      : gset string)
                <-> exists r, r ∈ rows df /\ pd_isna (cell_of r "cveID") = false
                              /\ py_str (cell_of r "cveID") = id).
  { rewrite elem_of_list_to_set. unfold Loaders.dropna_astype_str.
    rewrite list_elem_of_fmap. split.
    - intros (c & -> & Hc). apply list_elem_of_In, filter_In in Hc as [Hc Hna].
      apply list_elem_of_In, list_elem_of_fmap in Hc as (r & -> & Hr).
      exists r. split; [exact Hr|]. split; [by apply negb_true_iff|reflexivity].
    - intros (r & Hr & Hna & <-). exists (cell_of r "cveID"). split; [reflexivity|].
      apply list_elem_of_In, filter_In. split.
      + apply list_elem_of_In, list_elem_of_fmap. by exists r.
      + by rewrite Hna. }
  split; [exact Hin|]. rewrite <- Hin.
  unfold Analysis.kev_listed. cbn [pd_isna negb andb Analysis.py_str].
  case_bool_decide as Hid.
  - split; [intros _; exact Hid|reflexivity].
  - split; [discriminate|intros ?; contradiction].
Qed.

End LoaderFacts.

End LoaderFacts.

(** * Worked examples

    A small concrete environment on which the functions above are run:
    a line-oriented text store in place of pandas' CSV reader and writer,
    the fragment of JSON the examples need, canned NVD replies, and
    two mapping tables. *)

Module Examples.

Definition newline : ascii := "010"%char.
Definition comma : ascii := ","%char.

Fixpoint split_on (sep : ascii) (s : string) : list string :=
  match s with
  | EmptyString => [EmptyString]
  | String a s' =>
      if Ascii.eqb a sep then EmptyString :: split_on sep s'
      else match split_on sep s' with
           | h :: t => String a h :: t
           | [] => [String a EmptyString]
           end
  end.

Definition quote : ascii := "034"%char.

Fixpoint has_char (a : ascii) (s : string) : bool :=
  match s with
  | EmptyString => false
  | String b s' => Ascii.eqb a b || has_char a s'
  end.

(** The field of a cell: a missing value is the empty field, and a text
    with a comma or a quote is put between quotes, its quotes doubled. *)
Fixpoint double_quotes (s : string) : string :=
  match s with
  | EmptyString => EmptyString
  | String a s' =>
      if Ascii.eqb a quote then String quote (String quote (double_quotes s'))
      else String a (double_quotes s')
  end.

Definition render_field (s : string) : string :=
  if has_char comma s || has_char quote s
  then String quote (double_quotes s ++ String quote "")
  else s.

Definition render_cell (c : cell) : string :=
  match c with Str s => render_field s | _ => "" end.

(** The empty field is read as NaN, as pandas reads it; every other
    field as its text. *)
Definition parse_cell (s : string) : cell :=
  if String.eqb s "" then Num nan else Str s.

Definition grow (a : ascii) (fields : list string) : list string :=
  match fields with
  | h :: t => String a h :: t
  | [] => [String a EmptyString]
  end.

(** The fields of a line; within quotes a comma is part of the field and
    a doubled quote stands for a quote. *)
Fixpoint split_fields (quoted : bool) (s : string) : list string :=
  match s with
  | EmptyString => [EmptyString]
  | String a s' =>
      if quoted then
        if Ascii.eqb a quote then
          match s' with
          | String b s'' =>
              if Ascii.eqb b quote then grow quote (split_fields true s'')
              else split_fields false s'
          | EmptyString => [EmptyString]
          end
        else grow a (split_fields true s')
      else if Ascii.eqb a quote then split_fields true s'
      else if Ascii.eqb a comma then EmptyString :: split_fields false s'
      else grow a (split_fields false s')
  end.

Definition example_to_csv (df : DataFrame) : string :=
  join (String newline "")
    (join "," (render_field <$> columns df)
     :: ((fun r => join "," ((fun c => render_cell (cell_of r c)) <$> columns df))
           <$> rows df)).

(** A text without a header line is refused, as pandas refuses an empty
    file with [EmptyDataError], a [ValueError]. *)
Definition example_read_csv (text : string) : pyresult DataFrame :=
  match split_on newline text with
  | header :: lines =>
      if String.eqb header "" then Raise ValueError
      else
        let cols := split_fields false header in
        Ok {| columns := cols;
              rows := (fun line =>
                         list_to_map (zip cols (parse_cell <$> split_fields false line)))
                      <$> lines |}
  | [] => Raise ValueError
  end.

(** JSON without numbers and without escapes in its texts, printed with
    the separators of [json.dumps]. *)
Definition plain_text (s : string) : bool :=
  negb (has_char quote s) && negb (has_char "\"%char s).

Fixpoint printable (j : json) : bool :=
  match j with
  | JNull | JBool _ => true
  | JInt _ | JFloat _ => false
  | JStr s => plain_text s
  | JArr items => forallb printable items
  | JObj members => forallb (fun member => plain_text member.1 && printable member.2) members
  end.

Definition quoted (s : string) : string := String quote (s ++ String quote "").

Fixpoint print_json (j : json) : string :=
  match j with
  | JNull => "null"
  | JBool true => "true"
  | JBool false => "false"
  | JInt _ | JFloat _ => ""
  | JStr s => quoted s
  | JArr items => "[" ++ join ", " (List.map print_json items) ++ "]"
  | JObj members =>
      "{" ++ join ", " (List.map (fun member => quoted member.1 ++ ": "
                                                ++ print_json member.2) members)
      ++ "}"
  end%string.

Definition example_json_dumps (j : json) : pyresult string :=
  if printable j then Ok (print_json j) else Raise Unsupported.

(** What is left of [s] after the prefix [p]. *)
Fixpoint strip (p s : string) : option string :=
  match p, s with
  | EmptyString, _ => Some s
  | String a p', String b s' => if Ascii.eqb a b then strip p' s' else None
  | String _ _, EmptyString => None
  end.

(** A text up to its closing quote. *)
Fixpoint parse_text (s : string) : option (string * string) :=
  match s with
  | EmptyString => None
  | String a s' =>
      if Ascii.eqb a quote then Some (EmptyString, s')
      else if Ascii.eqb a "\"%char then None
      else '(t, rest) ← parse_text s'; Some (String a t, rest)
  end.

Fixpoint parse_value (fuel : nat) (s : string) : option (json * string) :=
  match fuel with
  | O => None
  | S fuel =>
      match strip "null" s, strip "true" s, strip "false" s with
      | Some rest, _, _ => Some (JNull, rest)
      | _, Some rest, _ => Some (JBool true, rest)
      | _, _, Some rest => Some (JBool false, rest)
      | None, None, None =>
          match strip (String quote "") s, strip "[]" s, strip "[" s,
                strip "{}" s, strip "{" s with
          | Some rest, _, _, _, _ => '(t, rest) ← parse_text rest; Some (JStr t, rest)
          | _, Some rest, _, _, _ => Some (JArr [], rest)
          | _, _, Some rest, _, _ =>
              '(items, rest) ← parse_items fuel rest; Some (JArr items, rest)
          | _, _, _, Some rest, _ => Some (JObj [], rest)
          | _, _, _, _, Some rest =>
              '(members, rest) ← parse_members fuel rest; Some (JObj members, rest)
          | None, None, None, None, None => None
          end
      end
  end
with parse_items (fuel : nat) (s : string) : option (list json * string) :=
  match fuel with
  | O => None
  | S fuel =>
      '(item, rest) ← parse_value fuel s;
      match strip "]" rest with
      | Some rest => Some ([item], rest)
      | None =>
          rest ← strip ", " rest;
          '(items, rest) ← parse_items fuel rest;
          Some (item :: items, rest)
      end
  end
with parse_members (fuel : nat) (s : string) : option (list (string * json) * string) :=
  match fuel with
  | O => None
  | S fuel =>
      rest ← strip (String quote "") s;
      '(key, rest) ← parse_text rest;
      rest ← strip ": " rest;
      '(value, rest) ← parse_value fuel rest;
      match strip "}" rest with
      | Some rest => Some ([(key, value)], rest)
      | None =>
          rest ← strip ", " rest;
          '(members, rest) ← parse_members fuel rest;
          Some ((key, value) :: members, rest)
      end
  end.

Definition example_json_loads (s : string) : pyresult json :=
  match parse_value (S (String.length s)) s with
  | Some (j, EmptyString) => Ok j
  | _ => Raise ValueError
  end.

Definition example_float_of_str (s : string) : option float := None.
Definition example_set_order (l : list string) : list string := l.
Definition example_clock (k : nat) : float := 0%float.
Definition example_parse_date (s : string) : option string := Some s.
Definition example_today : string := "2025-01-15".
Definition example_str_of_float (f : float) : string := "nan".
Definition example_str_of_int (z : Z) : string := "0".
Definition example_days_since (s : string) : pyresult Z := Ok 1132.

(** Stand-ins for the views of analysis.py that are not embedded: each
    looks up the columns its view reads, with the [KeyError] of the view
    for a column the frame lacks, and keeps no record. *)
Definition view_reading (needed : list string) (df : DataFrame) : pyresult (list row) :=
  if forallb (has_column df) needed then Ok [] else Raise KeyError.

Definition example_risk_counts := view_reading ["Risk"].
Definition example_top_cves := view_reading ["CVE"].
Definition example_ip_vuln_counts := view_reading ["Host"; "Risk"].
Definition example_patch_summary := view_reading ["Patch Status"; "CVE"; "Risk"].
Definition example_bucket_summary := view_reading ["Bucket"; "Risk"].
Definition example_seol_summary := view_reading ["Name"; "Host"; "Plugin ID"].
Definition example_vulnerability_insights :=
  view_reading ["Name"; "Solution"; "Risk"; "Host"].

Definition example_names : list (string * list string) :=
  [("Critical", ["log4j"; "remote code execution"]);
   ("Medium", ["self-signed"]);
   ("None", ["traceroute information"])].

Definition example_buckets : list (string * list string) :=
  [("Web Server", ["apache"; "nginx"]);
   ("End of Life", ["seol"])].

Definition log4j_record : Api.nvd_cve :=
  {| Api.published := Some "2021-12-10T10:15:09.143";
     Api.cve_references := Some
       [{| Api.ref_url := Some "https://logging.apache.org/log4j/2.x/security.html";
           Api.ref_source := Some "security@apache.org";
           Api.ref_tags := Some ["Vendor Advisory"] |}];
     Api.workarounds := false |}.

(** A network that answers every request with the Log4j record. *)
Definition nvd_up (k : nat) : Api.http_reply := Api.Response 200 (Ok [log4j_record]).

(** A network on which every request fails. *)
Definition nvd_down (k : nat) : Api.http_reply := Api.Failed.

Definition empty_fs : Cache.filesystem := {| Cache.files := ∅; Cache.locked := ∅ |}.

(** The finding of the end-to-end scenario of the specification, next to
    a lesser one and to one that categorization labels "None". *)
Definition log4j_row : row :=
  list_to_map
    [("Plugin ID", Int 156032); ("CVE", Str "CVE-2021-44228"); ("Host", Str "10.0.0.5");
     ("Name", Str "Apache Log4j SEoL"); ("Risk", Null);
     ("Solution", Str "Upgrade to Apache Log4j 2.17.1 or later.");
     ("CVSS v3.0 Base Score", Num 9.8); ("EPSS Score", Num 0.93);
     ("VPR Score", Num 9.1)].

Definition traceroute_row : row :=
  list_to_map
    [("Plugin ID", Int 10287); ("CVE", Null); ("Host", Str "10.0.0.5");
     ("Name", Str "Traceroute Information"); ("Risk", Str "None");
     ("Solution", Null);
     ("CVSS v3.0 Base Score", Null); ("EPSS Score", Null); ("VPR Score", Null)].

Definition scan_columns : list string :=
  ["Plugin ID"; "CVE"; "Host"; "Name"; "Risk"; "Solution";
   "CVSS v3.0 Base Score"; "EPSS Score"; "VPR Score"].

Definition scan : DataFrame :=
  {| columns := scan_columns; rows := [log4j_row; traceroute_row] |}.

Definition kev : gset string := {[ "CVE-2021-44228" ]}.

Definition run_pipeline (network : nat -> Api.http_reply) (vuln_df : DataFrame) :=
  Core.process_vulnerability_data example_float_of_str example_names example_buckets
    example_set_order example_clock network example_parse_date
    example_to_csv example_read_csv example_json_dumps example_json_loads example_today
    example_str_of_float example_str_of_int example_days_since
    example_risk_counts example_top_cves example_ip_vuln_counts
           example_patch_summary example_bucket_summary example_seol_summary
           Views.generate_scoring_summary example_vulnerability_insights
    vuln_df kev (Some "output") false empty_fs Api.initial_world.

(** The risk labels a frame has after categorization. *)
Definition risks_after_categorization (df : DataFrame) : pyresult (list cell) :=
  df' ← Categorization.categorize_vulnerabilities example_names example_buckets
          example_set_order df;
  Ok ((fun r => cell_of r "Risk") <$> rows df').




Definition priorities (view : list row) : list cell :=
  (fun r => cell_of r "Combined Priority") <$> view.

(** The end-to-end scenario of the specification: the Log4j finding is
    Critical in the three schemes and KEV listed, and it is the one row of
    common_critical, with Combined Priority 2*4 + 4 + 4 = 16. *)
Example log4j_scenario :
  ('(_, _, _, _, res) ← (run_pipeline nvd_up scan).1.1;
   Ok (priorities (Analysis.common_critical res))) = Ok [Int 16].
Proof. vm_compute. reflexivity. Qed.


(** Reading a result that is known to be there. *)
Definition is_ok {A} (r : pyresult A) : bool :=
  match r with Ok _ => true | Raise _ => false end.

Definition value_or {A} (d : A) (r : pyresult A) : A :=
  match r with Ok a => a | Raise _ => d end.

Lemma surjective_pairing_3 {A B C} (t : A * B * C) : (t.1.1, t.1.2, t.2) = t.
Proof. by destruct t as [[? ?] ?]. Qed.

Lemma is_ok_value {A} (d : A) (r : pyresult A) :
  is_ok r = true -> r = Ok (value_or d r).
Proof. destruct r; [reflexivity|discriminate]. Qed.

(** *** common_critical *)

Definition scored_row (cve : string) (cvss epss vpr : float) : row :=
  list_to_map
    [("CVE", Str cve); ("Host", Str "10.0.0.5"); ("Risk", Str "High");
     ("CVSS v3.0 Base Score", Num cvss); ("CVSS Category", Str "Critical");
     ("EPSS Score", Num epss); ("EPSS Category", Str "High");
     ("VPR Score", Num vpr); ("VPR Category", Str "High");
     ("KEV Listed", Str "Yes")].

Definition analyzed_example : DataFrame :=
  {| columns := ["CVE"; "Host"; "Risk"; "CVSS v3.0 Base Score"; "CVSS Category";
                 "EPSS Score"; "EPSS Category"; "VPR Score"; "VPR Category";
                 "KEV Listed"];
     rows := [scored_row "CVE-2020-0001" 9.1 0.71 7.2;
              scored_row "CVE-2020-0002" 9.8 0.75 8.1;
              <["KEV Listed" := Str "No"]> (scored_row "CVE-2020-0003" 9.9 0.8 8.0)] |}.

Definition view_example : list row :=
  value_or [] (Analysis.generate_common_critical analyzed_example).

Lemma common_critical_rows_witness :
  (fun r => cell_of r "CVE") <$> view_example
    = [Str "CVE-2020-0002"; Str "CVE-2020-0001"]
  /\ Forall AnalysisFacts.row_spec view_example
  /\ StronglySorted AnalysisFacts.ordered view_example.
Proof.
  split; [vm_compute; reflexivity|].
  apply (AnalysisFacts.common_critical_rows analyzed_example view_example).
  apply is_ok_value. vm_compute. reflexivity.
Defined.

(** *** The lookup client *)

Definition cache_example : cve_cache :=
  <["CVE-2021-44228" :=
      {| date_obj := Str "2021-12-10";
         patch_info := {| status := Str "Available"; references := JArr [] |} |}]>
    (<["CVE-2019-0000" := Api.not_found_entry]> ∅).

Lemma fetch_cached_witness :
  cache_example !! "CVE-2019-0000" = Some Api.not_found_entry
  /\ Api.fetch_cve_details example_clock nvd_up example_parse_date
       "CVE-2019-0000" cache_example 30%float Api.initial_world
     = (Ok Api.not_found_entry, cache_example, Api.initial_world).
Proof.
  split; [vm_compute; reflexivity|].
  apply (ApiFacts.fetch_cached_is_lookup example_clock nvd_up example_parse_date).
  vm_compute. reflexivity.
Defined.

Definition failed_lookup :=
  Api.fetch_cve_details example_clock nvd_down example_parse_date
    "CVE-2099-0001" cache_example 30%float Api.initial_world.

Lemma fetch_failure_witness :
  length (Api.requests failed_lookup.2) = 5%nat
  /\ failed_lookup.1.1 = Ok Api.not_found_entry
  /\ failed_lookup.1.2 = <["CVE-2099-0001" := Api.not_found_entry]> cache_example
  /\ date_obj Api.not_found_entry = Null
  /\ status (patch_info Api.not_found_entry) = Str "CVE Not Found"
  /\ references (patch_info Api.not_found_entry) = JArr []
  /\ forall (later_cache : cve_cache) (later_world : Api.world)
       (timeout_threshold' : float),
       failed_lookup.1.2 ⊆ later_cache ->
       Api.fetch_cve_details example_clock nvd_down example_parse_date
         "CVE-2099-0001" later_cache timeout_threshold' later_world
       = (Ok Api.not_found_entry, later_cache, later_world).
Proof.
  split; [vm_compute; reflexivity|].
  apply (ApiFacts.fetch_failure_is_cached example_clock nvd_down example_parse_date
           "CVE-2099-0001" cache_example 30%float Api.initial_world
           failed_lookup.1.1 failed_lookup.1.2 failed_lookup.2).
  - vm_compute. reflexivity.
  - vm_compute. lia.
  - symmetry. apply surjective_pairing_3.
  - intros k _. reflexivity.
Defined.

(** A clock that jumps past the budget after its first reading: the
    lookup gives up before any request is sent, although the network would
    have answered. *)
Definition slow_clock (k : nat) : float := if (k =? 0)%nat then 0%float else 100%float.

Definition timed_out_lookup :=
  Api.fetch_cve_details slow_clock nvd_up example_parse_date
    "CVE-2021-44228" ∅ 30%float Api.initial_world.

Example fetch_timeout_scenario :
  timed_out_lookup.1.1 = Ok Api.not_found_entry
  /\ timed_out_lookup.1.2 !! "CVE-2021-44228" = Some Api.not_found_entry
  /\ Api.requests timed_out_lookup.2 = [].
Proof. repeat split; vm_compute; reflexivity. Qed.

(** *** The cache file *)

Definition cache_path : string := Cache.get_cache_path (Some "output") None.

(** A mapping with a dated entry that lists a reference, next to the
    undated entry of a CVE that was not found. *)
Definition dated_and_undated : cve_cache :=
  <["CVE-2021-44228" :=
      {| date_obj := Str "2021-12-10";
         patch_info :=
           {| status := Str "Available";
              references :=
                JArr [JObj [("url", JStr "https://logging.apache.org/log4j/2.x/security.html");
                            ("source", JStr "security@apache.org");
                            ("tags", JArr [JStr "Vendor Advisory"])]] |} |}]>
    (<["CVE-2019-0000" := Api.not_found_entry]> ∅).

Definition saved_fs : Cache.filesystem :=
  (Cache.save_cve_cache example_to_csv example_json_dumps example_today
     dated_and_undated cache_path empty_fs).2.

(** The dates of the rows read from the file that was saved. *)
Definition dates_read (fs : Cache.filesystem) : pyresult (list cell) :=
  match Cache.files fs !! cache_path with
  | Some text => df ← example_read_csv text; Ok ((fun r => cell_of r "date_obj") <$> rows df)
  | None => Raise KeyError
  end.

(** A test for [CacheFacts.read_as] on the cells of the examples. *)
Definition read_as_b (written read : cell) : bool :=
  if pd_isna written then pd_isna read
  else match written, read with
       | Str w, Str r => String.eqb r w
       | _, _ => false
       end.

Definition row_read_as_b (written read : row) : bool :=
  forallb (fun c => match read !! c with
                    | Some v => read_as_b (cell_of written c) v
                    | None => false
                    end) CacheFacts.loaded_columns.

Fixpoint rows_read_as_b (written read : list row) : bool :=
  match written, read with
  | [], [] => true
  | w :: written', r :: read' => row_read_as_b w r && rows_read_as_b written' read'
  | _, _ => false
  end.

Definition reads_back_b (frame : pyresult DataFrame) : bool :=
  match frame with
  | Ok frame =>
      match example_read_csv (example_to_csv frame) with
      | Ok df => rows_read_as_b (rows frame) (rows df)
      | Raise _ => false
      end
  | Raise _ => false
  end.

Lemma read_as_b_sound (written read : cell) :
  read_as_b written read = true -> CacheFacts.read_as written read.
Proof.
  unfold read_as_b, CacheFacts.read_as. destruct (pd_isna written); [auto|].
  destruct written as [|w|f|z], read as [|r|g|y]; try discriminate.
  intros H. apply String.eqb_eq in H. by subst.
Qed.

Lemma rows_read_as_b_sound (written read : list row) :
  rows_read_as_b written read = true -> Forall2 CacheFacts.row_read_as written read.
Proof.
  revert read. induction written as [|w written IH]; intros [|r read]; simpl;
    try discriminate; [constructor|].
  intros H. apply andb_true_iff in H as [Hrow Hrows].
  constructor; [|by apply IH].
  unfold row_read_as_b in Hrow. rewrite forallb_forall in Hrow.
  apply Forall_forall. intros c Hc. apply list_elem_of_In, Hrow in Hc.
  destruct (r !! c) as [v|]; [|discriminate].
  exists v. split; [reflexivity|by apply read_as_b_sound].
Qed.

Lemma reads_back_b_sound (frame : pyresult DataFrame) :
  reads_back_b frame = true ->
  forall written, frame = Ok written ->
    CacheFacts.reads_back example_to_csv example_read_csv written.
Proof.
  intros H written ->. unfold reads_back_b in H. unfold CacheFacts.reads_back.
  destruct (example_read_csv (example_to_csv written)); [|discriminate].
  by apply rows_read_as_b_sound.
Qed.

Lemma save_then_load_witness :
  cache_path = "output/cache/cve_cache.csv"
  /\ dates_read saved_fs = Ok [Num nan; Str "2021-12-10"]
  /\ Cache.load_cve_cache example_read_csv example_json_loads cache_path saved_fs
     = Ok dated_and_undated.
Proof.
  split; [vm_compute; reflexivity|].
  split; [vm_compute; reflexivity|].
  destruct (CacheFacts.save_then_load example_to_csv example_read_csv example_json_dumps
              example_json_loads example_today dated_and_undated cache_path empty_fs
              saved_fs) as [(loaded & Hload & _ & _ & Hsame) _].
  - vm_compute. reflexivity.
  - apply reads_back_b_sound. vm_compute. reflexivity.
  - unfold dated_and_undated.
    apply map_Forall_insert_2; [eexists; split; vm_compute; reflexivity|].
    apply map_Forall_insert_2; [eexists; split; vm_compute; reflexivity|].
    apply map_Forall_empty.
  - rewrite Hload, Hsame.
    + vm_compute. reflexivity.
    + unfold dated_and_undated.
      apply map_Forall_insert_2; [reflexivity|].
      apply map_Forall_insert_2; [reflexivity|].
      apply map_Forall_empty.
Defined.

(** *** Categorization *)

Definition urgent_scan : DataFrame :=
  {| columns := ["Name"; "Risk"];
     rows := [list_to_map [("Name", Str "Open SMB share"); ("Risk", Str "Urgent")];
              list_to_map [("Name", Str "Self-signed certificate"); ("Risk", Null)]] |}.

Definition categorized_urgent_scan : DataFrame :=
  value_or urgent_scan
    (Categorization.categorize_vulnerabilities example_names example_buckets
       example_set_order urgent_scan).

(** A declared risk outside the seven labels is still there after
    categorization. *)
Lemma declared_risk_passes_through :
  risks_after_categorization urgent_scan = Ok [Str "Urgent"; Str "Medium"]
  /\ CategorizationFacts.is_canonical (Str "Urgent") = false.
Proof. split; vm_compute; reflexivity. Qed.

Lemma categorized_risk_labels_witness :
  Forall2 (fun r r' =>
             let declared := row_get r "Risk" Null in
             let risk := cell_of r' "Risk" in
             pd_isna risk = false
             /\ (CategorizationFacts.declared_wins declared = true -> risk = declared)
             /\ (CategorizationFacts.declared_wins declared = false ->
                 CategorizationFacts.is_canonical risk = true))
    (rows urgent_scan) (rows categorized_urgent_scan).
Proof.
  apply (CategorizationFacts.categorized_risk_labels example_names example_buckets
           example_set_order urgent_scan categorized_urgent_scan).
  - repeat constructor; by apply (bool_decide_unpack _).
  - apply is_ok_value. vm_compute. reflexivity.
Defined.



(** *** The pipeline *)

Definition scan_run := run_pipeline nvd_up scan.

Definition scan_frames :
    DataFrame * DataFrame * DataFrame * DataFrame * Analysis.results :=
  value_or (scan, scan, scan, scan,
            {| Analysis.risk_counts := []; Analysis.top_cves := [];
               Analysis.ip_vuln_counts := []; Analysis.patch_summary := [];
               Analysis.bucket_summary := []; Analysis.seol_summary := [];
               Analysis.scoring_summary := []; Analysis.vulnerability_insights := [];
               Analysis.common_critical := [] |})
    scan_run.1.1.

Definition scan_original : DataFrame := scan_frames.1.1.1.1.
Definition scan_processed : DataFrame := scan_frames.1.1.1.2.
Definition scan_check_needed : DataFrame := scan_frames.1.1.2.
Definition scan_analyzed : DataFrame := scan_frames.1.2.
Definition scan_results : Analysis.results := scan_frames.2.

Lemma scan_run_returns :
  scan_run
  = (Ok (scan_original, scan_processed, scan_check_needed, scan_analyzed, scan_results),
     scan_run.1.2, scan_run.2).
Proof.
  assert (H : scan_run.1.1 = Ok scan_frames).
  { apply is_ok_value. vm_compute. reflexivity. }
  unfold scan_original, scan_processed, scan_check_needed, scan_analyzed, scan_results.
  destruct scan_frames as [[[[o p] c] a] r]. cbn [fst snd]. rewrite <- H.
  symmetry. apply surjective_pairing_3.
Qed.



Lemma no_exploitability_score_column_witness :
  (forall frame, frame ∈ [scan_processed; scan_check_needed; scan_analyzed] ->
     "Exploitability Score" ∈ columns frame ->
     "Exploitability Score" ∈ columns scan)
  /\ ("Exploitability Score" ∉ columns scan ->
      ("Exploitability Score" ∉ columns scan_processed)
      /\ ("Exploitability Score" ∉ columns scan_check_needed)
      /\ ("Exploitability Score" ∉ columns scan_analyzed)).
Proof.
  apply (CoreFacts.no_exploitability_score_column example_float_of_str example_names
           example_buckets example_set_order example_clock nvd_up example_parse_date
           example_to_csv example_read_csv example_json_dumps example_json_loads
           example_today example_str_of_float example_str_of_int example_days_since
           example_risk_counts example_top_cves example_ip_vuln_counts
           example_patch_summary example_bucket_summary example_seol_summary
           Views.generate_scoring_summary example_vulnerability_insights
           scan kev (Some "output") false empty_fs Api.initial_world
           scan_original scan_processed scan_check_needed scan_analyzed scan_results
           scan_run.1.2 scan_run.2).
  - exact scan_run_returns.
  - apply (bool_decide_unpack _). vm_compute. exact I.
Defined.

End Examples.

(** * Further scenarios

    The environment of the worked examples, run through the lookup
    client, the cache file, categorization, scoring, enrichment and the
    whole pipeline. *)

Module Scenarios.

Import Examples.

(** *** Key rotation *)

(** The last key after its thousandth use: the next call wraps around to
    the first key. *)
Definition worn_world : Api.world :=
  {| Api.api_key_index := 3; Api.request_count := 1000; Api.clock_reads := 0;
     Api.requests := []; Api.sleeps := [] |}.

Lemma get_api_key_rotation_witness :
  ApiEffort.key_state_ok worn_world
  /\ exists key,
       (Api.get_api_key worn_world).1 = Ok key
       /\ Api.API_KEYS !! Api.api_key_index (Api.get_api_key worn_world).2 = Some key
       /\ ApiEffort.key_state_ok (Api.get_api_key worn_world).2
       /\ ((Api.request_count worn_world < 1000)%nat ->
           Api.api_key_index (Api.get_api_key worn_world).2 = Api.api_key_index worn_world
           /\ Api.request_count (Api.get_api_key worn_world).2
              = S (Api.request_count worn_world))
       /\ (Api.request_count worn_world = 1000%nat ->
           Api.api_key_index (Api.get_api_key worn_world).2
             = ((Api.api_key_index worn_world + 1) mod 4)%nat
           /\ Api.request_count (Api.get_api_key worn_world).2 = 1%nat)
       /\ Api.clock_reads (Api.get_api_key worn_world).2 = Api.clock_reads worn_world
       /\ Api.requests (Api.get_api_key worn_world).2 = Api.requests worn_world
       /\ Api.sleeps (Api.get_api_key worn_world).2 = Api.sleeps worn_world.
Proof.
  assert (H : ApiEffort.key_state_ok worn_world).
  { split; [cbn; lia|cbn [worn_world Api.request_count]; lia]. }
  split; [exact H|]. exact (ApiEffort.get_api_key_rotation worn_world H).
Defined.

(** *** Lookups *)

Lemma fetch_effort_is_bounded_witness :
  (exists sent, Api.requests failed_lookup.2 = Api.requests Api.initial_world ++ sent
     /\ (length sent <= Api.NVD_RETRY_ATTEMPTS)%nat
     /\ Forall (fun r => r.1 = (Api.NVD_BASE_URL ++ "?cveId=" ++ "CVE-2099-0001")%string)
          sent)
  /\ (Api.clock_reads failed_lookup.2 <= Api.clock_reads Api.initial_world + 6)%nat
  /\ (exists slept, Api.sleeps failed_lookup.2 = Api.sleeps Api.initial_world ++ slept
        /\ Forall (fun s => 0 < s) slept
        /\ ApiEffort.total slept <= 75)
  /\ (is_Some (cache_example !! "CVE-2099-0001") -> failed_lookup.2 = Api.initial_world).
Proof.
  apply (ApiEffort.fetch_effort_is_bounded example_clock nvd_down example_parse_date
           "CVE-2099-0001" cache_example 30%float Api.initial_world
           failed_lookup.1.1 failed_lookup.1.2 failed_lookup.2).
  symmetry. apply surjective_pairing_3.
Defined.

(** The Log4j record is found at the first attempt. *)
Definition found_lookup :=
  Api.fetch_cve_details example_clock nvd_up example_parse_date
    "CVE-2021-44228" ∅ 30%float Api.initial_world.

Lemma fetch_result_is_cached_witness :
  (forall e, found_lookup.1.1 = Ok e ->
     found_lookup.1.2 !! "CVE-2021-44228" = Some e
     /\ (forall other, other <> "CVE-2021-44228" ->
           found_lookup.1.2 !! other = (∅ : cve_cache) !! other)
     /\ forall (timeout_threshold' : float) (later_world : Api.world),
          Api.fetch_cve_details example_clock nvd_up example_parse_date
            "CVE-2021-44228" found_lookup.1.2 timeout_threshold' later_world
            = (Ok e, found_lookup.1.2, later_world))
  /\ (forall x, found_lookup.1.1 = Raise x ->
        found_lookup.1.2 = ∅
        /\ Api.is_request_exception x = false
        /\ (∅ : cve_cache) !! "CVE-2021-44228" = None).
Proof.
  apply (ApiEffort.fetch_result_is_cached example_clock nvd_up example_parse_date
           "CVE-2021-44228" ∅ 30%float Api.initial_world
           found_lookup.1.1 found_lookup.1.2 found_lookup.2).
  symmetry. apply surjective_pairing_3.
Defined.

Lemma first_record_decides_witness :
  found_lookup.1.1 = Api.entry_of_cve example_parse_date log4j_record
  /\ found_lookup.1.2
     = match Api.entry_of_cve example_parse_date log4j_record with
       | Ok e => <["CVE-2021-44228" := e]> ∅
       | Raise _ => ∅
       end
  /\ Api.requests found_lookup.2
     = Api.requests Api.initial_world
       ++ [((Api.NVD_BASE_URL ++ "?cveId=" ++ "CVE-2021-44228")%string,
            "1ded7e2c-e9ab-4f52-9912-28e6813f4ecc")]
  /\ Api.sleeps found_lookup.2 = Api.sleeps Api.initial_world
  /\ Api.clock_reads found_lookup.2 = (Api.clock_reads Api.initial_world + 2)%nat
  /\ (forall published_raw,
        Api.published log4j_record = Some published_raw -> published_raw <> "" ->
        example_parse_date (split_head "T" published_raw) = None ->
        found_lookup.1.1 = Raise ValueError /\ found_lookup.1.2 = ∅).
Proof.
  apply (ApiEffort.first_record_decides example_clock nvd_up example_parse_date
           "CVE-2021-44228" ∅ 30%float Api.initial_world
           "1ded7e2c-e9ab-4f52-9912-28e6813f4ecc" 200 log4j_record []).
  - apply lookup_empty.
  - vm_compute. reflexivity.
  - vm_compute. reflexivity.
  - reflexivity.
  - vm_compute. reflexivity.
  - vm_compute. reflexivity.
Defined.

Lemma timeout_before_first_request_witness :
  timed_out_lookup.1.1 = Ok Api.not_found_entry
  /\ timed_out_lookup.1.2 = <["CVE-2021-44228" := Api.not_found_entry]> ∅
  /\ Api.requests timed_out_lookup.2 = Api.requests Api.initial_world
  /\ Api.sleeps timed_out_lookup.2 = Api.sleeps Api.initial_world
  /\ forall (timeout_threshold' : float) (later_world : Api.world),
       Api.fetch_cve_details slow_clock nvd_up example_parse_date
         "CVE-2021-44228" timed_out_lookup.1.2 timeout_threshold' later_world
       = (Ok Api.not_found_entry, timed_out_lookup.1.2, later_world).
Proof.
  apply (ApiEffort.timeout_before_first_request slow_clock nvd_up example_parse_date
           "CVE-2021-44228" ∅ 30%float Api.initial_world
           "1ded7e2c-e9ab-4f52-9912-28e6813f4ecc").
  - apply lookup_empty.
  - vm_compute. reflexivity.
  - vm_compute. reflexivity.
Defined.

Definition log4j_entry : CacheEntry :=
  value_or Api.not_found_entry (Api.entry_of_cve example_parse_date log4j_record).

Lemma entry_of_cve_status_witness :
  status (patch_info log4j_entry) = Str "Available"
  /\ date_obj log4j_entry = Str "2021-12-10"
  /\ references (patch_info log4j_entry)
     = JArr [JObj [("url", JStr "https://logging.apache.org/log4j/2.x/security.html");
                   ("source", JStr "security@apache.org");
                   ("tags", JArr [JStr "Vendor Advisory"])]]
  /\ exists tagged others,
       default [] (Api.cve_references log4j_record) ≡ₚ tagged ++ others
       /\ sublist tagged (default [] (Api.cve_references log4j_record))
       /\ Forall ApiEffort.patch_tagged tagged
       /\ Forall (fun ref => ~ ApiEffort.patch_tagged ref) others
       /\ references (patch_info log4j_entry)
          = JArr ((fun ref =>
                     JObj [("url", JStr (default "" (Api.ref_url ref)));
                           ("source", JStr (default "Unknown" (Api.ref_source ref)));
                           ("tags", JArr (JStr <$> default [] (Api.ref_tags ref)))])
                  <$> tagged)
       /\ (status (patch_info log4j_entry) = Str "Available" <-> tagged <> [])
       /\ (tagged = [] ->
           status (patch_info log4j_entry)
             = Str (if Api.workarounds log4j_record
                    then "Workaround Available" else "Not Found"))
       /\ (date_obj log4j_entry = Null <-> default "" (Api.published log4j_record) = "")
       /\ (forall published_raw, Api.published log4j_record = Some published_raw ->
             published_raw <> "" ->
             exists iso, example_parse_date (split_head "T" published_raw) = Some iso
                         /\ date_obj log4j_entry = Str iso).
Proof.
  split; [vm_compute; reflexivity|]. split; [vm_compute; reflexivity|].
  split; [vm_compute; reflexivity|].
  apply (ApiEffort.entry_of_cve_status example_parse_date log4j_record log4j_entry).
  apply is_ok_value. vm_compute. reflexivity.
Defined.

(** *** The cache file *)

Definition saved_text : string :=
  example_to_csv
    (value_or {| columns := []; rows := [] |}
       (Cache.cache_frame example_json_dumps example_today dated_and_undated)).

Lemma load_cve_cache_recovers_witness :
  Cache.files saved_fs !! cache_path = Some saved_text
  /\ (forall e, example_read_csv saved_text = Raise e -> e <> Unsupported ->
        Cache.load_cve_cache example_read_csv example_json_loads cache_path saved_fs
          = Ok ∅)
  /\ (forall df, example_read_csv saved_text = Ok df ->
        Forall CacheEdges.text_id (rows df) ->
        (exists cache,
           Cache.load_cve_cache example_read_csv example_json_loads cache_path saved_fs
             = Ok cache)
        /\ (Exists (fun r => r !! "date_obj" = None \/ r !! "patch_status" = None)
              (rows df) ->
            Cache.load_cve_cache example_read_csv example_json_loads cache_path saved_fs
              = Ok ∅)
        /\ (rows df = [] ->
            Cache.load_cve_cache example_read_csv example_json_loads cache_path saved_fs
              = Ok ∅)).
Proof.
  assert (H : Cache.files saved_fs !! cache_path = Some saved_text).
  { vm_compute. reflexivity. }
  split; [exact H|].
  exact (CacheEdges.load_cve_cache_recovers example_read_csv example_json_loads
           cache_path saved_text saved_fs H).
Defined.

(** *** Categorization *)

(** The name of the Log4j finding mentions the pattern "log4j". *)
Lemma log4j_mentioned :
  CategorizationMatching.mentions "Apache Log4j SEoL" ["log4j"; "remote code execution"].
Proof.
  exists "log4j". split; [apply elem_of_cons; by left|].
  exists "Apache ", "Log4j", " SEoL". split; [reflexivity|].
  apply LetterCase.lower_caseless. reflexivity.
Qed.

Lemma severity_is_first_match_witness :
  is_ascii "Apache Log4j SEoL" = true
  /\ CategorizationMatching.ascii_patterns example_names
  /\ CategorizationFacts.declared_wins Null = false
  /\ Categorization.assign_severity example_names (Str "Apache Log4j SEoL") Null
     = Ok (Str "Critical")
  /\ Categorization.assign_severity example_names (Str "APACHE LOG4J SEOL") Null
     = Categorization.assign_severity example_names (Str "Apache Log4j SEoL") Null
  /\ (Forall (fun m => ~ CategorizationMatching.mentions "Apache Log4j SEoL" m.2)
        example_names ->
      Categorization.assign_severity example_names (Str "Apache Log4j SEoL") Null
        = Ok (Str "Check Needed"))
  /\ Categorization.assign_severity example_names Null Null = Ok (Str "Informational").
Proof.
  assert (Hname : is_ascii "Apache Log4j SEoL" = true) by reflexivity.
  assert (Hpatterns : CategorizationMatching.ascii_patterns example_names).
  { repeat constructor. }
  assert (H : CategorizationFacts.declared_wins Null = false) by reflexivity.
  split; [exact Hname|]. split; [exact Hpatterns|]. split; [exact H|].
  destruct (CategorizationMatching.severity_is_first_match example_names
              "Apache Log4j SEoL" Null Hname Hpatterns H)
    as (Hfirst & Hnone & _ & Hcase & Hmissing & _).
  split; [|split; [|split; [exact Hnone|exact Hmissing]]].
  - apply (Hfirst [] "Critical" ["log4j"; "remote code execution"]
             [("Medium", ["self-signed"]); ("None", ["traceroute information"])]).
    + reflexivity.
    + constructor.
    + exact log4j_mentioned.
  - apply Hcase; [reflexivity|]. apply LetterCase.lower_caseless. reflexivity.
Defined.

Lemma bucket_text_lists_matches_witness :
  is_ascii "Apache Log4j SEoL" = true
  /\ CategorizationMatching.ascii_patterns example_buckets
  /\ (forall l, example_set_order l ≡ₚ l)
  /\ ((exists bucket keywords,
         (bucket, keywords) ∈ example_buckets
         /\ CategorizationMatching.mentions "Apache Log4j SEoL" keywords) ->
      exists labels,
        Categorization.categorize_name example_buckets example_set_order
          (Str "Apache Log4j SEoL") = Ok (join ", " labels)
        /\ NoDup labels
        /\ forall bucket, bucket ∈ labels
             <-> exists keywords,
                   (bucket, keywords) ∈ example_buckets
                   /\ CategorizationMatching.mentions "Apache Log4j SEoL" keywords)
  /\ ((forall bucket keywords, (bucket, keywords) ∈ example_buckets ->
         ~ CategorizationMatching.mentions "Apache Log4j SEoL" keywords) ->
      Categorization.categorize_name example_buckets example_set_order
        (Str "Apache Log4j SEoL") = Ok "Miscellaneous")
  /\ (forall name', is_ascii name' = true ->
        LetterCase.caseless_eq name' "Apache Log4j SEoL" ->
        Categorization.categorize_name example_buckets example_set_order (Str name')
          = Categorization.categorize_name example_buckets example_set_order
              (Str "Apache Log4j SEoL"))
  /\ Categorization.categorize_name example_buckets example_set_order
       (Str "Apache Log4j SEoL") = Ok "Web Server, End of Life".
Proof.
  assert (Hname : is_ascii "Apache Log4j SEoL" = true) by reflexivity.
  assert (Hkeywords : CategorizationMatching.ascii_patterns example_buckets).
  { repeat constructor. }
  assert (H : forall l, example_set_order l ≡ₚ l) by (intros l; reflexivity).
  split; [exact Hname|]. split; [exact Hkeywords|]. split; [exact H|].
  pose proof (CategorizationMatching.bucket_text_lists_matches example_buckets
                example_set_order "Apache Log4j SEoL" Hname Hkeywords H) as (H1 & H2 & H3).
  split; [exact H1|]. split; [exact H2|]. split; [exact H3|].
  vm_compute. reflexivity.
Defined.

Lemma categorize_is_idempotent_witness :
  Categorization.categorize_vulnerabilities example_names example_buckets
    example_set_order categorized_urgent_scan
  = Ok categorized_urgent_scan.
Proof.
  apply (CategorizationMatching.categorize_is_idempotent example_names example_buckets
           example_set_order urgent_scan categorized_urgent_scan).
  apply is_ok_value. vm_compute. reflexivity.
Defined.

(** *** Scoring *)

Definition scored_example : DataFrame :=
  value_or analyzed_example (Scoring.add_scoring_data example_float_of_str analyzed_example).

Lemma exploitability_score_column_witness :
  (fun r => cell_of r "Exploitability Score") <$> rows scored_example
    = [Int 10; Int 10; Int 6]
  /\ "Exploitability Score" ∈ columns scored_example
  /\ Forall (fun r' => cell_of r' "Exploitability Score"
                         = Int (Scoring.calculate_exploitability_score r')
                       /\ 0 <= Scoring.calculate_exploitability_score r' <= 12)
       (rows scored_example)
  /\ forall r, 0 <= Scoring.calculate_exploitability_score r <= 12.
Proof.
  split; [vm_compute; reflexivity|].
  apply (ScoringColumns.exploitability_score_column example_float_of_str
           analyzed_example scored_example).
  - apply is_ok_value. vm_compute. reflexivity.
  - by apply (bool_decide_unpack _).
  - left. by apply (bool_decide_unpack _).
  - left. by apply (bool_decide_unpack _).
Defined.

(** *** Enrichment *)

Definition no_results : Analysis.results :=
  {| Analysis.risk_counts := []; Analysis.top_cves := [];
     Analysis.ip_vuln_counts := []; Analysis.patch_summary := [];
     Analysis.bucket_summary := []; Analysis.seol_summary := [];
     Analysis.scoring_summary := []; Analysis.vulnerability_insights := [];
     Analysis.common_critical := [] |}.

(** The scan once categorized, as the pipeline hands it on. *)
Definition categorized_scan : DataFrame :=
  value_or scan
    (Categorization.categorize_vulnerabilities example_names example_buckets
       example_set_order scan).

Definition enrich_example :=
  Analysis.analyze_vulnerability_data example_str_of_float example_str_of_int
    example_days_since example_risk_counts example_top_cves example_ip_vuln_counts
    example_patch_summary example_bucket_summary example_seol_summary
    Views.generate_scoring_summary example_vulnerability_insights
    categorized_scan kev cache_example.

Definition enriched_frames : DataFrame * DataFrame * DataFrame * Analysis.results :=
  value_or (scan, scan, scan, no_results) enrich_example.

Lemma enrich_example_returns :
  enrich_example
  = Ok (enriched_frames.1.1.1, enriched_frames.1.1.2, enriched_frames.1.2,
        enriched_frames.2).
Proof.
  assert (H : enrich_example = Ok enriched_frames).
  { apply is_ok_value. vm_compute. reflexivity. }
  rewrite H. by destruct enriched_frames as [[[p c] a] r].
Qed.

Lemma enrichment_row_by_row_witness :
  (fun r => cell_of r "KEV Listed") <$> rows enriched_frames.1.1.1 = [Str "Yes"; Str "No"]
  /\ (fun r => cell_of r "Patch Status") <$> rows enriched_frames.1.1.1
     = [Str "Available"; Str "Unknown"]
  /\ Forall2 (EnrichmentRows.enriched kev cache_example)
       (rows categorized_scan) (rows enriched_frames.1.1.1).
Proof.
  split; [vm_compute; reflexivity|]. split; [vm_compute; reflexivity|].
  apply (EnrichmentRows.enrichment_row_by_row example_str_of_float example_str_of_int
           example_days_since example_risk_counts example_top_cves example_ip_vuln_counts
           example_patch_summary example_bucket_summary example_seol_summary
           Views.generate_scoring_summary example_vulnerability_insights
           categorized_scan enriched_frames.1.1.1 enriched_frames.1.1.2
           enriched_frames.1.2
           kev cache_example enriched_frames.2).
  exact enrich_example_returns.
Defined.

(** *** The common-critical view *)

Lemma common_critical_is_complete_witness :
  length view_example = 2%nat
  /\ (forallb (has_column analyzed_example)
        ["CVSS Category"; "EPSS Category"; "VPR Category"; "KEV Listed"] = false ->
      view_example = [])
  /\ (forallb (has_column analyzed_example)
        ["CVSS Category"; "EPSS Category"; "VPR Category"; "KEV Listed"] = true ->
      exists selected others,
        rows analyzed_example ≡ₚ selected ++ others
        /\ Forall EnrichmentFacts.qualifies selected
        /\ Forall (fun r => ~ EnrichmentFacts.qualifies r) others
        /\ Forall2 (fun (r record : row) =>
                      (forall c, is_Some (record !! c)
                                 <-> c ∈ EnrichmentFacts.view_columns
                                     /\ (c ∈ columns analyzed_example
                                         \/ c = "Combined Priority"))
                      /\ (forall c, c ∈ columns analyzed_example ->
                            c ∈ EnrichmentFacts.carried_columns ->
                            exists c', record !! c = Some c'
                                       /\ EnrichmentFacts.cleaned (cell_of r c) c')
                      /\ (forall cvss epss vpr,
                            r !! "CVSS Category" = Some (Str cvss) ->
                            r !! "EPSS Category" = Some (Str epss) ->
                            r !! "VPR Category" = Some (Str vpr) ->
                            record !! "Combined Priority"
                              = Some (Int (2 * AnalysisFacts.spec_band_value cvss
                                           + AnalysisFacts.spec_band_value epss
                                           + AnalysisFacts.spec_band_value vpr))))
             selected view_example).
Proof.
  split; [vm_compute; reflexivity|].
  apply (EnrichmentFacts.common_critical_is_complete analyzed_example view_example).
  apply is_ok_value. vm_compute. reflexivity.
Defined.

Lemma common_critical_returns_witness :
  has_column analyzed_example "CVSS v3.0 Base Score" = true
  /\ exists out, Analysis.generate_common_critical analyzed_example = Ok out.
Proof.
  assert (H : has_column analyzed_example "CVSS v3.0 Base Score" = true).
  { vm_compute. reflexivity. }
  split; [exact H|].
  apply (AnalysisFacts.common_critical_returns analyzed_example H).
  repeat constructor; eexists; vm_compute; reflexivity.
Defined.

(** A frame that was scored elsewhere: the categories without the raw
    CVSS score. *)
Definition categories_only : DataFrame :=
  {| columns := ["CVE"; "CVSS Category"; "EPSS Category"; "VPR Category"; "KEV Listed"];
     rows := [scored_row "CVE-2020-0002" 9.8 0.75 8.1] |}.

Lemma common_critical_without_score_witness :
  has_column categories_only "CVSS v3.0 Base Score" = false
  /\ length (List.filter Analysis.is_common_critical (rows categories_only)) = 1%nat
  /\ Analysis.generate_common_critical categories_only = Raise ValueError.
Proof.
  split; [vm_compute; reflexivity|]. split; [vm_compute; reflexivity|].
  apply (AnalysisFacts.common_critical_without_score categories_only).
  - vm_compute. reflexivity.
  - vm_compute. reflexivity.
  - intros H. apply (f_equal length) in H. vm_compute in H. discriminate H.
Defined.

(** *** The pipeline *)

Lemma pipeline_frames_partition_witness :
  rows scan_check_needed
    = List.filter (fun r => cell_is (cell_of r "Risk") "Check Needed") (rows scan_processed)
  /\ rows scan_analyzed
     = List.filter (fun r => negb (cell_is (cell_of r "Risk") "Check Needed"))
         (rows scan_processed)
  /\ rows scan_check_needed ++ rows scan_analyzed ≡ₚ rows scan_processed
  /\ (length (rows scan_check_needed) + length (rows scan_analyzed)
      = length (rows scan_processed))%nat
  /\ (length (rows scan_processed) <= length (rows scan))%nat
  /\ Forall (fun r => cell_of r "Risk" = Str "Check Needed") (rows scan_check_needed)
  /\ Forall (fun r => cell_of r "Risk" <> Str "Check Needed") (rows scan_analyzed).
Proof.
  apply (PipelineFacts.pipeline_frames_partition example_float_of_str example_names
           example_buckets example_set_order example_clock nvd_up example_parse_date
           example_to_csv example_read_csv example_json_dumps example_json_loads
           example_today example_str_of_float example_str_of_int example_days_since
           example_risk_counts example_top_cves example_ip_vuln_counts
           example_patch_summary example_bucket_summary example_seol_summary
           Views.generate_scoring_summary example_vulnerability_insights
           scan kev (Some "output") false empty_fs Api.initial_world
           scan_original scan_processed scan_check_needed scan_analyzed scan_results
           scan_run.1.2 scan_run.2).
  exact scan_run_returns.
Defined.

Lemma cve_details_are_resolved_witness :
  exists loaded job_cve_cache,
    Cache.load_cve_cache example_read_csv example_json_loads
      (Cache.get_cache_path (Some "output") None)
      (PipelineFacts.after_clear false (Cache.get_cache_path (Some "output") None) empty_fs)
    = Ok loaded
    /\ loaded ⊆ job_cve_cache
    /\ scan_run.1.2
       = (Cache.save_cve_cache example_to_csv example_json_dumps example_today
            job_cve_cache (Cache.get_cache_path (Some "output") None)
            (PipelineFacts.after_clear false (Cache.get_cache_path (Some "output") None)
               empty_fs)).2
    /\ Forall (fun r' =>
                 forall id, cell_of r' "CVE" = Str id ->
                   exists e, job_cve_cache !! id = Some e
                             /\ cell_of r' "Patch Status" = status (patch_info e)
                             /\ cell_of r' "CVE Published Date" = date_obj e)
         (rows scan_processed).
Proof.
  apply (PipelineFacts.cve_details_are_resolved example_float_of_str example_names
           example_buckets example_set_order example_clock nvd_up example_parse_date
           example_to_csv example_read_csv example_json_dumps example_json_loads
           example_today example_str_of_float example_str_of_int example_days_since
           example_risk_counts example_top_cves example_ip_vuln_counts
           example_patch_summary example_bucket_summary example_seol_summary
           Views.generate_scoring_summary example_vulnerability_insights
           scan kev (Some "output") false empty_fs Api.initial_world
           scan_original scan_processed scan_check_needed scan_analyzed scan_results
           scan_run.1.2 scan_run.2).
  exact scan_run_returns.
Defined.

Lemma pipeline_network_effort_witness :
  length (Api.requests scan_run.2) = 1%nat
  /\ exists sent,
       Api.requests scan_run.2 = Api.requests Api.initial_world ++ sent
       /\ (forall loaded working_df unique_cves,
             Cache.load_cve_cache example_read_csv example_json_loads
               (Cache.get_cache_path (Some "output") None)
               (PipelineFacts.after_clear false
                  (Cache.get_cache_path (Some "output") None) empty_fs)
             = Ok loaded ->
             Core.categorize_and_filter example_names example_buckets example_set_order scan
             = Ok (working_df, unique_cves) ->
             (length sent <= 5 * length (PipelineFacts.uncached loaded unique_cves))%nat
             /\ (Forall (fun id => is_Some (loaded !! id)) unique_cves ->
                 scan_run.2 = Api.initial_world))
       /\ ((forall loaded,
              Cache.load_cve_cache example_read_csv example_json_loads
                (Cache.get_cache_path (Some "output") None)
                (PipelineFacts.after_clear false
                   (Cache.get_cache_path (Some "output") None) empty_fs)
              <> Ok loaded) ->
           scan_run.2 = Api.initial_world)
       /\ ((forall frames,
              Core.categorize_and_filter example_names example_buckets example_set_order
                scan <> Ok frames) ->
           scan_run.2 = Api.initial_world).
Proof.
  split; [vm_compute; reflexivity|].
  apply (PipelineFacts.pipeline_network_effort example_float_of_str example_names
           example_buckets example_set_order example_clock nvd_up example_parse_date
           example_to_csv example_read_csv example_json_dumps example_json_loads
           example_today example_str_of_float example_str_of_int example_days_since
           example_risk_counts example_top_cves example_ip_vuln_counts
           example_patch_summary example_bucket_summary example_seol_summary
           Views.generate_scoring_summary example_vulnerability_insights
           scan kev (Some "output") false empty_fs Api.initial_world
           (Ok (scan_original, scan_processed, scan_check_needed, scan_analyzed,
                scan_results))
           scan_run.1.2 scan_run.2).
  exact scan_run_returns.
Defined.

End Scenarios.
